(** * DevToolsProtection (dev.js): a shallow embedding and its properties

    The script is one class, [DevToolsProtection], whose methods mutate the
    instance fields, the document, the timer table and the console.  The
    embedding threads one [State] through every method; a method body is a
    computation that either completes normally or throws, keeping the state
    it had reached (JavaScript does not roll back).

    Scope of the model.
    - Window dimensions are CSSOM integers ([Z]); the time measured across
      the [debugger] statement is a rational number of milliseconds.
    - A DOM node is a handle with its tag name and its [id] attribute; the
      css text and inner HTML the script gives its nodes are not modelled.
      A closure that keeps a node keeps this value, and a timer that comes
      due is named by its entry in the timer table.
    - A timer id is a [positive]: HTML timer handles are integers greater
      than zero, hence always truthy in the guards that test them.
    - Timers carry their delay, but time itself is not modelled: any
      pending timer may come due next.
    - The operations that may throw are the console methods (a page may
      have replaced them), the two clipboard writes, and every access to
      [document.body], which is [null] until the parser has reached the
      body: a script the parser runs in the head sees no body.
      [document.head] exists whenever a parser-inserted script runs.
    - [navigator.clipboard.writeText] returns a promise the script does not
      await.  The model records that the write was requested; whether the
      clipboard changes or the promise rejects is decided by the browser
      later and is not modelled.
    - The field [detectionMethods] is never read and is left out.
    - Only this script changes the document and the instance; listeners of
      the host page are not modelled. *)

From Stdlib Require Import String List ZArith PArith QArith Bool Arith Lia.
Import ListNotations.
Local Open Scope string_scope.
Local Open Scope list_scope.
Local Open Scope Z_scope.

(** ** Completions: normal termination or an exception *)

Inductive Completion (S : Type) : Type :=
| Normal (s : S)
| Throw (s : S).
Arguments Normal {S} s.
Arguments Throw {S} s.

Definition M (S : Type) : Type := S -> Completion S.

(** The state a computation leaves behind, whichever way it ends. *)
Definition final {S} (c : Completion S) : S :=
  match c with Normal s => s | Throw s => s end.

Definition escapes {S} (c : Completion S) : bool :=
  match c with Normal _ => false | Throw _ => true end.

Definition skip {S} : M S := fun s => Normal s.

Definition andThen {S} (a b : M S) : M S :=
  fun s => match a s with Normal s' => b s' | Throw s' => Throw s' end.

Definition modify {S} (f : S -> S) : M S := fun s => Normal (f s).

(** [try { a } catch (e) { }] with an empty handler. *)
Definition tryIgnore {S} (a : M S) : M S :=
  fun s => match a s with Normal s' => Normal s' | Throw s' => Normal s' end.

Definition ifM {S} (c : S -> bool) (a b : M S) : M S :=
  fun s => if c s then a s else b s.

Definition whenM {S} (c : S -> bool) (a : M S) : M S := ifM c a skip.

Fixpoint times {S} (n : nat) (a : M S) : M S :=
  match n with
  | O => skip
  | S k => andThen a (times k a)
  end.

(** [xs.forEach(x => body x)] *)
Fixpoint forEach {A S} (xs : list A) (body : A -> M S) : M S :=
  match xs with
  | [] => skip
  | x :: r => andThen (body x) (forEach r body)
  end.

Declare Scope js_scope.
Delimit Scope js_scope with js.
Notation "a ;; b" := (andThen a b) (at level 61, right associativity) : js_scope.
Local Open Scope js_scope.

(** ** Data model *)

Record Node := mkNode {
  handle : nat;          (* identity of the node object *)
  tagName : string;
  id : string
}.

Inductive ConsoleMethod := c_log | c_clear | c_warn | c_error.

(** What the script prints; one constructor per distinct call site text. *)
Inductive Message :=
| MsgElement           (* console.log(element), detectExistingDevTools *)
| MsgDetector          (* console.log('%c', detector), detectByConsole *)
| MsgNetworkBlocked    (* 'Network request blocked due to dev tools' *)
| MsgActivated         (* 'Full protection activated' *)
| MsgDeactivated       (* 'Protection deactivated - dev tools closed' *)
| MsgBanner            (* '%c... PROTECTED CONTENT' *)
| MsgBlocked           (* '%cDeveloper tools detected and blocked.' *)
| MsgCloseTools        (* '%cClose developer tools to continue.' *)
| MsgRule              (* '%c' + rule.repeat(50) *)
| MsgAccessDenied      (* console.warn('Access Denied') *)
| MsgUnauthorized      (* console.error('Unauthorized Access Attempt') *)
| MsgDetected          (* '... Developer tools detected!', handleDevToolsDetected *)
| MsgLoaded.           (* '... Site protection loaded' *)

(** Closures handed to [setInterval] and [setTimeout]. *)
Inductive Callback :=
| CbWindowSize                     (* () => this.detectByWindowSize() *)
| CbConsole                        (* () => this.detectByConsole() *)
| CbTiming                         (* () => this.detectByTiming() *)
| CbElementInspection              (* () => this.detectElementInspection() *)
| CbInspectCleanup (observer : nat) (testElement : Node)
| CbRecheck                        (* the body of checkIfReallyClosed *)
| CbGlobals                        (* the suspiciousVars scan *)
| CbSpam                           (* the console-spam body *)
| CbRedirect                       (* the disabled redirect of handleDevToolsDetected *)
| CbWarningHide (warning animationStyle : Node)
| CbWarningRemove (warning : Node).

Record Timer := mkTimer {
  tid : positive;
  repeating : bool;       (* setInterval / setTimeout *)
  delay : Z;
  callback : Callback
}.

Inductive EventType :=
| keydown | keyup | contextmenu | mousedown | selectstart | dragstart
| copy | beforeprint | message | click | DOMContentLoaded | fetchCall.

Inductive Target := Win | Doc | Elem (h : nat).

(** Closures handed to [addEventListener] (and the [window.fetch] wrapper). *)
Inductive Listener :=
| LKeydown | LContextmenu | LMousedownMiddle      (* disableAllDevToolsAccess *)
| LDomReady                                       (* initImmediate *)
| LFetchWrapper                                   (* monitorNetworkTab *)
| LMousedownCtrl | LSelectstart                   (* preventInspection *)
| LMessage                                        (* blockCommonBypassMethods *)
| LOverlayClick                                   (* showProtectionOverlay *)
| LDragstart | LCopy | LBeforeprint | LKeyup.     (* setupAdvancedListeners *)

Record Registration := mkRegistration {
  reg_target : Target;
  reg_type : EventType;
  reg_capture : bool;
  reg_listener : Listener
}.

Record Observer := mkObserver {
  oid : nat;
  observed : nat          (* handle of the observed node, attributes only *)
}.

Inductive MutationType := attributes | childList | characterData.

Record MutationRecord := mkMutation {
  mtype : MutationType;
  mtarget : nat
}.

(** The ambient environment the probes read. *)
Record Env := mkEnv {
  outerHeight : Z;
  innerHeight : Z;
  outerWidth : Z;
  innerWidth : Z;
  readyStateLoading : bool;             (* document.readyState === 'loading' *)
  callableGlobal : string -> bool;      (* window[v] && typeof window[v] === 'function' *)
  logReadsId : bool;                    (* logging the Image reads its id getter *)
  logReadsToString : bool;              (* logging the detector reads toString *)
  debuggerElapsed : Q;                  (* end - start across [debugger] *)
  consoleThrows : ConsoleMethod -> bool;
  navigatorClipboard : bool;            (* navigator.clipboard is defined *)
  bodyPresent : bool                    (* document.body is not null *)
}.

Record Instance := mkInstance {
  isDevToolsOpen : bool;
  protectionActive : bool;
  warningShown : bool;
  consoleSpamInterval : option positive   (* undefined or null: None *)
}.

Record Style := mkStyle {
  css_filter : string;
  css_opacity : string;
  css_pointerEvents : string
}.

Record Document := mkDocument {
  doc_head : list Node;
  doc_body : list Node;
  classList : list string;      (* document.body.classList *)
  body_style : Style            (* document.body.style *)
}.

Record Runtime := mkRuntime {
  timers : list Timer;
  next_timer : positive;
  listeners : list Registration;
  observers : list Observer;
  next_handle : nat;
  console : list (ConsoleMethod * Message);
  clipboardWrites : list string   (* the texts handed to navigator.clipboard.writeText *)
}.

Record State := mkState {
  this : Instance;
  document : Document;
  rt : Runtime;
  window : Env
}.

Record Event := mkEvent {
  key : string;
  ctrlKey : bool;
  shiftKey : bool;
  altKey : bool;
  metaKey : bool;
  button : Z;
  target_tagName : string;                       (* e.target.tagName *)
  clipboardData : option (list (string * string)); (* null: None *)
  cancelable : bool;
  defaultPrevented : bool;
  propagationStopped : bool
}.

(** ** Field updates *)

Definition upd_this (f : Instance -> Instance) (st : State) : State :=
  mkState (f (this st)) (document st) (rt st) (window st).
Definition upd_document (f : Document -> Document) (st : State) : State :=
  mkState (this st) (f (document st)) (rt st) (window st).
Definition upd_rt (f : Runtime -> Runtime) (st : State) : State :=
  mkState (this st) (document st) (f (rt st)) (window st).
Definition set_window (e : Env) (st : State) : State :=
  mkState (this st) (document st) (rt st) e.

Definition set_isDevToolsOpen (b : bool) (i : Instance) : Instance :=
  mkInstance b (protectionActive i) (warningShown i) (consoleSpamInterval i).
Definition set_protectionActive (b : bool) (i : Instance) : Instance :=
  mkInstance (isDevToolsOpen i) b (warningShown i) (consoleSpamInterval i).
Definition set_warningShown (b : bool) (i : Instance) : Instance :=
  mkInstance (isDevToolsOpen i) (protectionActive i) b (consoleSpamInterval i).
Definition set_consoleSpamInterval (o : option positive) (i : Instance) : Instance :=
  mkInstance (isDevToolsOpen i) (protectionActive i) (warningShown i) o.

Definition set_head (l : list Node) (d : Document) : Document :=
  mkDocument l (doc_body d) (classList d) (body_style d).
Definition set_body (l : list Node) (d : Document) : Document :=
  mkDocument (doc_head d) l (classList d) (body_style d).
Definition set_classList (l : list string) (d : Document) : Document :=
  mkDocument (doc_head d) (doc_body d) l (body_style d).
Definition set_body_style (s : Style) (d : Document) : Document :=
  mkDocument (doc_head d) (doc_body d) (classList d) s.

Definition set_filter (v : string) (s : Style) : Style :=
  mkStyle v (css_opacity s) (css_pointerEvents s).
Definition set_opacity (v : string) (s : Style) : Style :=
  mkStyle (css_filter s) v (css_pointerEvents s).
Definition set_pointerEvents (v : string) (s : Style) : Style :=
  mkStyle (css_filter s) (css_opacity s) v.

Definition set_timers (l : list Timer) (r : Runtime) : Runtime :=
  mkRuntime l (next_timer r) (listeners r) (observers r) (next_handle r)
            (console r) (clipboardWrites r).
Definition set_next_timer (n : positive) (r : Runtime) : Runtime :=
  mkRuntime (timers r) n (listeners r) (observers r) (next_handle r)
            (console r) (clipboardWrites r).
Definition set_listeners (l : list Registration) (r : Runtime) : Runtime :=
  mkRuntime (timers r) (next_timer r) l (observers r) (next_handle r)
            (console r) (clipboardWrites r).
Definition set_observers (l : list Observer) (r : Runtime) : Runtime :=
  mkRuntime (timers r) (next_timer r) (listeners r) l (next_handle r)
            (console r) (clipboardWrites r).
Definition set_next_handle (n : nat) (r : Runtime) : Runtime :=
  mkRuntime (timers r) (next_timer r) (listeners r) (observers r) n
            (console r) (clipboardWrites r).
Definition set_console (l : list (ConsoleMethod * Message)) (r : Runtime) : Runtime :=
  mkRuntime (timers r) (next_timer r) (listeners r) (observers r)
            (next_handle r) l (clipboardWrites r).
Definition set_clipboardWrites (l : list string) (r : Runtime) : Runtime :=
  mkRuntime (timers r) (next_timer r) (listeners r) (observers r)
            (next_handle r) (console r) l.

Definition set_defaultPrevented (b : bool) (e : Event) : Event :=
  mkEvent (key e) (ctrlKey e) (shiftKey e) (altKey e) (metaKey e) (button e)
          (target_tagName e) (clipboardData e) (cancelable e) b
          (propagationStopped e).
Definition set_propagationStopped (b : bool) (e : Event) : Event :=
  mkEvent (key e) (ctrlKey e) (shiftKey e) (altKey e) (metaKey e) (button e)
          (target_tagName e) (clipboardData e) (cancelable e)
          (defaultPrevented e) b.
Definition set_clipboardData (d : option (list (string * string))) (e : Event) : Event :=
  mkEvent (key e) (ctrlKey e) (shiftKey e) (altKey e) (metaKey e) (button e)
          (target_tagName e) d (cancelable e) (defaultPrevented e)
          (propagationStopped e).

(** ** Browser primitives *)

Definition overlay_id : string := "devtools-overlay".
Definition active_style_id : string := "active-protection-style".
Definition comprehensive_id : string := "comprehensive-protection".
Definition protection_class : string := "protection-active".

(** [console.log], [console.warn], [console.error] *)
Definition console_call (m : ConsoleMethod) (msg : Message) : M State :=
  fun st =>
    if consoleThrows (window st) m then Throw st
    else Normal (upd_rt (fun r => set_console (console r ++ [(m, msg)]) r) st).

Definition console_clear : M State :=
  fun st =>
    if consoleThrows (window st) c_clear then Throw st
    else Normal (upd_rt (set_console []) st).

Definition all_nodes (st : State) : list Node :=
  doc_head (document st) ++ doc_body (document st).

Definition has_id (i : string) (n : Node) : bool := String.eqb (id n) i.

Definition getElementById (i : string) (st : State) : option Node :=
  find (has_id i) (all_nodes st).

Definition Node_eqb (a b : Node) : bool :=
  Nat.eqb (handle a) (handle b)
  && String.eqb (tagName a) (tagName b)
  && String.eqb (id a) (id b).

(** [node.parentNode] is truthy: the node is attached. *)
Definition attached (n : Node) (st : State) : bool :=
  existsb (Node_eqb n) (all_nodes st).

Definition without (n : Node) (l : list Node) : list Node :=
  filter (fun x => negb (Node_eqb n x)) l.

(** [node.remove()] *)
Definition remove_node (n : Node) : State -> State :=
  upd_document (fun d => set_head (without n (doc_head d))
                           (set_body (without n (doc_body d)) d)).

(** [document.createElement(tag)] followed by giving it [i] as its id:
    the node gets the next unused handle. *)
Definition createElement (tag i : string) (st : State) : Node * State :=
  (mkNode (next_handle (rt st)) tag i,
   upd_rt (fun r => set_next_handle (S (next_handle r)) r) st).

Definition head_appendChild (n : Node) : State -> State :=
  upd_document (fun d => set_head (doc_head d ++ [n]) d).

Definition body_appendChild (n : Node) : State -> State :=
  upd_document (fun d => set_body (doc_body d ++ [n]) d).

(** [classList.add(c)]: a token that is present is not added again. *)
Definition classList_add (c : string) : State -> State :=
  upd_document (fun d =>
    set_classList (if existsb (String.eqb c) (classList d)
                   then classList d
                   else classList d ++ [c]) d).

Definition classList_remove (c : string) : State -> State :=
  upd_document (fun d =>
    set_classList (filter (fun x => negb (String.eqb c x)) (classList d)) d).

Definition set_style (f : Style -> Style) : State -> State :=
  upd_document (fun d => set_body_style (f (body_style d)) d).

(** An access to [document.body]: reading a property of [null] is a
    TypeError while the document has no body. *)
Definition withBody (f : State -> State) : M State :=
  fun st => if bodyPresent (window st) then Normal (f st) else Throw st.

(** [setInterval] and [setTimeout]: the new timer takes the next id. *)
Definition addTimer (rep : bool) (cb : Callback) (ms : Z) (st : State) : positive * State :=
  (next_timer (rt st),
   upd_rt (fun r => set_next_timer (Pos.succ (next_timer r))
                      (set_timers (timers r ++ [mkTimer (next_timer r) rep ms cb]) r)) st).

Definition setInterval (cb : Callback) (ms : Z) (st : State) : positive * State :=
  addTimer true cb ms st.

Definition setTimeout (cb : Callback) (ms : Z) : State -> State :=
  fun st => snd (addTimer false cb ms st).

Definition clearTimer (t : positive) : State -> State :=
  upd_rt (fun r => set_timers (filter (fun x => negb (Pos.eqb (tid x) t)) (timers r)) r).

(** [clearInterval(v)]: a no-op when [v] is not the id of a timer. *)
Definition clearInterval (v : option positive) : State -> State :=
  match v with
  | Some t => clearTimer t
  | None => fun st => st
  end.

Definition addEventListener (tg : Target) (ty : EventType) (l : Listener)
           (capture : bool) : State -> State :=
  upd_rt (fun r => set_listeners (listeners r ++ [mkRegistration tg ty capture l]) r).

(** [e.preventDefault()]: the canceled flag is set on a cancelable event. *)
Definition preventDefault (e : Event) : Event :=
  set_defaultPrevented (defaultPrevented e || cancelable e) e.

Definition stopPropagation (e : Event) : Event := set_propagationStopped true e.

(** [dataTransfer.setData(format, data)] *)
Definition setData (format data : string) (items : list (string * string))
  : list (string * string) :=
  filter (fun p => negb (String.eqb (fst p) format)) items ++ [(format, data)].

(** ** The methods of [DevToolsProtection] *)

Definition heightDiff (e : Env) : Z := outerHeight e - innerHeight e.
Definition widthDiff (e : Env) : Z := outerWidth e - innerWidth e.

Definition applyVisualRestrictions : M State :=
  fun st =>
    let (style, st1) := createElement "STYLE" active_style_id st in
    Normal (head_appendChild style st1).

Definition consoleSpamBody : M State :=
  ifM (fun st => negb (protectionActive (this st)))
    (fun st =>
       Normal (upd_this (set_consoleSpamInterval None)
                 (clearInterval (consoleSpamInterval (this st)) st)))
    (tryIgnore
       (console_clear ;;
        console_call c_log MsgBanner ;;
        console_call c_log MsgBlocked ;;
        console_call c_log MsgCloseTools ;;
        console_call c_log MsgRule ;;
        times 20 (console_call c_warn MsgAccessDenied ;;
                  console_call c_error MsgUnauthorized))).

Definition startConsoleSpam : M State :=
  fun st =>
    match consoleSpamInterval (this st) with
    | Some _ => Normal st
    | None =>
        let (t, st1) := setInterval CbSpam 100 st in
        Normal (upd_this (set_consoleSpamInterval (Some t)) st1)
    end.

Definition activateProtection : M State :=
  ifM (fun st => protectionActive (this st))
    skip
    (modify (upd_this (set_protectionActive true)) ;;
     console_call c_log MsgActivated ;;
     withBody (classList_add protection_class) ;;
     startConsoleSpam ;;
     applyVisualRestrictions).

Definition showProtectionOverlay : M State :=
  fun st =>
    match getElementById overlay_id st with
    | Some _ => Normal st
    | None =>
        let (overlay, st1) := createElement "DIV" overlay_id st in
        (withBody (body_appendChild overlay) ;;
         modify (addEventListener (Elem (handle overlay)) click LOverlayClick false)) st1
    end.

Definition handleDevToolsDetected : M State :=
  ifM (fun st => isDevToolsOpen (this st))
    skip
    (modify (upd_this (set_isDevToolsOpen true)) ;;
     console_call c_log MsgDetected ;;
     activateProtection ;;
     showProtectionOverlay ;;
     withBody (set_style (set_filter "blur(8px)")) ;;
     withBody (set_style (set_opacity "0.3")) ;;
     withBody (set_style (set_pointerEvents "none")) ;;
     modify (setTimeout CbRedirect 5000)).

(** The block "Clear console spam" of [deactivateProtection]. *)
Definition stopConsoleSpam : State -> State :=
  fun st =>
    match consoleSpamInterval (this st) with
    | Some t => upd_this (set_consoleSpamInterval None) (clearTimer t st)
    | None => st
    end.

Definition removeById (i : string) : State -> State :=
  fun st =>
    match getElementById i st with
    | Some n => remove_node n st
    | None => st
    end.

Definition deactivateProtection : M State :=
  modify (upd_this (set_protectionActive false)) ;;
  modify (upd_this (set_isDevToolsOpen false)) ;;
  withBody (classList_remove protection_class) ;;
  modify (removeById active_style_id) ;;
  modify (removeById overlay_id) ;;
  modify stopConsoleSpam ;;
  withBody (set_style (set_filter "")) ;;
  withBody (set_style (set_pointerEvents "")) ;;
  withBody (set_style (set_opacity "")) ;;
  console_call c_log MsgDeactivated.

Definition over_100ms (e : Env) : bool := negb (Qle_bool (debuggerElapsed e) 100).

Definition detectExistingDevTools : M State :=
  ifM (fun st => (heightDiff (window st) >? 160) || (widthDiff (window st) >? 160))
    handleDevToolsDetected
    (console_call c_log MsgElement ;;
     whenM (fun st => logReadsId (window st)) handleDevToolsDetected ;;
     whenM (fun st => over_100ms (window st)) handleDevToolsDetected).

Definition disableAllDevToolsAccess : M State :=
  modify (addEventListener Doc keydown LKeydown true) ;;
  modify (addEventListener Doc contextmenu LContextmenu true) ;;
  modify (addEventListener Doc mousedown LMousedownMiddle true).

Definition startContinuousDetection : M State :=
  modify (fun st => snd (setInterval CbWindowSize 500 st)) ;;
  modify (fun st => snd (setInterval CbConsole 1000 st)) ;;
  modify (fun st => snd (setInterval CbTiming 2000 st)) ;;
  modify (fun st => snd (setInterval CbElementInspection 1500 st)).

Definition checkIfReallyClosed : M State := modify (setTimeout CbRecheck 1000).

Definition recheckBody : M State :=
  whenM (fun st => (heightDiff (window st) <? 100) && (widthDiff (window st) <? 100))
    deactivateProtection.

Definition detectByWindowSize : M State :=
  ifM (fun st => (heightDiff (window st) >? 150) || (widthDiff (window st) >? 150))
    (whenM (fun st => negb (isDevToolsOpen (this st))) handleDevToolsDetected)
    (whenM (fun st => isDevToolsOpen (this st)
                      && (heightDiff (window st) <? 100)
                      && (widthDiff (window st) <? 100))
       checkIfReallyClosed).

Definition detectByConsole : M State :=
  console_call c_log MsgDetector ;;
  whenM (fun st => logReadsToString (window st) && negb (isDevToolsOpen (this st)))
    handleDevToolsDetected.

Definition detectByTiming : M State :=
  whenM (fun st => over_100ms (window st) && negb (isDevToolsOpen (this st)))
    handleDevToolsDetected.

Definition detectElementInspection : M State :=
  fun st =>
    let (testElement, st1) := createElement "DIV" "" st in
    (withBody (body_appendChild testElement) ;;
     (fun st2 =>
        let o := next_handle (rt st2) in
        let st3 := upd_rt (fun r => set_next_handle (S o)
                             (set_observers
                                (observers r ++ [mkObserver o (handle testElement)]) r))
                     st2 in
        Normal (setTimeout (CbInspectCleanup o testElement) 10000 st3))) st1.

(** The MutationObserver callback of [detectElementInspection]. *)
Definition observerBody (testElement : nat) (mutations : list MutationRecord) : M State :=
  forEach mutations (fun mutation =>
    match mtype mutation with
    | attributes =>
        if Nat.eqb (mtarget mutation) testElement then handleDevToolsDetected else skip
    | _ => skip
    end).

Definition inspectCleanupBody (o : nat) (testElement : Node) : M State :=
  modify (upd_rt (fun r =>
            set_observers (filter (fun x => negb (Nat.eqb (oid x) o)) (observers r)) r)) ;;
  whenM (attached testElement) (modify (remove_node testElement)).

Definition monitorNetworkTab : M State :=
  modify (addEventListener Win fetchCall LFetchWrapper false).

Definition preventInspection : M State :=
  modify (addEventListener Doc mousedown LMousedownCtrl true) ;;
  modify (addEventListener Doc selectstart LSelectstart false).

Definition blockCommonBypassMethods : M State :=
  modify (addEventListener Win message LMessage false) ;;
  modify (fun st => snd (setInterval CbGlobals 2000 st)).

Definition suspiciousVars : list string :=
  ["$"; "$$"; "$x"; "inspect"; "monitor"; "debug"].

Definition globalsBody : M State :=
  forEach suspiciousVars (fun varName =>
    whenM (fun st => callableGlobal (window st) varName) handleDevToolsDetected).

Definition showWarning (customMessage : string) : M State :=
  ifM (fun st => warningShown (this st))
    skip
    (fun st =>
       let st0 := upd_this (set_warningShown true) st in
       let (warning, st1) := createElement "DIV" "" st0 in
       (withBody (body_appendChild warning) ;;
        (fun st2 =>
           let (animationStyle, st3) := createElement "STYLE" "" st2 in
           let st4 := head_appendChild animationStyle st3 in
           Normal (setTimeout (CbWarningHide warning animationStyle) 4000 st4))) st1).

Definition warningHideBody (warning animationStyle : Node) : M State :=
  whenM (attached warning) (modify (setTimeout (CbWarningRemove warning) 400)) ;;
  modify (upd_this (set_warningShown false)) ;;
  whenM (attached animationStyle) (modify (remove_node animationStyle)).

Definition setupAdvancedListeners : M State :=
  modify (addEventListener Doc dragstart LDragstart false) ;;
  modify (addEventListener Doc copy LCopy false) ;;
  modify (addEventListener Win beforeprint LBeforeprint false) ;;
  modify (addEventListener Doc keyup LKeyup false).

(** The class body declares [setupAdvancedProtection] twice.  The first
    declaration installs the network monitor, the inspection listeners and
    the global-symbol scan; the second one injects the comprehensive style
    sheet and the advanced listeners. *)
Definition setupAdvancedProtection_1 : M State :=
  monitorNetworkTab ;;
  preventInspection ;;
  blockCommonBypassMethods.

Definition setupAdvancedProtection_2 : M State :=
  (fun st =>
     let (style, st1) := createElement "STYLE" comprehensive_id st in
     Normal (head_appendChild style st1)) ;;
  setupAdvancedListeners.

(** A class body is evaluated top to bottom and each method definition
    writes the property of that name on the prototype, so of several
    definitions with one name the last is the one a call reaches. *)
Fixpoint lastDefinition {A} (first : A) (later : list A) : A :=
  match later with
  | [] => first
  | d :: r => lastDefinition d r
  end.

Definition setupAdvancedProtection : M State :=
  lastDefinition setupAdvancedProtection_1 [setupAdvancedProtection_2].

Definition initImmediate : M State :=
  detectExistingDevTools ;;
  disableAllDevToolsAccess ;;
  startContinuousDetection ;;
  ifM (fun st => readyStateLoading (window st))
    (modify (addEventListener Doc DOMContentLoaded LDomReady false))
    setupAdvancedProtection.

Definition constructor : M State :=
  modify (upd_this (set_isDevToolsOpen false)) ;;
  modify (upd_this (set_protectionActive false)) ;;
  modify (upd_this (set_warningShown false)) ;;
  initImmediate.

(** The script's top level: construct the instance, then log. *)
Definition script : M State :=
  constructor ;;
  console_call c_log MsgLoaded.

(** ** Event listeners

    A listener works on the event object and the state together.  The value
    a listener returns ([return false]) is ignored by [addEventListener]
    and is not modelled. *)

Definition Ctx : Type := Event * State.

Definition onState (m : M State) : M Ctx :=
  fun c => match m (snd c) with
           | Normal s => Normal (fst c, s)
           | Throw s => Throw (fst c, s)
           end.

Definition onEvent (f : Event -> Event) : M Ctx :=
  modify (fun c => (f (fst c), snd c)).

Definition keydownBlocked (e : Event) : bool :=
  let blocked := false in
  let blocked := if (key e =? "F12")%string then true else blocked in
  let blocked := if ctrlKey e && shiftKey e && (key e =? "I")%string then true else blocked in
  let blocked := if ctrlKey e && shiftKey e && (key e =? "J")%string then true else blocked in
  let blocked := if ctrlKey e && shiftKey e && (key e =? "C")%string then true else blocked in
  let blocked := if ctrlKey e && (key e =? "u")%string then true else blocked in
  let blocked := if ctrlKey e && shiftKey e && (key e =? "K")%string then true else blocked in
  let blocked := if ctrlKey e && shiftKey e && (key e =? "E")%string then true else blocked in
  let blocked := if ctrlKey e && shiftKey e && (key e =? "S")%string then true else blocked in
  let blocked := if metaKey e && altKey e && (key e =? "I")%string then true else blocked in
  blocked.

Definition onKeydown : M Ctx :=
  whenM (fun c => keydownBlocked (fst c))
    (onEvent preventDefault ;;
     onEvent stopPropagation ;;
     onState handleDevToolsDetected).

Definition onContextmenu : M Ctx :=
  onEvent preventDefault ;;
  onEvent stopPropagation ;;
  onState handleDevToolsDetected.

Definition onMousedownMiddle : M Ctx :=
  whenM (fun c => button (fst c) =? 1) (onEvent preventDefault).

Definition onMousedownCtrl : M Ctx :=
  whenM (fun c => ctrlKey (fst c))
    (onEvent preventDefault ;;
     onState handleDevToolsDetected).

Definition onSelectstart : M Ctx :=
  whenM (fun c => protectionActive (this (snd c))) (onEvent preventDefault).

Definition onMessage : M Ctx :=
  whenM (fun c => protectionActive (this (snd c))) (onEvent stopPropagation).

Definition onOverlayClick : M Ctx :=
  onEvent preventDefault ;;
  onEvent stopPropagation.

Definition onDragstart : M Ctx :=
  whenM (fun c => protectionActive (this (snd c))
                  || (target_tagName (fst c) =? "IMG")%string)
    (onEvent preventDefault).

(** [e.clipboardData.setData(...)]: a TypeError when [clipboardData] is null. *)
Definition clipboardData_setData (format data : string) : M Ctx :=
  fun c =>
    match clipboardData (fst c) with
    | None => Throw c
    | Some items =>
        Normal (set_clipboardData (Some (setData format data items)) (fst c), snd c)
    end.

Definition onCopy : M Ctx :=
  whenM (fun c => protectionActive (this (snd c)))
    (onEvent preventDefault ;;
     clipboardData_setData "text/plain" "Copying disabled").

Definition onBeforeprint : M Ctx :=
  onEvent preventDefault ;;
  onState (showWarning "Printing is disabled").

(** [navigator.clipboard.writeText(text)]: a TypeError when
    [navigator.clipboard] is undefined.  Otherwise the call returns a
    promise at once; the write is requested, not yet done. *)
Definition navigator_clipboard_writeText (text : string) : M State :=
  fun st =>
    if navigatorClipboard (window st)
    then Normal (upd_rt (fun r => set_clipboardWrites (clipboardWrites r ++ [text]) r) st)
    else Throw st.

Definition onKeyup : M Ctx :=
  whenM (fun c => (key (fst c) =? "PrintScreen")%string)
    (onState handleDevToolsDetected ;;
     tryIgnore (onState (navigator_clipboard_writeText "Screenshot blocked"))).

(** The wrapper [monitorNetworkTab] puts around [window.fetch];
    [window.devToolsProtection] is the instance. *)
Definition onFetch : M Ctx :=
  whenM (fun c => isDevToolsOpen (this (snd c)))
    (onState (console_call c_log MsgNetworkBlocked)).

Definition listenerBody (l : Listener) : M Ctx :=
  match l with
  | LKeydown => onKeydown
  | LContextmenu => onContextmenu
  | LMousedownMiddle => onMousedownMiddle
  | LDomReady => onState setupAdvancedProtection
  | LFetchWrapper => onFetch
  | LMousedownCtrl => onMousedownCtrl
  | LSelectstart => onSelectstart
  | LMessage => onMessage
  | LOverlayClick => onOverlayClick
  | LDragstart => onDragstart
  | LCopy => onCopy
  | LBeforeprint => onBeforeprint
  | LKeyup => onKeyup
  end.

Definition EventType_eqb (a b : EventType) : bool :=
  match a, b with
  | keydown, keydown | keyup, keyup | contextmenu, contextmenu
  | mousedown, mousedown | selectstart, selectstart | dragstart, dragstart
  | copy, copy | beforeprint, beforeprint | message, message
  | click, click | DOMContentLoaded, DOMContentLoaded
  | fetchCall, fetchCall => true
  | _, _ => false
  end.

(** The node with handle [h] is in the document. *)
Definition inDocument (h : nat) (st : State) : bool :=
  existsb (fun n => Nat.eqb (handle n) h) (all_nodes st).

(** Does an event dispatched on [on] pass the target a listener sits on?
    The path is fixed when the event is dispatched.  Events on an element
    that is in the document pass [document] and [window]; events on an
    element that is not stay on the element; events on [window] stay
    there. *)
Definition reaches (st : State) (on : Target) (r : Registration) : bool :=
  match reg_target r, on with
  | Win, Elem h => inDocument h st
  | Win, _ => true
  | Doc, Win => false
  | Doc, Doc => true
  | Doc, Elem h => inDocument h st
  | Elem h, Elem h' => Nat.eqb h h'
  | Elem _, _ => false
  end.

Definition listens (st : State) (on : Target) (ty : EventType) (r : Registration) : bool :=
  reaches st on r && EventType_eqb (reg_type r) ty.

(** An exception a listener throws is reported by the browser and the next
    listener runs.  No event type of this script has both a capturing and a
    bubbling listener, so the registration order is the invocation order. *)
Fixpoint deliver (ls : list Registration) (c : Ctx) : Ctx :=
  match ls with
  | [] => c
  | r :: rest => deliver rest (final (listenerBody (reg_listener r) c))
  end.

Definition dispatchEvent (on : Target) (ty : EventType) (e : Event) (st : State) : Ctx :=
  deliver (filter (listens st on ty) (listeners (rt st))) (e, st).

(** ** Timers and observers *)

Definition callbackBody (cb : Callback) : M State :=
  match cb with
  | CbWindowSize => detectByWindowSize
  | CbConsole => detectByConsole
  | CbTiming => detectByTiming
  | CbElementInspection => detectElementInspection
  | CbInspectCleanup o testElement => inspectCleanupBody o testElement
  | CbRecheck => recheckBody
  | CbGlobals => globalsBody
  | CbSpam => consoleSpamBody
  | CbRedirect => skip
  | CbWarningHide w a => warningHideBody w a
  | CbWarningRemove w => modify (remove_node w)
  end.

Definition Callback_eqb (a b : Callback) : bool :=
  match a, b with
  | CbWindowSize, CbWindowSize | CbConsole, CbConsole | CbTiming, CbTiming
  | CbElementInspection, CbElementInspection | CbRecheck, CbRecheck
  | CbGlobals, CbGlobals | CbSpam, CbSpam | CbRedirect, CbRedirect => true
  | CbInspectCleanup o n, CbInspectCleanup o' n' => Nat.eqb o o' && Node_eqb n n'
  | CbWarningHide w a, CbWarningHide w' a' => Node_eqb w w' && Node_eqb a a'
  | CbWarningRemove w, CbWarningRemove w' => Node_eqb w w'
  | _, _ => false
  end.

Definition Timer_eqb (a b : Timer) : bool :=
  Pos.eqb (tid a) (tid b)
  && Bool.eqb (repeating a) (repeating b)
  && Z.eqb (delay a) (delay b)
  && Callback_eqb (callback a) (callback b).

(** The timer [x] is in the table. *)
Definition pending (x : Timer) (st : State) : bool :=
  existsb (Timer_eqb x) (timers (rt st)).

Definition dropTimer (x : Timer) : State -> State :=
  upd_rt (fun r => set_timers (filter (fun y => negb (Timer_eqb x y)) (timers r)) r).

(** The pending timer [x] comes due: a timeout leaves the table, then the
    callback runs. *)
Definition fire (x : Timer) (st : State) : State :=
  if pending x st
  then final (callbackBody (callback x) (if repeating x then st else dropTimer x st))
  else st.

Definition observes (r : MutationRecord) (o : Observer) : bool :=
  match mtype r with
  | attributes => Nat.eqb (observed o) (mtarget r)
  | _ => false
  end.

Fixpoint notify (os : list Observer) (r : MutationRecord) (st : State) : State :=
  match os with
  | [] => st
  | o :: rest => notify rest r (final (observerBody (observed o) [r] st))
  end.

Definition deliverMutation (r : MutationRecord) (st : State) : State :=
  notify (filter (observes r) (observers (rt st))) r st.

(** ** The page as a transition system *)

Inductive Stimulus :=
| Fire (x : Timer)                                  (* a timer comes due *)
| Dispatch (on : Target) (ty : EventType) (e : Event)
| Mutated (r : MutationRecord)                      (* a node was edited *)
| Ambient (e : Env).                                (* the environment changed *)

Definition step (s : Stimulus) (st : State) : State :=
  match s with
  | Fire x => fire x st
  | Dispatch on ty e => snd (dispatchEvent on ty e st)
  | Mutated r => deliverMutation r st
  | Ambient e => set_window e st
  end.

Definition run (ss : list Stimulus) (st : State) : State :=
  fold_left (fun s x => step x s) ss st.

Definition freshHandle (l : list Node) : nat :=
  S (fold_right (fun n m => Nat.max (handle n) m) O l).

(** The page before the script runs: the host document, no timers or
    listeners of this script, and an instance without fields. *)
Definition page (e : Env) (d : Document) : State :=
  mkState (mkInstance false false false None) d
          (mkRuntime [] 1%positive [] [] (freshHandle (doc_head d ++ doc_body d)) [] [])
          e.

Definition load (e : Env) (d : Document) : State := final (script (page e d)).

(** ** Observations *)

Definition count_id (i : string) (st : State) : nat :=
  length (filter (has_id i) (all_nodes st)).

Definition spamTimers (st : State) : list Timer :=
  filter (fun x => match callback x with CbSpam => true | _ => false end)
         (timers (rt st)).

Definition recheckTimers (st : State) : list Timer :=
  filter (fun x => match callback x with CbRecheck => true | _ => false end)
         (timers (rt st)).

Definition consoleNative (e : Env) : Prop := forall m, consoleThrows e m = false.

Definition gapLow (e : Env) : Prop := heightDiff e < 100 /\ widthDiff e < 100.
Definition gapHigh (e : Env) : Prop := heightDiff e > 150 \/ widthDiff e > 150.

(** A host document that does not itself use the ids of this script. *)
Definition hostClean (d : Document) : Prop :=
  forall n, In n (doc_head d ++ doc_body d) ->
            id n <> overlay_id /\ id n <> active_style_id.

(** States of a page that loaded the script when the document had a body,
    in an environment whose console works, and kept both since. *)
Inductive reachable : State -> Prop :=
| reach_load e d :
    consoleNative e -> bodyPresent e = true -> hostClean d -> reachable (load e d)
| reach_fire st x : reachable st -> reachable (fire x st)
| reach_dispatch st on ty e : reachable st -> reachable (snd (dispatchEvent on ty e st))
| reach_mutated st r : reachable st -> reachable (deliverMutation r st)
| reach_ambient st e :
    reachable st -> consoleNative e -> bodyPresent e = true ->
    reachable (set_window e st).

(** ** Concrete pages and events *)

Definition calmEnv : Env :=
  mkEnv 900 860 1400 1400 false (fun _ => false) false false 0 (fun _ => false) true true.

Definition dockedEnv : Env :=
  mkEnv 900 700 1400 1400 false (fun _ => false) false false 0 (fun _ => false) true true.

Definition emptyDocument : Document := mkDocument [] [] [] (mkStyle "" "" "").

Definition plainEvent : Event :=
  mkEvent "" false false false false 0 "DIV" None true false false.

Definition idlePage : State := load calmEnv emptyDocument.

Definition detectedPage : State := step (Dispatch Doc contextmenu plainEvent) idlePage.

(** The idle page after a panel docked: the height gap is 200. *)
Definition dockedPage : State := set_window dockedEnv idlePage.

Definition windowTimer : Timer := mkTimer 1 true 500 CbWindowSize.
Definition recheckTimer : Timer := mkTimer 7 false 1000 CbRecheck.

(** The detected page after the window-size probe saw the small gap. *)
Definition recheckPending : State := fire windowTimer detectedPage.

Definition middleClick : Event :=
  mkEvent "" false false false false 1 "DIV" None true false false.

Definition printScreenKey : Event :=
  mkEvent "PrintScreen" false false false false 0 "DIV" None true false false.

Definition f12Key : Event :=
  mkEvent "F12" false false false false 0 "DIV" None true false false.

(** A page that replaced [console.log] by a function that throws. *)
Definition brokenLogEnv : Env :=
  mkEnv 900 860 1400 1400 false (fun _ => false) false false 0
        (fun m => match m with c_log => true | _ => false end) true true.

(** A page on which [$] is a function. *)
Definition helpersEnv : Env :=
  mkEnv 900 860 1400 1400 false (fun v => String.eqb v "$") false false 0
        (fun _ => false) true true.

Definition probeTimers : list Timer :=
  [ mkTimer 1 true 500 CbWindowSize; mkTimer 2 true 1000 CbConsole;
    mkTimer 3 true 2000 CbTiming; mkTimer 4 true 1500 CbElementInspection ].

(** ** Specification vocabulary *)

Definition preserves {S} (P : S -> Prop) (m : M S) : Prop :=
  forall s, P s -> P (final (m s)).

(** Every listener but the four that only the first
    [setupAdvancedProtection] would install. *)
Definition liveListener (l : Listener) : Prop :=
  match l with
  | LFetchWrapper | LMousedownCtrl | LSelectstart | LMessage => False
  | _ => True
  end.

(** A node that is neither the overlay nor the active-protection style. *)
Definition plain (n : Node) : Prop :=
  has_id overlay_id n = false /\ has_id active_style_id n = false.

(** The nodes a timer callback keeps. *)
Definition captured (cb : Callback) : list Node :=
  match cb with
  | CbInspectCleanup _ n => [n]
  | CbWarningHide w a => [w; a]
  | CbWarningRemove w => [w]
  | _ => []
  end.

Definition capturesPlain (cb : Callback) : Prop :=
  forall n, In n (captured cb) -> plain n.

Definition believes (st : State) : Prop := isDevToolsOpen (this st) = true.

(** Every re-check timer of [st] is one of [T]. *)
Definition keepsRecheck (T : list Timer) (st : State) : Prop :=
  forall x, In x (timers (rt st)) -> callback x = CbRecheck -> In x T.

(** No global-symbol scan is scheduled and no listener of the first
    [setupAdvancedProtection] is installed. *)
Definition noneDead (st : State) : Prop :=
  (forall x, In x (timers (rt st)) -> callback x <> CbGlobals) /\
  (forall r, In r (listeners (rt st)) -> liveListener (reg_listener r)).

(** The entry point's own console line is there whenever the belief is open. *)
Definition marked (st : State) : Prop :=
  consoleNative (window st) /\
  (isDevToolsOpen (this st) = true -> In (c_log, MsgDetected) (console (rt st))).

Definition spamState (st : State) : Prop :=
  if isDevToolsOpen (this st)
  then exists t, consoleSpamInterval (this st) = Some t /\
                 spamTimers st = [mkTimer t true 100 CbSpam]
  else consoleSpamInterval (this st) = None /\ spamTimers st = [].

(** What [detectExistingDevTools] looks at when the page loads. *)
Definition loadSignal (e : Env) : bool :=
  (heightDiff e >? 160) || (widthDiff e >? 160) || logReadsId e
  || negb (Qle_bool (debuggerElapsed e) 100).

(** The key combinations the keydown listener names. *)
Definition listedShortcut (e : Event) : Prop :=
  key e = "F12" \/
  (ctrlKey e = true /\ shiftKey e = true /\
   (key e = "I" \/ key e = "J" \/ key e = "C" \/ key e = "K" \/
    key e = "E" \/ key e = "S")) \/
  (ctrlKey e = true /\ key e = "u") \/
  (metaKey e = true /\ altKey e = true /\ key e = "I").

(** A stimulus that leaves the console working, the body in place and the
    gap not low. *)
Definition keepsGap (s : Stimulus) : Prop :=
  match s with
  | Ambient e => consoleNative e /\ bodyPresent e = true /\ ~ gapLow e
  | _ => True
  end.

(** What one run of the console-spam task leaves in the console. *)
Definition spamOutput : list (ConsoleMethod * Message) :=
  [(c_log, MsgBanner); (c_log, MsgBlocked); (c_log, MsgCloseTools); (c_log, MsgRule)]
  ++ flat_map (fun _ => [(c_warn, MsgAccessDenied); (c_error, MsgUnauthorized)])
              (seq 0 20).

(** The detected page after the gap shrank to 120. *)
Definition bandEnv : Env :=
  mkEnv 900 780 1400 1400 false (fun _ => false) false false 0 (fun _ => false) true true.

Definition bandPage : State := set_window bandEnv detectedPage.

(** Ctrl+Shift+i with a lower-case key value. *)
Definition lowerCaseCombo : Event :=
  mkEvent "i" true true false false 0 "DIV" None true false false.

(** The registrations [disableAllDevToolsAccess] makes. *)
Definition coreListeners : list Registration :=
  [ mkRegistration Doc keydown true LKeydown;
    mkRegistration Doc contextmenu true LContextmenu;
    mkRegistration Doc mousedown true LMousedownMiddle ].

(** A registration made by the second [setupAdvancedProtection], by
    [disableAllDevToolsAccess], [initImmediate] or [showProtectionOverlay],
    with the event type the code gives it there. *)
Definition typedRegistration (r : Registration) : Prop :=
  match reg_listener r with
  | LKeydown => reg_type r = keydown
  | LContextmenu => reg_type r = contextmenu
  | LMousedownMiddle => reg_type r = mousedown
  | LDomReady => reg_type r = DOMContentLoaded
  | LOverlayClick => reg_type r = click
  | LDragstart => reg_type r = dragstart
  | LCopy => reg_type r = copy
  | LBeforeprint => reg_type r = beforeprint
  | LKeyup => reg_type r = keyup
  | LFetchWrapper | LMousedownCtrl | LSelectstart | LMessage => False
  end.

(** Handles and timer ids are handed out in increasing order: every node,
    observer and timer of the page carries a number below the next one; and
    every registration in the listener table is one of the above. *)
Definition wellFormed (st : State) : Prop :=
  (forall n, In n (doc_head (document st)) -> (handle n < next_handle (rt st))%nat) /\
  (forall n, In n (doc_body (document st)) -> (handle n < next_handle (rt st))%nat) /\
  (forall o, In o (observers (rt st)) -> (oid o < next_handle (rt st))%nat) /\
  (forall x, In x (timers (rt st)) -> (tid x < next_timer (rt st))%positive) /\
  (forall r, In r (listeners (rt st)) -> typedRegistration r).

(** A left click with Ctrl held. *)
Definition ctrlClick : Event :=
  mkEvent "" true false false false 0 "DIV" None true false false.

(** The listener table is [L] followed by click listeners of overlays. *)
Definition grewByOverlays (L : list Registration) (st : State) : Prop :=
  exists l, listeners (rt st) = L ++ l /\
            forall r, In r l -> reg_type r = click.

(** The registrations [setupAdvancedListeners] makes. *)
Definition advancedListeners : list Registration :=
  [ mkRegistration Doc dragstart false LDragstart;
    mkRegistration Doc copy false LCopy;
    mkRegistration Win beforeprint false LBeforeprint;
    mkRegistration Doc keyup false LKeyup ].

(** The environment of a script the parser runs in the head while a panel
    is docked: the document is still loading, there is no body yet, and the
    height gap is 200. *)
Definition headDockedEnv : Env :=
  mkEnv 900 700 1400 1400 true (fun _ => false) false false 0 (fun _ => false) true false.

(** The same with no panel docked. *)
Definition headEnv : Env :=
  mkEnv 900 860 1400 1400 true (fun _ => false) false false 0 (fun _ => false) true false.

(** The document while the parser is in the head: the script's own node. *)
Definition headDocument : Document :=
  mkDocument [mkNode 1 "SCRIPT" ""] [] [] (mkStyle "" "" "").

(** The event target is the document or an element that is in it. *)
Definition inPage (on : Target) (st : State) : bool :=
  match on with
  | Win => false
  | Doc => true
  | Elem h => inDocument h st
  end.

(** A stimulus that leaves the console working, the body in place and the
    gap high. *)
Definition steady (s : Stimulus) : Prop :=
  match s with
  | Ambient e => consoleNative e /\ bodyPresent e = true /\ gapHigh e
  | _ => True
  end.

(** The invariant of the responder. *)
Record Inv (st : State) : Prop := mkInv {
  inv_native : consoleNative (window st);
  inv_flags : protectionActive (this st) = isDevToolsOpen (this st);
  inv_overlay : count_id overlay_id st = if isDevToolsOpen (this st) then 1%nat else 0%nat;
  inv_style : count_id active_style_id st = if isDevToolsOpen (this st) then 1%nat else 0%nat;
  inv_spam : spamState st;
  inv_captures : forall x, In x (timers (rt st)) -> capturesPlain (callback x);
  inv_body : bodyPresent (window st) = true
}.

(** * Properties *)

(** ** Reasoning about completions *)

Lemma preserves_skip {S} (P : S -> Prop) : preserves P skip.
Proof. intros s H. exact H. Qed.

Lemma preserves_andThen {S} (P : S -> Prop) (a b : M S) :
  preserves P a -> preserves P b -> preserves P (a ;; b).
Proof.
  intros Ha Hb s H. unfold andThen.
  specialize (Ha s H). destruct (a s) as [s'|s']; cbn in *.
  - apply Hb. exact Ha.
  - exact Ha.
Qed.

Lemma preserves_modify {S} (P : S -> Prop) (f : S -> S) :
  (forall s, P s -> P (f s)) -> preserves P (modify f).
Proof. intros Hf s H. apply Hf. exact H. Qed.

Lemma preserves_tryIgnore {S} (P : S -> Prop) (a : M S) :
  preserves P a -> preserves P (tryIgnore a).
Proof.
  intros Ha s H. unfold tryIgnore. specialize (Ha s H).
  destruct (a s); exact Ha.
Qed.

Lemma preserves_ifM {S} (P : S -> Prop) (c : S -> bool) (a b : M S) :
  preserves P a -> preserves P b -> preserves P (ifM c a b).
Proof. intros Ha Hb s H. unfold ifM. destruct (c s); auto. Qed.

Lemma preserves_whenM {S} (P : S -> Prop) (c : S -> bool) (a : M S) :
  preserves P a -> preserves P (whenM c a).
Proof. intros Ha. apply preserves_ifM; [exact Ha | apply preserves_skip]. Qed.

Lemma preserves_times {S} (P : S -> Prop) (n : nat) (a : M S) :
  preserves P a -> preserves P (times n a).
Proof.
  intros Ha. induction n as [|n IH]; cbn.
  - apply preserves_skip.
  - apply preserves_andThen; assumption.
Qed.

Lemma preserves_forEach {A S} (P : S -> Prop) (xs : list A) (body : A -> M S) :
  (forall x, preserves P (body x)) -> preserves P (forEach xs body).
Proof.
  intros Hb. induction xs as [|x r IH]; cbn.
  - apply preserves_skip.
  - apply preserves_andThen; auto.
Qed.

Lemma preserves_withBody (P : State -> Prop) (f : State -> State) :
  (forall s, P s -> P (f s)) -> preserves P (withBody f).
Proof.
  intros Hf s H. unfold withBody.
  destruct (bodyPresent (window s)); cbn [final]; [apply Hf, H | exact H].
Qed.

Lemma preserves_onState (P : State -> Prop) (m : M State) :
  preserves P m -> preserves (fun c : Ctx => P (snd c)) (onState m).
Proof.
  intros Hm [e s] H. unfold onState. cbn in *. specialize (Hm s H).
  destruct (m s); exact Hm.
Qed.

Lemma preserves_onEvent (P : State -> Prop) (f : Event -> Event) :
  preserves (fun c : Ctx => P (snd c)) (onEvent f).
Proof. intros [e s] H. exact H. Qed.

(** Breaks a method body down along its control structure: [sub] settles
    the methods it calls, [upd] the primitive state updates. *)
Ltac pres_struct sub upd :=
  lazymatch goal with
  | |- preserves _ (andThen _ _) => apply preserves_andThen; pres_struct sub upd
  | |- preserves _ (ifM _ _ _) => apply preserves_ifM; pres_struct sub upd
  | |- preserves _ (whenM _ _) => apply preserves_whenM; pres_struct sub upd
  | |- preserves _ (tryIgnore _) => apply preserves_tryIgnore; pres_struct sub upd
  | |- preserves _ (times _ _) => apply preserves_times; pres_struct sub upd
  | |- preserves _ (forEach _ _) =>
      apply preserves_forEach; intro; pres_struct sub upd
  | |- preserves _ skip => apply preserves_skip
  | |- preserves _ (onEvent _) => apply preserves_onEvent
  | |- preserves _ (onState _) => apply preserves_onState; pres_struct sub upd
  | |- preserves _ (modify _) => apply preserves_modify; intros ? ?; upd
  | |- preserves _ (withBody _) => apply preserves_withBody; intros ? ?; upd
  | |- preserves _ _ => sub
  end.

(** ** Frame reasoning

    A property that is kept by the primitive updates below, and by the
    detection entry point, is kept by every listener, by every observer
    callback and by the timer callbacks that only use such updates. *)

Lemma plain_created h tag :
  plain (mkNode h tag "") /\ plain (mkNode h tag comprehensive_id).
Proof. repeat split; reflexivity. Qed.

Section Frame.

Variable P : State -> Prop.

(** The nodes the property lets the script add and remove freely. *)
Variable ok : Node -> Prop.

Hypothesis ok_created : forall h tag,
  ok (mkNode h tag "") /\ ok (mkNode h tag comprehensive_id).

Hypothesis P_ext : forall st st',
  this st' = this st ->
  timers (rt st') = timers (rt st) ->
  listeners (rt st') = listeners (rt st) ->
  console (rt st') = console (rt st) ->
  window st' = window st ->
  doc_head (document st') = doc_head (document st) ->
  doc_body (document st') = doc_body (document st) ->
  P st -> P st'.
Hypothesis P_log : forall x st,
  P st -> P (upd_rt (fun r => set_console (console r ++ [x]) r) st).
Hypothesis P_warning : forall b st, P st -> P (upd_this (set_warningShown b) st).
Hypothesis P_append_head : forall n st, ok n -> P st -> P (head_appendChild n st).
Hypothesis P_append_body : forall n st, ok n -> P st -> P (body_appendChild n st).
Hypothesis P_remove : forall n st, ok n -> P st -> P (remove_node n st).
Hypothesis P_addTimer : forall rep cb ms st,
  (forall n, In n (captured cb) -> ok n) -> cb <> CbRecheck -> cb <> CbGlobals -> cb <> CbSpam ->
  P st -> P (snd (addTimer rep cb ms st)).
Hypothesis P_dropTimer : forall x st,
  repeating x = false -> P st -> P (dropTimer x st).
Hypothesis P_addListener : forall tg ty l c st,
  liveListener l -> P st -> P (addEventListener tg ty l c st).
Hypothesis P_handle : preserves P handleDevToolsDetected.

Ltac by_ext :=
  match goal with
  | H : P ?s |- P _ => apply (@P_ext s); [reflexivity .. | exact H]
  end.

Ltac frame_upd := cbn; first [ assumption | by_ext ].

Ltac plain_captures :=
  let n := fresh "n" in
  let Hn := fresh "Hn" in
  intros n Hn; cbn in Hn;
  repeat (destruct Hn as [Hn|Hn]; [subst n; first [assumption | apply ok_created]|]);
  contradiction.

Lemma frame_console_call m msg : preserves P (console_call m msg).
Proof.
  intros st H. unfold console_call.
  destruct (consoleThrows (window st) m); cbn; [exact H | apply P_log; exact H].
Qed.

Lemma frame_detectByConsole : preserves P detectByConsole.
Proof.
  unfold detectByConsole. apply preserves_andThen.
  - apply frame_console_call.
  - apply preserves_whenM, P_handle.
Qed.

Lemma frame_detectByTiming : preserves P detectByTiming.
Proof. unfold detectByTiming. apply preserves_whenM, P_handle. Qed.

Lemma frame_detectElementInspection : preserves P detectElementInspection.
Proof.
  intros st H. unfold detectElementInspection, createElement, setTimeout.
  cbv beta iota zeta. apply preserves_andThen; [| |by_ext].
  - apply preserves_withBody. intros s Hs. apply P_append_body; [apply ok_created | exact Hs].
  - intros s Hs. cbn [final].
    apply P_addTimer; [plain_captures | discriminate | discriminate | discriminate |].
    by_ext.
Qed.

Lemma frame_inspectCleanup o n : ok n -> preserves P (inspectCleanupBody o n).
Proof.
  intros Hn. unfold inspectCleanupBody.
  apply preserves_andThen; [pres_struct fail frame_upd|].
  apply preserves_whenM, preserves_modify. intros s H. apply P_remove; assumption.
Qed.

Lemma frame_observerBody h ms : preserves P (observerBody h ms).
Proof.
  unfold observerBody. apply preserves_forEach. intros m.
  destruct (mtype m); try apply preserves_skip.
  destruct (Nat.eqb (mtarget m) h); [apply P_handle | apply preserves_skip].
Qed.

Lemma frame_globalsBody : preserves P globalsBody.
Proof.
  unfold globalsBody. apply preserves_forEach. intros v.
  apply preserves_whenM, P_handle.
Qed.

Lemma frame_showWarning msg : preserves P (showWarning msg).
Proof.
  unfold showWarning. apply preserves_ifM; [apply preserves_skip|].
  intros st H. unfold createElement, setTimeout.
  cbv beta iota zeta. apply preserves_andThen.
  - apply preserves_withBody. intros s Hs. apply P_append_body; [apply ok_created | exact Hs].
  - intros s Hs. cbn [final].
    apply P_addTimer; [plain_captures | discriminate | discriminate | discriminate |].
    apply P_append_head; [apply ok_created|]. by_ext.
  - apply (@P_ext (upd_this (set_warningShown true) st)); try reflexivity.
    apply P_warning, H.
Qed.

Lemma frame_warningHide w a :
  ok w -> ok a -> preserves P (warningHideBody w a).
Proof.
  intros Hw Ha. unfold warningHideBody.
  apply preserves_andThen; [|apply preserves_andThen].
  - apply preserves_whenM, preserves_modify. intros s H.
    apply P_addTimer;
      [plain_captures | discriminate | discriminate | discriminate | exact H].
  - apply preserves_modify. intros s H. apply P_warning, H.
  - apply preserves_whenM, preserves_modify. intros s H. apply P_remove; assumption.
Qed.

Lemma frame_setupAdvancedListeners : preserves P setupAdvancedListeners.
Proof.
  unfold setupAdvancedListeners.
  repeat apply preserves_andThen;
    apply preserves_modify; intros s H;
    (apply P_addListener; [exact I | exact H]).
Qed.

Lemma frame_setupAdvancedProtection : preserves P setupAdvancedProtection.
Proof.
  unfold setupAdvancedProtection. cbn [lastDefinition].
  unfold setupAdvancedProtection_2. apply preserves_andThen.
  - intros s H. unfold createElement. cbv beta iota zeta. cbn [final].
    apply P_append_head; [apply ok_created | by_ext].
  - apply frame_setupAdvancedListeners.
Qed.

(** The three callbacks that need more than the frame. *)

Lemma frame_consoleSpamBody :
  (forall st, P st -> P (upd_rt (set_console []) st)) ->
  (forall st, P st -> protectionActive (this st) = false ->
     P (upd_this (set_consoleSpamInterval None)
          (clearInterval (consoleSpamInterval (this st)) st))) ->
  preserves P consoleSpamBody.
Proof.
  intros Hclear Hstop. unfold consoleSpamBody. intros st H. unfold ifM.
  destruct (protectionActive (this st)) eqn:E; cbn [negb].
  - revert st H E. 
    assert (Hp : preserves P
      (tryIgnore
         (console_clear ;;
          console_call c_log MsgBanner ;;
          console_call c_log MsgBlocked ;;
          console_call c_log MsgCloseTools ;;
          console_call c_log MsgRule ;;
          times 20 (console_call c_warn MsgAccessDenied ;;
                    console_call c_error MsgUnauthorized)))).
    { apply preserves_tryIgnore, preserves_andThen.
      - intros st H. unfold console_clear.
        destruct (consoleThrows (window st) c_clear); cbn [final];
          [exact H | apply Hclear, H].
      - repeat (apply preserves_andThen; [apply frame_console_call|]).
        apply preserves_times, preserves_andThen; apply frame_console_call. }
    intros st H _. apply Hp, H.
  - cbn [final]. apply Hstop; assumption.
Qed.

Lemma frame_deactivateProtection :
  (forall st, P st -> P (upd_this (set_protectionActive false) st)) ->
  (forall st, P st -> P (upd_this (set_isDevToolsOpen false) st)) ->
  (forall i st, P st -> P (removeById i st)) ->
  (forall st, P st -> P (stopConsoleSpam st)) ->
  preserves P deactivateProtection.
Proof.
  intros Ha Ho Hr Hs. unfold deactivateProtection.
  apply preserves_andThen; [apply preserves_modify, Ha|].
  apply preserves_andThen; [apply preserves_modify, Ho|].
  apply preserves_andThen; [pres_struct fail frame_upd|].
  apply preserves_andThen; [apply preserves_modify, Hr|].
  apply preserves_andThen; [apply preserves_modify, Hr|].
  apply preserves_andThen; [apply preserves_modify, Hs|].
  repeat (apply preserves_andThen; [pres_struct fail frame_upd|]).
  apply frame_console_call.
Qed.

Lemma frame_detectByWindowSize :
  (forall st, P st -> P (setTimeout CbRecheck 1000 st)) ->
  preserves P detectByWindowSize.
Proof.
  intros Hr. unfold detectByWindowSize, checkIfReallyClosed.
  apply preserves_ifM; apply preserves_whenM;
    [apply P_handle | apply preserves_modify, Hr].
Qed.

Lemma frame_callbackBody cb :
  (forall n, In n (captured cb) -> ok n) ->
  (cb = CbRecheck -> preserves P recheckBody) ->
  (cb = CbWindowSize -> preserves P detectByWindowSize) ->
  (cb = CbSpam -> preserves P consoleSpamBody) ->
  preserves P (callbackBody cb).
Proof.
  intros Hc Hr Hw Hs. destruct cb; cbn [callbackBody]; auto.
  - apply frame_detectByConsole.
  - apply frame_detectByTiming.
  - apply frame_detectElementInspection.
  - apply frame_inspectCleanup. apply Hc. left. reflexivity.
  - apply frame_globalsBody.
  - apply preserves_skip.
  - apply frame_warningHide; apply Hc; cbn; auto.
  - apply preserves_modify. intros s H. apply P_remove; [|exact H].
    apply Hc. left. reflexivity.
Qed.

Lemma frame_fire x st :
  (forall n, In n (captured (callback x)) -> ok n) ->
  (callback x = CbRecheck -> preserves P recheckBody) ->
  (callback x = CbWindowSize -> preserves P detectByWindowSize) ->
  (callback x = CbSpam -> preserves P consoleSpamBody) ->
  P st -> P (fire x st).
Proof.
  intros Hc Hr Hw Hs H. unfold fire. destruct (pending x st); [|exact H].
  apply frame_callbackBody; auto.
  destruct (repeating x) eqn:E; [exact H | apply P_dropTimer; assumption].
Qed.

(** Listeners. *)

Lemma frame_writeText text : preserves P (navigator_clipboard_writeText text).
Proof.
  intros s H. unfold navigator_clipboard_writeText.
  destruct (navigatorClipboard (window s)); cbn [final]; [by_ext | exact H].
Qed.

Lemma frame_listenerBody l :
  preserves (fun c : Ctx => P (snd c)) (listenerBody l).
Proof.
  destruct l; cbn [listenerBody];
    unfold onKeydown, onContextmenu, onMousedownMiddle, onFetch,
           onMousedownCtrl, onSelectstart, onMessage, onOverlayClick,
           onDragstart, onBeforeprint, onKeyup, onCopy.
  all: try (pres_struct ltac:(first [ apply P_handle
                                    | apply frame_console_call
                                    | apply frame_setupAdvancedProtection
                                    | apply frame_showWarning
                                    | apply frame_writeText ])
                        frame_upd).
  apply preserves_whenM, preserves_andThen; [apply preserves_onEvent|].
  intros [e s] H. unfold clipboardData_setData. cbn.
  destruct (clipboardData e); exact H.
Qed.

Lemma frame_deliver ls c : P (snd c) -> P (snd (deliver ls c)).
Proof.
  revert c. induction ls as [|r rest IH]; intros c H; cbn [deliver].
  - exact H.
  - apply IH. apply (frame_listenerBody (reg_listener r) _ H).
Qed.

Lemma frame_dispatchEvent on ty e st :
  P st -> P (snd (dispatchEvent on ty e st)).
Proof. intros H. unfold dispatchEvent. apply frame_deliver. exact H. Qed.

Lemma frame_notify os r st : P st -> P (notify os r st).
Proof.
  revert st. induction os as [|o rest IH]; intros st H; cbn [notify].
  - exact H.
  - apply IH, frame_observerBody, H.
Qed.

Lemma frame_deliverMutation r st : P st -> P (deliverMutation r st).
Proof. apply frame_notify. Qed.

End Frame.


(** ** Properties that do not look at the document

    For these the detection entry point needs no separate argument: it is
    built from the same primitive updates. *)

Section Independent.

Variable P : State -> Prop.

Hypothesis P_ext : forall st st',
  this st' = this st ->
  timers (rt st') = timers (rt st) ->
  listeners (rt st') = listeners (rt st) ->
  console (rt st') = console (rt st) ->
  window st' = window st ->
  P st -> P st'.
Hypothesis P_log : forall x st,
  P st -> P (upd_rt (fun r => set_console (console r ++ [x]) r) st).
Hypothesis P_warning : forall b st, P st -> P (upd_this (set_warningShown b) st).
Hypothesis P_spamHandle : forall o st,
  P st -> P (upd_this (set_consoleSpamInterval o) st).
Hypothesis P_addTimer : forall rep cb ms st,
  cb <> CbRecheck -> cb <> CbGlobals -> P st -> P (snd (addTimer rep cb ms st)).
Hypothesis P_filterTimers : forall f st,
  P st -> P (upd_rt (fun r => set_timers (filter f (timers r)) r) st).
Hypothesis P_addListener : forall tg ty l c st,
  liveListener l -> P st -> P (addEventListener tg ty l c st).
Hypothesis P_open : forall st, P st -> P (upd_this (set_isDevToolsOpen true) st).
Hypothesis P_active : forall st, P st -> P (upd_this (set_protectionActive true) st).

Ltac by_indep :=
  match goal with
  | H : P ?s |- P _ => apply (@P_ext s); [reflexivity .. | exact H]
  end.

Lemma indep_document f st : P st -> P (upd_document f st).
Proof. intros H. by_indep. Qed.

Lemma indep_startConsoleSpam : preserves P startConsoleSpam.
Proof.
  intros st H. unfold startConsoleSpam, setInterval.
  destruct (consoleSpamInterval (this st)); [exact H|].
  change (P (upd_this (set_consoleSpamInterval (Some (next_timer (rt st))))
               (snd (addTimer true CbSpam 100 st)))).
  apply P_spamHandle, P_addTimer; [discriminate | discriminate | exact H].
Qed.

Lemma indep_activateProtection : preserves P activateProtection.
Proof.
  unfold activateProtection. apply preserves_ifM; [apply preserves_skip|].
  apply preserves_andThen; [apply preserves_modify, P_active|].
  apply preserves_andThen; [apply frame_console_call, P_log|].
  apply preserves_andThen;
    [apply preserves_withBody; intros; apply indep_document; assumption|].
  apply preserves_andThen; [apply indep_startConsoleSpam|].
  intros st H. unfold applyVisualRestrictions, createElement.
  cbv beta iota zeta. cbn [final]. by_indep.
Qed.

Lemma indep_showProtectionOverlay : preserves P showProtectionOverlay.
Proof.
  intros st H. unfold showProtectionOverlay.
  destruct (getElementById overlay_id st); [exact H|].
  unfold createElement. cbv beta iota zeta.
  apply preserves_andThen; [| |by_indep].
  - apply preserves_withBody. intros s Hs. apply indep_document, Hs.
  - apply preserves_modify. intros s Hs. apply P_addListener; [exact I | exact Hs].
Qed.

Lemma indep_handle : preserves P handleDevToolsDetected.
Proof.
  unfold handleDevToolsDetected. apply preserves_ifM; [apply preserves_skip|].
  apply preserves_andThen; [apply preserves_modify, P_open|].
  apply preserves_andThen; [apply frame_console_call, P_log|].
  apply preserves_andThen; [apply indep_activateProtection|].
  apply preserves_andThen; [apply indep_showProtectionOverlay|].
  do 3 (apply preserves_andThen;
        [apply preserves_withBody; intros; apply indep_document; assumption |]).
  apply preserves_modify. intros s H. unfold setTimeout.
  apply P_addTimer; [discriminate | discriminate | exact H].
Qed.

Ltac indep_side :=
  first [ exact P_log | exact P_warning | exact P_addListener | exact indep_handle
        | intros; exact (conj I I)
        | intros; exact I
        | intros; eapply P_ext; eassumption
        | intros; by_indep
        | intros; apply P_addTimer; assumption
        | intros; unfold dropTimer; apply P_filterTimers; assumption
        | intros; unfold clearTimer; apply P_filterTimers; assumption ].

Lemma indep_dispatchEvent on ty e st : P st -> P (snd (dispatchEvent on ty e st)).
Proof. apply frame_dispatchEvent with (ok := fun _ => True); indep_side. Qed.

Lemma indep_deliverMutation r st : P st -> P (deliverMutation r st).
Proof. apply frame_deliverMutation. exact indep_handle. Qed.

Lemma indep_consoleSpamBody :
  (forall st, P st -> P (upd_rt (set_console []) st)) ->
  preserves P consoleSpamBody.
Proof.
  intros Hc. apply frame_consoleSpamBody; try assumption.
  intros st H _. apply P_spamHandle.
  destruct (consoleSpamInterval (this st)); cbn [clearInterval]; [|exact H].
  unfold clearTimer. apply P_filterTimers, H.
Qed.

Lemma indep_recheckBody :
  (forall st, P st -> P (upd_this (set_protectionActive false) st)) ->
  (forall st, P st -> P (upd_this (set_isDevToolsOpen false) st)) ->
  preserves P recheckBody.
Proof.
  intros Ha Ho. apply preserves_whenM.
  apply frame_deactivateProtection; try assumption.
  - intros st st' ? ? ? ? ? _ _ H. apply (@P_ext st); assumption.
  - intros i st H. unfold removeById.
    destruct (getElementById i st); [apply indep_document|]; exact H.
  - intros st H. unfold stopConsoleSpam.
    destruct (consoleSpamInterval (this st)); [|exact H].
    apply P_spamHandle. unfold clearTimer. apply P_filterTimers, H.
Qed.

Lemma indep_detectByWindowSize :
  (forall st, P st -> P (setTimeout CbRecheck 1000 st)) ->
  preserves P detectByWindowSize.
Proof.
  intros Hr. unfold detectByWindowSize, checkIfReallyClosed.
  apply preserves_ifM; apply preserves_whenM;
    [apply indep_handle | apply preserves_modify, Hr].
Qed.

Lemma indep_fire x st :
  (callback x = CbRecheck -> preserves P recheckBody) ->
  (callback x = CbWindowSize -> preserves P detectByWindowSize) ->
  (callback x = CbSpam -> preserves P consoleSpamBody) ->
  P st -> P (fire x st).
Proof.
  intros Hr Hw Hs. apply frame_fire with (ok := fun _ => True);
    try assumption; try indep_side.
Qed.

Lemma indep_script :
  (forall st, P st -> P (upd_this (set_protectionActive false) st)) ->
  (forall st, P st -> P (upd_this (set_isDevToolsOpen false) st)) ->
  preserves P script.
Proof.
  intros P_inactive P_closed. unfold script, constructor, initImmediate.
  apply preserves_andThen; [|apply frame_console_call, P_log].
  apply preserves_andThen; [apply preserves_modify, P_closed|].
  apply preserves_andThen; [apply preserves_modify, P_inactive|].
  apply preserves_andThen; [apply preserves_modify, P_warning|].
  apply preserves_andThen.
  { unfold detectExistingDevTools.
    apply preserves_ifM; [apply indep_handle|].
    apply preserves_andThen; [apply frame_console_call, P_log|].
    apply preserves_andThen; apply preserves_whenM, indep_handle. }
  apply preserves_andThen.
  { unfold disableAllDevToolsAccess.
    repeat apply preserves_andThen;
      apply preserves_modify; intros s H;
      (apply P_addListener; [exact I | exact H]). }
  apply preserves_andThen.
  { unfold startContinuousDetection, setInterval.
    repeat apply preserves_andThen;
      apply preserves_modify; intros s H;
      (apply P_addTimer; [discriminate | discriminate | exact H]). }
  apply preserves_ifM.
  - apply preserves_modify. intros s H. apply P_addListener; [exact I | exact H].
  - apply frame_setupAdvancedProtection with (ok := fun _ => True); indep_side.
Qed.

End Independent.

(** ** The belief flag *)

Lemma handle_noop st :
  isDevToolsOpen (this st) = true -> handleDevToolsDetected st = Normal st.
Proof. intros H. unfold handleDevToolsDetected, ifM. rewrite H. reflexivity. Qed.

Ltac believes_side :=
  unfold believes; intros; cbn; first [ assumption | congruence ].

Lemma believes_step s st :
  (forall x, s = Fire x -> callback x <> CbRecheck) ->
  believes st -> believes (step s st).
Proof.
  intros Hs H. destruct s as [x|on ty e|r|e]; cbn [step].
  - apply indep_fire; try believes_side.
    + intros Hc. elim (Hs x eq_refl Hc).
    + intros _. apply indep_detectByWindowSize; believes_side.
    + intros _. apply indep_consoleSpamBody; believes_side.
  - apply indep_dispatchEvent; believes_side.
  - apply indep_deliverMutation; believes_side.
  - exact H.
Qed.

(** Whatever the console does, a detection leaves the belief open. *)
Lemma handle_opens st :
  isDevToolsOpen (this (final (handleDevToolsDetected st))) = true.
Proof.
  destruct (isDevToolsOpen (this st)) eqn:E.
  - rewrite (handle_noop st E). exact E.
  - unfold handleDevToolsDetected, ifM. rewrite E.
    assert (Hrest : forall m, preserves believes m ->
              believes (final ((modify (upd_this (set_isDevToolsOpen true)) ;; m) st))).
    { intros m Hm. unfold andThen, modify. apply Hm. reflexivity. }
    apply Hrest.
    apply preserves_andThen; [apply frame_console_call; believes_side|].
    apply preserves_andThen; [apply indep_activateProtection; believes_side|].
    apply preserves_andThen; [apply indep_showProtectionOverlay; believes_side|].
    pres_struct fail believes_side.
Qed.

(** The belief can only be closed by a re-check timer coming due. *)
Lemma closing_is_recheck s st :
  isDevToolsOpen (this st) = true ->
  isDevToolsOpen (this (step s st)) = false ->
  exists x, s = Fire x /\ pending x st = true /\ callback x = CbRecheck.
Proof.
  intros Ho Hc.
  assert (Hn : ~ (forall x, s = Fire x -> callback x <> CbRecheck)).
  { intros Hs. pose proof (believes_step s st Hs Ho) as Hb.
    unfold believes in Hb. congruence. }
  destruct s as [x|on ty e|r|e];
    try (exfalso; apply Hn; intros; discriminate).
  exists x. cbn [step] in Hc. unfold fire in Hc.
  destruct (pending x st) eqn:Ep; [|congruence].
  repeat split.
  destruct (callback x) eqn:Ecb; try reflexivity;
    exfalso; apply Hn; intros y Hy; injection Hy as <-; rewrite Ecb; discriminate.
Qed.

(** ** Who schedules the re-check *)

Ltac recheck_side :=
  unfold keepsRecheck; intros; cbn in *;
  repeat match goal with
         | H : In _ (_ ++ _) |- _ => apply in_app_or in H; destruct H as [H|H]
         | H : In _ [_] |- _ => destruct H as [H|[]]; subst
         | H : In _ (filter _ _) |- _ => apply filter_In in H; destruct H as [H _]
         | H : timers _ = timers _ |- _ => rewrite H in *
         end;
  first [ now eauto | congruence | cbn in *; congruence ].

Lemma keepsRecheck_step T s st :
  (forall x, s = Fire x -> callback x <> CbWindowSize) ->
  keepsRecheck T st -> keepsRecheck T (step s st).
Proof.
  intros Hs H. destruct s as [x|on ty e|r|e]; cbn [step].
  - apply indep_fire; try recheck_side.
    + intros _. apply indep_recheckBody; recheck_side.
    + intros Hc. elim (Hs x eq_refl Hc).
    + intros _. apply indep_consoleSpamBody; recheck_side.
  - apply indep_dispatchEvent; recheck_side.
  - apply indep_deliverMutation; recheck_side.
  - exact H.
Qed.

Lemma keepsRecheck_handle T : preserves (keepsRecheck T) handleDevToolsDetected.
Proof. apply indep_handle; recheck_side. Qed.

Lemma in_recheckTimers x st :
  In x (recheckTimers st) <-> In x (timers (rt st)) /\ callback x = CbRecheck.
Proof.
  unfold recheckTimers. rewrite filter_In. split; intros [H1 H2]; split; trivial.
  - destruct (callback x); try discriminate. reflexivity.
  - rewrite H2. reflexivity.
Qed.

(** A re-check timer that appears was scheduled by the window-size probe,
    which found the belief open and the gap below the lower threshold. *)
Lemma recheck_is_scheduled_by_window_probe s st x :
  In x (recheckTimers (step s st)) ->
  ~ In x (recheckTimers st) ->
  exists y, s = Fire y /\ pending y st = true /\ callback y = CbWindowSize /\
            isDevToolsOpen (this st) = true /\ gapLow (window st) /\
            x = mkTimer (next_timer (rt st)) false 1000 CbRecheck.
Proof.
  intros Hin Hnew. apply in_recheckTimers in Hin. destruct Hin as [Hin Hcb].
  assert (Hold : keepsRecheck (timers (rt st)) st) by (intros y Hy _; exact Hy).
  assert (Hother : (forall y, s = Fire y -> callback y <> CbWindowSize) -> False).
  { intros Hs. apply Hnew, in_recheckTimers. split; [|exact Hcb].
    exact (keepsRecheck_step _ s st Hs Hold x Hin Hcb). }
  destruct s as [y|on ty e|r|e]; try (exfalso; apply Hother; intros; discriminate).
  destruct (callback y) eqn:Ey;
    try (exfalso; apply Hother; intros z Hz; injection Hz as <-;
         rewrite Ey; discriminate).
  exists y. cbn [step] in Hin. unfold fire in Hin.
  destruct (pending y st) eqn:Ep.
  2:{ exfalso. apply Hnew, in_recheckTimers. auto. }
  rewrite Ey in Hin. cbn [callbackBody] in Hin.
  set (st0 := if repeating y then st else dropTimer y st) in *.
  assert (H0 : keepsRecheck (timers (rt st)) st0).
  { unfold st0. destruct (repeating y); [exact Hold|]. recheck_side. }
  assert (Hthis : this st0 = this st) by (unfold st0; destruct (repeating y); reflexivity).
  assert (Hwin : window st0 = window st) by (unfold st0; destruct (repeating y); reflexivity).
  assert (Hnext : next_timer (rt st0) = next_timer (rt st))
    by (unfold st0; destruct (repeating y); reflexivity).
  unfold detectByWindowSize, ifM, whenM, ifM, skip, checkIfReallyClosed, modify in Hin.
  destruct ((heightDiff (window st0) >? 150) || (widthDiff (window st0) >? 150)).
  - exfalso. apply Hnew, in_recheckTimers. split; [|exact Hcb].
    destruct (negb (isDevToolsOpen (this st0))).
    + exact (keepsRecheck_handle _ st0 H0 x Hin Hcb).
    + exact (H0 x Hin Hcb).
  - destruct (isDevToolsOpen (this st0) && (heightDiff (window st0) <? 100)
              && (widthDiff (window st0) <? 100)) eqn:Ec.
    + apply andb_prop in Ec. destruct Ec as [Ec Ew].
      apply andb_prop in Ec. destruct Ec as [Eo Eh].
      rewrite Hthis in Eo. rewrite Hwin in Eh, Ew.
      apply Z.ltb_lt in Eh, Ew.
      cbn in Hin. apply in_app_or in Hin. destruct Hin as [Hin|[Hin|[]]].
      * exfalso. apply Hnew, in_recheckTimers. split; [|exact Hcb]. exact (H0 x Hin Hcb).
      * rewrite Hnext in Hin. repeat split; auto.
    + exfalso. apply Hnew, in_recheckTimers. split; [|exact Hcb]. exact (H0 x Hin Hcb).
Qed.

(** ** Counting nodes and timers *)

Lemma Node_eqb_refl n : Node_eqb n n = true.
Proof.
  unfold Node_eqb. rewrite Nat.eqb_refl, !String.eqb_refl. reflexivity.
Qed.

Lemma Node_eqb_id a b : Node_eqb a b = true -> id a = id b.
Proof.
  unfold Node_eqb. intros H.
  apply andb_prop in H. destruct H as [_ H]. apply String.eqb_eq, H.
Qed.

Lemma Timer_eqb_repeating a b : Timer_eqb a b = true -> repeating a = repeating b.
Proof.
  unfold Timer_eqb. intros H.
  apply andb_prop in H. destruct H as [H _].
  apply andb_prop in H. destruct H as [H _].
  apply andb_prop in H. destruct H as [_ H].
  apply Bool.eqb_prop, H.
Qed.

Lemma Node_eqb_eq a b : Node_eqb a b = true <-> a = b.
Proof.
  split; [|intros ->; apply Node_eqb_refl].
  unfold Node_eqb. intros H.
  apply andb_prop in H. destruct H as [H Hi].
  apply andb_prop in H. destruct H as [Hh Ht].
  apply Nat.eqb_eq in Hh. apply String.eqb_eq in Ht, Hi.
  destruct a, b; cbn in *; congruence.
Qed.

Lemma Callback_eqb_eq a b : Callback_eqb a b = true -> a = b.
Proof.
  destruct a, b; cbn; try discriminate; try reflexivity; intros H;
    repeat match goal with
           | H : _ && _ = true |- _ => apply andb_prop in H; destruct H
           | H : Node_eqb _ _ = true |- _ => apply Node_eqb_eq in H
           | H : Nat.eqb _ _ = true |- _ => apply Nat.eqb_eq in H
           end; congruence.
Qed.

Lemma Timer_eqb_eq a b : Timer_eqb a b = true -> a = b.
Proof.
  unfold Timer_eqb. intros H.
  apply andb_prop in H. destruct H as [H Hc].
  apply andb_prop in H. destruct H as [H Hd].
  apply andb_prop in H. destruct H as [Ht Hr].
  apply Pos.eqb_eq in Ht. apply Bool.eqb_prop in Hr.
  apply Z.eqb_eq in Hd. apply Callback_eqb_eq in Hc.
  destruct a, b; cbn in *; congruence.
Qed.

Lemma pending_In x st : pending x st = true -> In x (timers (rt st)).
Proof.
  unfold pending. intros H. apply existsb_exists in H.
  destruct H as (y & Hy & E). apply Timer_eqb_eq in E. subst. exact Hy.
Qed.

Lemma filter_comm {A} (f g : A -> bool) l :
  filter f (filter g l) = filter g (filter f l).
Proof.
  induction l as [|x l IH]; cbn; [reflexivity|].
  destruct (f x) eqn:Ef, (g x) eqn:Eg; cbn; rewrite ?Ef, ?Eg, IH; reflexivity.
Qed.

Lemma filter_length_le {A} (f : A -> bool) l : (length (filter f l) <= length l)%nat.
Proof.
  induction l as [|x l IH]; cbn; [lia|]. destruct (f x); cbn; lia.
Qed.

Lemma find_none_filter {A} (f : A -> bool) l : find f l = None <-> filter f l = [].
Proof.
  induction l as [|x l IH]; cbn; [tauto|].
  destruct (f x); [split; discriminate | exact IH].
Qed.

Lemma find_some_filter {A} (f : A -> bool) l n :
  find f l = Some n -> exists r, filter f l = n :: r.
Proof.
  induction l as [|x l IH]; cbn; [discriminate|].
  destruct (f x); [intros [= ->]; eauto | exact IH].
Qed.

Lemma find_none_mid {A} (f : A -> bool) a b n :
  find f (a ++ b) = None -> f n = false -> find f ((a ++ [n]) ++ b) = None.
Proof.
  intros H Hn. induction a as [|x a IH]; cbn in *.
  - rewrite Hn. exact H.
  - destruct (f x); [discriminate | auto].
Qed.

Lemma count_id_split i st :
  count_id i st =
  (length (filter (has_id i) (doc_head (document st)))
   + length (filter (has_id i) (doc_body (document st))))%nat.
Proof. unfold count_id, all_nodes. rewrite filter_app, length_app. reflexivity. Qed.

Lemma getElementById_none i st : getElementById i st = None <-> count_id i st = 0%nat.
Proof.
  unfold getElementById, count_id. rewrite find_none_filter.
  destruct (filter (has_id i) (all_nodes st)); cbn; split; congruence.
Qed.

Lemma without_keeps i n l :
  has_id i n = false -> filter (has_id i) (without n l) = filter (has_id i) l.
Proof.
  intros Hn. unfold without. rewrite filter_comm.
  induction l as [|x l IH]; cbn; [reflexivity|].
  destruct (has_id i x) eqn:Ex; cbn; [|exact IH].
  destruct (Node_eqb n x) eqn:En; cbn; [|rewrite IH; reflexivity].
  apply Node_eqb_id in En. unfold has_id in *. rewrite En in Hn. congruence.
Qed.

Lemma all_nodes_remove n st :
  all_nodes (remove_node n st) = without n (all_nodes st).
Proof. unfold all_nodes, without. cbn. rewrite filter_app. reflexivity. Qed.

Lemma count_remove_other i n st :
  has_id i n = false -> count_id i (remove_node n st) = count_id i st.
Proof.
  intros Hn. unfold count_id. rewrite all_nodes_remove, without_keeps; auto.
Qed.

Lemma count_remove_le i n st : (count_id i (remove_node n st) <= count_id i st)%nat.
Proof.
  unfold count_id. rewrite all_nodes_remove. unfold without.
  rewrite filter_comm. apply filter_length_le.
Qed.

Lemma count_removeById_le i j st : (count_id j (removeById i st) <= count_id j st)%nat.
Proof.
  unfold removeById. destruct (getElementById i st); [apply count_remove_le | lia].
Qed.

Lemma count_removeById_self i st :
  (count_id i st <= 1)%nat -> count_id i (removeById i st) = 0%nat.
Proof.
  intros Hle. unfold removeById. destruct (getElementById i st) as [n|] eqn:Eg.
  - unfold getElementById in Eg. apply find_some_filter in Eg. destruct Eg as [r Er].
    unfold count_id in *. rewrite all_nodes_remove. unfold without.
    rewrite filter_comm, Er. rewrite Er in Hle. cbn in Hle.
    destruct r; [|cbn in Hle; lia]. cbn. rewrite Node_eqb_refl. reflexivity.
  - apply getElementById_none, Eg.
Qed.

Lemma removeById_frame i st :
  this (removeById i st) = this st /\ rt (removeById i st) = rt st /\
  window (removeById i st) = window st /\
  classList (document (removeById i st)) = classList (document st) /\
  body_style (document (removeById i st)) = body_style (document st).
Proof. unfold removeById. destruct (getElementById i st); repeat split. Qed.

Lemma stopConsoleSpam_frame st :
  document (stopConsoleSpam st) = document st /\
  window (stopConsoleSpam st) = window st /\
  isDevToolsOpen (this (stopConsoleSpam st)) = isDevToolsOpen (this st) /\
  protectionActive (this (stopConsoleSpam st)) = protectionActive (this st) /\
  consoleSpamInterval (this (stopConsoleSpam st)) = None /\
  incl (timers (rt (stopConsoleSpam st))) (timers (rt st)).
Proof.
  unfold stopConsoleSpam. destruct (consoleSpamInterval (this st)) eqn:E; cbn.
  - repeat split. intros x Hx. apply filter_In in Hx. tauto.
  - repeat split; auto. apply incl_refl.
Qed.

Lemma stopConsoleSpam_spamTimers st t :
  consoleSpamInterval (this st) = Some t ->
  spamTimers st = [mkTimer t true 100 CbSpam] ->
  spamTimers (stopConsoleSpam st) = [].
Proof.
  intros Hi Ht. unfold stopConsoleSpam. rewrite Hi.
  unfold spamTimers in *. cbn. rewrite filter_comm, Ht. cbn.
  rewrite Pos.eqb_refl. reflexivity.
Qed.

Lemma spamTimers_add rep cb ms st :
  spamTimers (snd (addTimer rep cb ms st)) =
  spamTimers st ++
  match cb with CbSpam => [mkTimer (next_timer (rt st)) rep ms cb] | _ => [] end.
Proof.
  unfold spamTimers. cbn. rewrite filter_app. cbn. destruct cb; reflexivity.
Qed.

(** ** The invariant of the responder *)

Lemma Inv_view st st' :
  isDevToolsOpen (this st') = isDevToolsOpen (this st) ->
  protectionActive (this st') = protectionActive (this st) ->
  consoleSpamInterval (this st') = consoleSpamInterval (this st) ->
  timers (rt st') = timers (rt st) ->
  all_nodes st' = all_nodes st ->
  window st' = window st ->
  Inv st -> Inv st'.
Proof.
  intros Ho Ha Hi Ht Hn Hw [I1 I2 I3 I4 I5 I6].
  constructor; unfold count_id, spamState, spamTimers in *;
    rewrite ?Ho, ?Ha, ?Hi, ?Ht, ?Hn, ?Hw; assumption.
Qed.

Lemma Inv_ext st st' :
  this st' = this st ->
  timers (rt st') = timers (rt st) ->
  listeners (rt st') = listeners (rt st) ->
  console (rt st') = console (rt st) ->
  window st' = window st ->
  doc_head (document st') = doc_head (document st) ->
  doc_body (document st') = doc_body (document st) ->
  Inv st -> Inv st'.
Proof.
  intros Ht Hti _ _ Hw Hh Hb. apply Inv_view; try congruence.
  unfold all_nodes. congruence.
Qed.

Lemma Inv_closed st :
  Inv st -> isDevToolsOpen (this st) = false ->
  protectionActive (this st) = false /\
  consoleSpamInterval (this st) = None /\
  spamTimers st = [] /\
  getElementById overlay_id st = None /\
  getElementById active_style_id st = None.
Proof.
  intros [I1 I2 I3 I4 I5 I6] Hc. unfold spamState in I5. rewrite Hc in *.
  destruct I5 as [Hi Ht]. repeat split; auto; apply getElementById_none; assumption.
Qed.

Lemma Inv_append_head n st : plain n -> Inv st -> Inv (head_appendChild n st).
Proof.
  intros [Po Pa] [I1 I2 I3 I4 I5 I6].
  constructor; try assumption;
    rewrite count_id_split in *; cbn; rewrite filter_app, length_app; cbn;
    rewrite ?Po, ?Pa; cbn; lia.
Qed.

Lemma Inv_append_body n st : plain n -> Inv st -> Inv (body_appendChild n st).
Proof.
  intros [Po Pa] [I1 I2 I3 I4 I5 I6].
  constructor; try assumption;
    rewrite count_id_split in *; cbn; rewrite filter_app, length_app; cbn;
    rewrite ?Po, ?Pa; cbn; lia.
Qed.

Lemma Inv_remove n st : plain n -> Inv st -> Inv (remove_node n st).
Proof.
  intros [Po Pa] [I1 I2 I3 I4 I5 I6].
  constructor; try assumption; rewrite count_remove_other; assumption.
Qed.

Lemma Inv_addTimer rep cb ms st :
  capturesPlain cb -> cb <> CbSpam -> Inv st -> Inv (snd (addTimer rep cb ms st)).
Proof.
  intros Hc Hs [I1 I2 I3 I4 I5 I6]. constructor; try assumption.
  - unfold spamState in *. rewrite spamTimers_add.
    change (this (snd (addTimer rep cb ms st))) with (this st).
    destruct cb; try congruence; rewrite app_nil_r; exact I5.
  - intros x Hx. cbn in Hx. apply in_app_or in Hx.
    destruct Hx as [Hx|[Hx|[]]]; [apply I6, Hx | subst x; exact Hc].
Qed.

Lemma Inv_dropTimer x st : repeating x = false -> Inv st -> Inv (dropTimer x st).
Proof.
  intros Hr [I1 I2 I3 I4 I5 I6]. constructor; try assumption.
  - unfold spamState, spamTimers in *. cbn. rewrite filter_comm.
    destruct (isDevToolsOpen (this st)).
    + destruct I5 as (t & Hi & Ht). exists t. split; [exact Hi|].
      rewrite Ht. cbn.
      destruct (Timer_eqb x (mkTimer t true 100 CbSpam)) eqn:E; [|reflexivity].
      apply Timer_eqb_repeating in E. cbn in E. congruence.
    + destruct I5 as [Hi Ht]. rewrite Ht. auto.
  - intros y Hy. cbn in Hy. apply filter_In in Hy. apply I6, Hy.
Qed.

(** What a detection does to an idle page. *)
Lemma handle_effect st :
  consoleNative (window st) ->
  bodyPresent (window st) = true ->
  isDevToolsOpen (this st) = false ->
  protectionActive (this st) = false ->
  consoleSpamInterval (this st) = None ->
  getElementById overlay_id st = None ->
  exists st', handleDevToolsDetected st = Normal st' /\
    this st' = mkInstance true true (warningShown (this st)) (Some (next_timer (rt st))) /\
    timers (rt st') =
      (timers (rt st) ++ [mkTimer (next_timer (rt st)) true 100 CbSpam])
      ++ [mkTimer (Pos.succ (next_timer (rt st))) false 5000 CbRedirect] /\
    doc_head (document st') =
      doc_head (document st) ++ [mkNode (next_handle (rt st)) "STYLE" active_style_id] /\
    doc_body (document st') =
      doc_body (document st) ++ [mkNode (S (next_handle (rt st))) "DIV" overlay_id] /\
    body_style (document st') = mkStyle "blur(8px)" "0.3" "none" /\
    window st' = window st /\
    console (rt st') = console (rt st) ++ [(c_log, MsgDetected); (c_log, MsgActivated)].
Proof.
  intros Hn Hb Hc Hf Hi Hg.
  unfold handleDevToolsDetected, activateProtection, startConsoleSpam,
    applyVisualRestrictions, showProtectionOverlay, ifM, andThen, modify, withBody,
    console_call, skip, setInterval, setTimeout, addTimer, createElement.
  rewrite Hc.
  repeat first [ progress cbn -[String.eqb has_id]
               | rewrite Hn | rewrite Hb | rewrite Hf | rewrite Hi ].
  unfold getElementById, all_nodes in *. cbn -[String.eqb has_id].
  rewrite find_none_mid; [| exact Hg | reflexivity].
  repeat first [ progress cbn -[String.eqb has_id] | rewrite Hb ].
  eexists. split; [reflexivity|]. cbn. repeat split.
  rewrite <- app_assoc. reflexivity.
Qed.

Lemma Inv_handle : preserves Inv handleDevToolsDetected.
Proof.
  intros st HI. destruct (isDevToolsOpen (this st)) eqn:Ho.
  - rewrite (handle_noop st Ho). exact HI.
  - destruct (Inv_closed st HI Ho) as (Ha & Hi & Ht & Hg & _).
    destruct HI as [I1 I2 I3 I4 I5 I6 I7]. rewrite Ho in *.
    destruct (handle_effect st I1 I7 Ho Ha Hi Hg)
      as (st' & -> & Hthis & Htim & Hhead & Hbody & _ & Hwin & _).
    cbn [final]. constructor; [| | | | | | rewrite Hwin; exact I7].
    + rewrite Hwin. exact I1.
    + rewrite Hthis. reflexivity.
    + rewrite count_id_split in *. rewrite Hthis, Hhead, Hbody.
      rewrite !filter_app, !length_app. cbn. lia.
    + rewrite count_id_split in *. rewrite Hthis, Hhead, Hbody.
      rewrite !filter_app, !length_app. cbn. lia.
    + unfold spamState, spamTimers in *. rewrite Hthis, Htim. cbn.
      exists (next_timer (rt st)). split; [reflexivity|].
      rewrite !filter_app, Ht. reflexivity.
    + intros x Hx. rewrite Htim in Hx.
      apply in_app_or in Hx. destruct Hx as [Hx|[Hx|[]]].
      * apply in_app_or in Hx. destruct Hx as [Hx|[Hx|[]]]; [apply I6, Hx|].
        subst x. intros n [].
      * subst x. intros n [].
Qed.

(** What the deactivation path does when the console works. *)
Lemma deactivate_effect st :
  consoleNative (window st) ->
  bodyPresent (window st) = true ->
  exists st', deactivateProtection st = Normal st' /\
    isDevToolsOpen (this st') = false /\
    protectionActive (this st') = false /\
    consoleSpamInterval (this st') = None /\
    body_style (document st') = mkStyle "" "" "" /\
    window st' = window st /\
    ((count_id overlay_id st <= 1)%nat -> count_id overlay_id st' = 0%nat) /\
    ((count_id active_style_id st <= 1)%nat -> count_id active_style_id st' = 0%nat) /\
    incl (timers (rt st')) (timers (rt st)) /\
    (forall t, consoleSpamInterval (this st) = Some t ->
               spamTimers st = [mkTimer t true 100 CbSpam] -> spamTimers st' = []) /\
    classList (document st') =
      filter (fun x => negb (String.eqb protection_class x)) (classList (document st)).
Proof.
  intros Hn Hb.
  unfold deactivateProtection, andThen, modify, console_call, withBody.
  cbn [window upd_this]. rewrite Hb.
  match goal with
  | |- context [stopConsoleSpam (removeById overlay_id (removeById active_style_id ?s))] =>
      set (s0 := s)
  end.
  set (s2 := removeById active_style_id s0).
  set (s3 := removeById overlay_id s2).
  set (s4 := stopConsoleSpam s3).
  destruct (removeById_frame active_style_id s0) as (T2 & R2 & W2 & K2 & _).
  destruct (removeById_frame overlay_id s2) as (T3 & R3 & W3 & K3 & _).
  destruct (stopConsoleSpam_frame s3) as (D4 & W4 & O4 & A4 & I4 & L4).
  fold s2 in T2, R2, W2, K2. fold s3 in T3, R3, W3, K3.
  fold s4 in D4, W4, O4, A4, I4, L4.
  assert (W0 : window s0 = window st) by reflexivity.
  do 3 (rewrite W4, W3, W2, W0, Hb; cbn [window set_style upd_document]).
  rewrite W4, W3, W2, W0, Hn.
  eexists. split; [reflexivity|].
  assert (C4 : forall i, count_id i s4 = count_id i s3)
    by (intros i; unfold count_id, all_nodes; rewrite D4; reflexivity).
  assert (C0 : forall i, count_id i s0 = count_id i st) by reflexivity.
  assert (S3 : spamTimers s3 = spamTimers st)
    by (unfold spamTimers; rewrite R3, R2; reflexivity).
  assert (H3 : consoleSpamInterval (this s3) = consoleSpamInterval (this st))
    by (rewrite T3, T2; reflexivity).
  cbn [this upd_rt set_style upd_document document body_style set_body_style rt window].
  split; [rewrite O4, T3, T2; reflexivity|].
  split; [rewrite A4, T3, T2; reflexivity|].
  split; [exact I4|].
  split; [reflexivity|].
  split; [rewrite W4, W3, W2; reflexivity|].
  split; [|split; [|split; [|split]]].
  - intros Hle. change (count_id overlay_id s4 = 0%nat). rewrite C4.
    apply count_removeById_self.
    pose proof (count_removeById_le active_style_id overlay_id s0) as Hl.
    fold s2 in Hl. rewrite C0 in Hl. lia.
  - intros Hle. change (count_id active_style_id s4 = 0%nat). rewrite C4.
    pose proof (count_removeById_le overlay_id active_style_id s2) as Hl.
    fold s3 in Hl.
    pose proof (count_removeById_self active_style_id s0) as Hz.
    fold s2 in Hz. rewrite C0 in Hz. specialize (Hz Hle). lia.
  - change (incl (timers (rt s4)) (timers (rt st))).
    intros x Hx. apply L4 in Hx. rewrite R3, R2 in Hx. exact Hx.
  - intros t Hi Ht. change (spamTimers s4 = []).
    apply (stopConsoleSpam_spamTimers s3 t); congruence.
  - cbn [classList document upd_rt set_style upd_document set_body_style].
    rewrite D4, K3, K2. reflexivity.
Qed.

Lemma Inv_deactivate : preserves Inv deactivateProtection.
Proof.
  intros st [I1 I2 I3 I4 I5 I6 I7].
  destruct (deactivate_effect st I1 I7)
    as (st' & -> & Ho & Ha & Hi & _ & Hw & Hco & Hcs & Hincl & Hsp & _).
  cbn [final]. constructor; [| | | | | | rewrite Hw; exact I7].
  - rewrite Hw. exact I1.
  - congruence.
  - rewrite Ho. apply Hco. rewrite I3. destruct (isDevToolsOpen (this st)); lia.
  - rewrite Ho. apply Hcs. rewrite I4. destruct (isDevToolsOpen (this st)); lia.
  - unfold spamState in *. rewrite Ho. split; [exact Hi|].
    destruct (isDevToolsOpen (this st)).
    + destruct I5 as (t & Hi' & Ht). exact (Hsp t Hi' Ht).
    + destruct I5 as [_ Ht]. unfold spamTimers in *.
      destruct (filter _ (timers (rt st'))) as [|y r] eqn:Ef; [reflexivity|].
      assert (Hy : In y (filter
                (fun x => match callback x with CbSpam => true | _ => false end)
                (timers (rt st)))).
      { apply filter_In. assert (Hy : In y (y :: r)) by (left; reflexivity).
        rewrite <- Ef in Hy. apply filter_In in Hy. destruct Hy as [Hy1 Hy2].
        split; [apply Hincl, Hy1 | exact Hy2]. }
      rewrite Ht in Hy. destruct Hy.
  - intros x Hx. apply I6, Hincl, Hx.
Qed.

Lemma Inv_consoleSpamBody : preserves Inv consoleSpamBody.
Proof.
  apply frame_consoleSpamBody.
  - intros x st. apply Inv_view; reflexivity.
  - intros st. apply Inv_view; reflexivity.
  - intros st HI Ha.
    assert (Hc : isDevToolsOpen (this st) = false)
      by (rewrite <- (inv_flags st HI); exact Ha).
    destruct (Inv_closed st HI Hc) as (_ & Hi & _).
    rewrite Hi. cbn [clearInterval].
    revert HI. apply Inv_view; try reflexivity. cbn. symmetry. exact Hi.
Qed.

Ltac inv_side :=
  first [ exact Inv_ext | exact Inv_handle | exact plain_created
        | exact Inv_append_head | exact Inv_append_body | exact Inv_remove
        | exact Inv_dropTimer
        | intros; apply Inv_addTimer; assumption
        | intros ? ?; apply Inv_view; reflexivity
        | intros ? ? ? ? ? ?; apply Inv_view; reflexivity ].

Lemma Inv_recheckBody : preserves Inv recheckBody.
Proof. apply preserves_whenM, Inv_deactivate. Qed.

Lemma Inv_detectByWindowSize : preserves Inv detectByWindowSize.
Proof.
  apply frame_detectByWindowSize; [exact Inv_handle|].
  intros st HI. apply Inv_addTimer; [intros n [] | discriminate | exact HI].
Qed.

(** Every stimulus keeps the invariant, as long as the console of a changed
    environment still works and the body is still there. *)
Lemma Inv_step s st :
  (forall e, s = Ambient e -> consoleNative e /\ bodyPresent e = true) ->
  Inv st -> Inv (step s st).
Proof.
  intros Hs HI. destruct s as [x|on ty e|r|e]; cbn [step].
  - destruct (pending x st) eqn:Ep; [|unfold fire; rewrite Ep; exact HI].
    apply pending_In in Ep.
    apply frame_fire with (ok := plain); try inv_side; try exact HI.
    + exact (inv_captures st HI x Ep).
    + intros _. exact Inv_recheckBody.
    + intros _. exact Inv_detectByWindowSize.
    + intros _. exact Inv_consoleSpamBody.
  - apply frame_dispatchEvent with (ok := plain); try inv_side; exact HI.
  - apply frame_deliverMutation; [exact Inv_handle | exact HI].
  - destruct HI as [I1 I2 I3 I4 I5 I6 I7]. constructor; try assumption.
    + apply (Hs e eq_refl).
    + apply (Hs e eq_refl).
Qed.

Lemma Inv_console_call m msg : preserves Inv (console_call m msg).
Proof. apply frame_console_call. intros x st. apply Inv_view; reflexivity. Qed.

Lemma Inv_initImmediate : preserves Inv initImmediate.
Proof.
  unfold initImmediate.
  apply preserves_andThen.
  { unfold detectExistingDevTools.
    apply preserves_ifM; [exact Inv_handle|].
    apply preserves_andThen; [apply Inv_console_call|].
    apply preserves_andThen; apply preserves_whenM, Inv_handle. }
  apply preserves_andThen.
  { unfold disableAllDevToolsAccess.
    repeat apply preserves_andThen;
      apply preserves_modify; intros s; apply Inv_view; reflexivity. }
  apply preserves_andThen.
  { unfold startContinuousDetection, setInterval.
    repeat apply preserves_andThen;
      apply preserves_modify; intros s H;
      (apply Inv_addTimer; [intros n [] | discriminate | exact H]). }
  apply preserves_ifM.
  - apply preserves_modify. intros s. apply Inv_view; reflexivity.
  - apply frame_setupAdvancedProtection with (ok := plain); inv_side.
Qed.

Lemma Inv_page e d :
  consoleNative e -> bodyPresent e = true -> hostClean d -> Inv (page e d).
Proof.
  intros Hn Hb Hd.
  assert (Hz : forall i, (i = overlay_id \/ i = active_style_id) ->
                         count_id i (page e d) = 0%nat).
  { intros i Hi. unfold count_id, all_nodes. cbn.
    destruct (filter (has_id i) (doc_head d ++ doc_body d)) as [|n r] eqn:Ef;
      [reflexivity|].
    assert (Hin : In n (filter (has_id i) (doc_head d ++ doc_body d)))
      by (rewrite Ef; left; reflexivity).
    apply filter_In in Hin. destruct Hin as [Hin Hid].
    apply String.eqb_eq in Hid. destruct (Hd n Hin) as [Ho Ha].
    destruct Hi; subst i; contradiction. }
  constructor; cbn.
  - exact Hn.
  - reflexivity.
  - apply Hz. auto.
  - apply Hz. auto.
  - unfold spamState. cbn. auto.
  - intros x [].
  - exact Hb.
Qed.

Lemma Inv_load e d :
  consoleNative e -> bodyPresent e = true -> hostClean d -> Inv (load e d).
Proof.
  intros Hn Hb Hd. unfold load.
  change (script (page e d)) with ((initImmediate ;; console_call c_log MsgLoaded) (page e d)).
  apply preserves_andThen; [exact Inv_initImmediate | apply Inv_console_call |].
  apply Inv_page; assumption.
Qed.

Lemma reachable_Inv st : reachable st -> Inv st.
Proof.
  induction 1
    as [e d Hn Hb Hd | st x _ IH | st on ty e _ IH | st r _ IH | st e _ IH Hn Hb].
  - apply Inv_load; assumption.
  - apply (Inv_step (Fire x)); [intros; discriminate | exact IH].
  - apply (Inv_step (Dispatch on ty e)); [intros; discriminate | exact IH].
  - apply (Inv_step (Mutated r)); [intros; discriminate | exact IH].
  - apply (Inv_step (Ambient e)); [intros ? [= <-]; split; assumption | exact IH].
Qed.

(** ** Detection from any state with a working console *)

Lemma find_last {A} (f : A -> bool) l n :
  f n = true -> exists m, find f (l ++ [n]) = Some m.
Proof.
  intros Hn. destruct (find f (l ++ [n])) eqn:E; [eauto|].
  assert (Hf : f n = false); [|congruence].
  apply (find_none _ _ E). apply in_or_app. right. left. reflexivity.
Qed.

Lemma handle_detects st :
  consoleNative (window st) ->
  bodyPresent (window st) = true ->
  isDevToolsOpen (this st) = false ->
  exists st', handleDevToolsDetected st = Normal st' /\
    isDevToolsOpen (this st') = true /\
    (exists n, getElementById overlay_id st' = Some n) /\
    body_style (document st') = mkStyle "blur(8px)" "0.3" "none" /\
    window st' = window st /\
    In (c_log, MsgDetected) (console (rt st')).
Proof.
  intros Hn Hb Hc.
  unfold handleDevToolsDetected, activateProtection, startConsoleSpam,
    applyVisualRestrictions, showProtectionOverlay, ifM, andThen, modify, withBody,
    console_call, skip, setInterval, setTimeout, addTimer, createElement.
  rewrite Hc.
  destruct (protectionActive (this st)) eqn:Ea;
    destruct (consoleSpamInterval (this st)) eqn:Ei;
    repeat first [ progress cbn -[String.eqb has_id getElementById]
                 | rewrite Hn | rewrite Hb | rewrite Ea | rewrite Ei ].
  all: match goal with
       | |- context [getElementById overlay_id ?s] =>
           destruct (getElementById overlay_id s) as [n|] eqn:Eg
       end.
  all: repeat first [ progress cbn -[String.eqb has_id getElementById] | rewrite Hb ].
  all: eexists; (split; [reflexivity|]).
  all: unfold getElementById, all_nodes in *; cbn -[String.eqb has_id] in *.
  all: split; [reflexivity|]; split; [|split; [reflexivity|split; [reflexivity|]]].
  all: try (eexists; exact Eg).
  all: try (rewrite app_assoc; apply find_last; reflexivity).
  all: repeat (apply in_or_app; first [ right; left; reflexivity | left ]).
Qed.

(** ** The environment is only changed from outside *)

Lemma window_step s st :
  (forall e, s <> Ambient e) -> window (step s st) = window st.
Proof.
  intros Hs.
  set (P := fun x : State => window x = window st).
  assert (Hside : forall x, P x -> P x) by auto.
  destruct s as [x|on ty e|r|e]; cbn [step].
  - apply (indep_fire P); unfold P; try (intros; cbn; congruence).
    + intros _. apply indep_recheckBody; unfold P; intros; cbn; congruence.
    + intros _. apply indep_detectByWindowSize; unfold P; intros; cbn; congruence.
    + intros _. apply indep_consoleSpamBody; unfold P; intros; cbn; congruence.
  - apply (indep_dispatchEvent P); unfold P; intros; cbn; congruence.
  - apply (indep_deliverMutation P); unfold P; intros; cbn; congruence.
  - elim (Hs e). reflexivity.
Qed.

(** ** The unreachable first [setupAdvancedProtection] *)

Ltac dead_side :=
  unfold noneDead; intros; unfold noneDead in *; cbn in *;
  repeat match goal with
         | H : _ /\ _ |- _ => destruct H
         | H : timers _ = timers _ |- _ => rewrite H in *
         | H : listeners _ = listeners _ |- _ => rewrite H in *
         end;
  (split; intros ? Hin;
   repeat match type of Hin with
          | In _ (_ ++ _) => apply in_app_or in Hin; destruct Hin as [Hin|Hin]
          | In _ [_] => destruct Hin as [Hin|[]]; subst
          | In _ (filter _ _) => apply filter_In in Hin; destruct Hin as [Hin _]
          end;
   first [ now eauto | assumption | cbn; congruence ]).

Lemma noneDead_step s st : noneDead st -> noneDead (step s st).
Proof.
  intros H. destruct s as [x|on ty e|r|e]; cbn [step].
  - apply indep_fire; try dead_side.
    + intros _. apply indep_recheckBody; dead_side.
    + intros _. apply indep_detectByWindowSize; dead_side.
    + intros _. apply indep_consoleSpamBody; dead_side.
  - apply indep_dispatchEvent; dead_side.
  - apply indep_deliverMutation; dead_side.
  - exact H.
Qed.

Lemma noneDead_load e d : noneDead (load e d).
Proof.
  unfold load. apply indep_script; dead_side.
Qed.

Lemma reachable_noneDead st : reachable st -> noneDead st.
Proof.
  induction 1 as [e d Hn Hd | st x _ IH | st on ty e _ IH | st r _ IH | st e _ IH Hn].
  - apply noneDead_load.
  - exact (noneDead_step (Fire x) st IH).
  - exact (noneDead_step (Dispatch on ty e) st IH).
  - exact (noneDead_step (Mutated r) st IH).
  - exact IH.
Qed.

(** ** The mark of the entry point *)

Ltac marked_side :=
  unfold marked; intros; cbn in *;
  repeat match goal with
         | H : _ /\ _ |- _ => destruct H
         | H : this _ = this _ |- _ => rewrite H in *
         | H : console _ = console _ |- _ => rewrite H in *
         | H : window _ = window _ |- _ => rewrite H in *
         end;
  (split; [assumption | intros; first [ discriminate | apply in_or_app; left; auto | auto ]]).

Lemma marked_handle : preserves marked handleDevToolsDetected.
Proof.
  intros st [Hn Hm]. destruct (isDevToolsOpen (this st)) eqn:Ho.
  - rewrite (handle_noop st Ho). split; [exact Hn | intros _; apply Hm; reflexivity].
  - unfold handleDevToolsDetected, ifM. rewrite Ho.
    unfold andThen at 1. unfold modify at 1.
    unfold andThen at 1. unfold console_call at 1.
    cbn [window upd_this]. rewrite Hn.
    match goal with
    | |- marked (final (?m ?s)) => assert (Hs : marked s); [|revert Hs; generalize s]
    end.
    { split; [exact Hn|]. intros _. cbn. apply in_or_app. right. left. reflexivity. }
    change (preserves marked
              (activateProtection ;; showProtectionOverlay ;;
               withBody (set_style (set_filter "blur(8px)")) ;;
               withBody (set_style (set_opacity "0.3")) ;;
               withBody (set_style (set_pointerEvents "none")) ;;
               modify (setTimeout CbRedirect 5000))).
    apply preserves_andThen; [apply indep_activateProtection; marked_side|].
    apply preserves_andThen; [apply indep_showProtectionOverlay; marked_side|].
    pres_struct fail ltac:(unfold marked in *; marked_side).
Qed.

Lemma marked_deactivate : preserves marked deactivateProtection.
Proof.
  apply frame_deactivateProtection; try marked_side.
  - intros i st [Hn Hm]. destruct (removeById_frame i st) as (Ht & Hr & Hw & _).
    split; [rewrite Hw; exact Hn | rewrite Ht, Hr; exact Hm].
  - intros st [Hn Hm]. unfold stopConsoleSpam.
    destruct (consoleSpamInterval (this st)); [|split; assumption].
    split; [exact Hn | exact Hm].
Qed.

Lemma marked_step s st :
  (forall x, s = Fire x -> callback x <> CbSpam) ->
  (forall e, s <> Ambient e) ->
  marked st -> marked (step s st).
Proof.
  intros Hs Ha H. destruct s as [x|on ty e|r|e]; cbn [step].
  - apply frame_fire with (ok := fun _ => True);
      try first [ exact marked_handle | exact H | intros; exact I
                | intros; exact (conj I I) | marked_side ].
    + intros _. apply preserves_whenM, marked_deactivate.
    + intros _. apply frame_detectByWindowSize; [exact marked_handle | marked_side].
    + intros Hc. elim (Hs x eq_refl Hc).
  - apply frame_dispatchEvent with (ok := fun _ => True);
      try first [ exact marked_handle | exact H | intros; exact I
                | intros; exact (conj I I) | marked_side ].
  - apply frame_deliverMutation; [exact marked_handle | exact H].
  - elim (Ha e). reflexivity.
Qed.

Lemma spam_keeps_belief st :
  isDevToolsOpen (this (final (consoleSpamBody st))) = isDevToolsOpen (this st).
Proof.
  set (P := fun x : State => isDevToolsOpen (this x) = isDevToolsOpen (this st)).
  apply (indep_consoleSpamBody P); unfold P; intros; cbn; congruence.
Qed.

(** * The claims *)

Lemma calm_native : consoleNative calmEnv.
Proof. intros m. reflexivity. Qed.

Lemma idlePage_reachable : reachable idlePage.
Proof. apply reach_load; [exact calm_native | reflexivity | intros n []]. Qed.

Lemma detectedPage_reachable : reachable detectedPage.
Proof. apply reach_dispatch, idlePage_reachable. Qed.

Lemma recheckPending_reachable : reachable recheckPending.
Proof. apply reach_fire, detectedPage_reachable. Qed.

(** ** C1: the suppressed gestures *)

Lemma keydownBlocked_spec e :
  keydownBlocked e = true <->
  key e = "F12" \/
  (ctrlKey e = true /\ shiftKey e = true /\
   (key e = "I" \/ key e = "J" \/ key e = "C" \/ key e = "K" \/
    key e = "E" \/ key e = "S")) \/
  (ctrlKey e = true /\ key e = "u") \/
  (metaKey e = true /\ altKey e = true /\ key e = "I").
Proof.
  unfold keydownBlocked.
  destruct (ctrlKey e), (shiftKey e), (metaKey e), (altKey e); cbn [andb];
    repeat match goal with
           | |- context [String.eqb (key e) ?k] =>
               destruct (String.eqb_spec (key e) k)
           end;
    split; intros H; try reflexivity; try discriminate; try tauto;
    repeat match goal with
           | H : _ \/ _ |- _ => destruct H
           | H : _ /\ _ |- _ => destruct H
           end; try congruence; try discriminate.
Qed.

Lemma showWarning_keeps_belief msg st :
  isDevToolsOpen (this (final (showWarning msg st))) = isDevToolsOpen (this st).
Proof.
  unfold showWarning, ifM. destruct (warningShown (this st)); [reflexivity|].
  unfold createElement, andThen, withBody. cbv beta iota zeta.
  cbn [window upd_rt upd_this].
  destruct (bodyPresent (window st)); reflexivity.
Qed.

(** C1, counterexample.  On the idle page a middle-button click has its
    default action cancelled but reports nothing: the belief stays closed.
    A PrintScreen key-up reports a detection, and its default action is
    not cancelled. *)
Lemma middle_click_reports_nothing :
  defaultPrevented (fst (dispatchEvent Doc mousedown middleClick idlePage)) = true /\
  isDevToolsOpen (this (snd (dispatchEvent Doc mousedown middleClick idlePage))) = false /\
  defaultPrevented (fst (dispatchEvent Doc keyup printScreenKey idlePage)) = false /\
  isDevToolsOpen (this (snd (dispatchEvent Doc keyup printScreenKey idlePage))) = true.
Proof. vm_compute. repeat split. Qed.

(** C1, amended.  For a cancelable event: a dev-tools keyboard shortcut
    (F12, Ctrl+Shift+I/J/C/K/E/S, Ctrl+u, Meta+Alt+I) and a context click
    both cancel the default action and report a detection, which opens the
    belief.  A middle-button click, an image drag-start and a print request
    only have their default action cancelled; a PrintScreen key-up only
    reports the detection; a copy is cancelled only while protection is
    active, and reports nothing. *)
Theorem suppressed_gestures e st :
  cancelable e = true ->
  (keydownBlocked e = true ->
     defaultPrevented (fst (final (onKeydown (e, st)))) = true /\
     snd (final (onKeydown (e, st))) = final (handleDevToolsDetected st) /\
     isDevToolsOpen (this (snd (final (onKeydown (e, st))))) = true) /\
  (defaultPrevented (fst (final (onContextmenu (e, st)))) = true /\
   snd (final (onContextmenu (e, st))) = final (handleDevToolsDetected st) /\
   isDevToolsOpen (this (snd (final (onContextmenu (e, st))))) = true) /\
  (button e = 1 -> onMousedownMiddle (e, st) = Normal (preventDefault e, st)) /\
  (target_tagName e = "IMG" -> onDragstart (e, st) = Normal (preventDefault e, st)) /\
  (defaultPrevented (fst (final (onBeforeprint (e, st)))) = true /\
   isDevToolsOpen (this (snd (final (onBeforeprint (e, st))))) = isDevToolsOpen (this st)) /\
  (key e = "PrintScreen" ->
     fst (final (onKeyup (e, st))) = e /\
     isDevToolsOpen (this (snd (final (onKeyup (e, st))))) = true) /\
  (protectionActive (this st) = true ->
     defaultPrevented (fst (final (onCopy (e, st)))) = true /\
     snd (final (onCopy (e, st))) = st) /\
  defaultPrevented (preventDefault e) = true.
Proof.
  intros Hc.
  assert (Hp : defaultPrevented (preventDefault e) = true).
  { cbn. rewrite Hc. apply orb_true_r. }
  pose proof (handle_opens st) as Ho.
  repeat split.
  - unfold onKeydown, whenM, ifM, andThen, onEvent, modify, onState. cbn. rewrite H. cbn.
    destruct (handleDevToolsDetected st); exact Hp.
  - unfold onKeydown, whenM, ifM, andThen, onEvent, modify, onState. cbn. rewrite H. cbn.
    destruct (handleDevToolsDetected st); reflexivity.
  - unfold onKeydown, whenM, ifM, andThen, onEvent, modify, onState. cbn. rewrite H. cbn.
    destruct (handleDevToolsDetected st); exact Ho.
  - unfold onContextmenu, andThen, onEvent, modify, onState. cbn.
    destruct (handleDevToolsDetected st); exact Hp.
  - unfold onContextmenu, andThen, onEvent, modify, onState. cbn.
    destruct (handleDevToolsDetected st); reflexivity.
  - unfold onContextmenu, andThen, onEvent, modify, onState. cbn.
    destruct (handleDevToolsDetected st); exact Ho.
  - intros Hb. unfold onMousedownMiddle, whenM, ifM, onEvent, modify. cbn.
    rewrite Hb. reflexivity.
  - intros Ht. unfold onDragstart, whenM, ifM, onEvent, modify. cbn.
    rewrite Ht. rewrite orb_true_r. reflexivity.
  - unfold onBeforeprint, andThen, onEvent, modify, onState. cbn [fst snd].
    destruct (showWarning "Printing is disabled" st); exact Hp.
  - pose proof (showWarning_keeps_belief "Printing is disabled" st) as Hw.
    unfold onBeforeprint, andThen, onEvent, modify, onState. cbn [fst snd].
    destruct (showWarning "Printing is disabled" st); exact Hw.
  - unfold onKeyup, whenM, ifM, andThen, tryIgnore, onState,
      navigator_clipboard_writeText. cbn. rewrite H. cbn.
    destruct (handleDevToolsDetected st) as [s|s]; cbn; [|reflexivity].
    destruct (navigatorClipboard (window s)); reflexivity.
  - unfold onKeyup, whenM, ifM, andThen, tryIgnore, onState,
      navigator_clipboard_writeText. cbn. rewrite H. cbn.
    destruct (handleDevToolsDetected st) as [s|s]; cbn in *; [|exact Ho].
    destruct (navigatorClipboard (window s)); exact Ho.
  - unfold onCopy, whenM, ifM, andThen, onEvent, modify, clipboardData_setData. cbn.
    rewrite H. cbn. destruct (clipboardData e); exact Hp.
  - unfold onCopy, whenM, ifM, andThen, onEvent, modify, clipboardData_setData. cbn.
    rewrite H. cbn. destruct (clipboardData e); reflexivity.
  - exact Hp.
Qed.

Lemma suppressed_gestures_witness :
  cancelable f12Key = true /\
  defaultPrevented (fst (final (onKeydown (f12Key, idlePage)))) = true /\
  isDevToolsOpen (this (snd (final (onKeydown (f12Key, idlePage))))) = true.
Proof.
  split; [reflexivity|].
  destruct (suppressed_gestures f12Key idlePage eq_refl) as [Hk _].
  destruct (Hk eq_refl) as (Hd & _ & Ho). split; [exact Hd | exact Ho].
Defined.

(** ** C2: the global-symbol probe *)

(** The scan itself does what the claim says: a callable console helper
    makes it report a detection. *)
Lemma globalsBody_detects st v :
  In v suspiciousVars -> callableGlobal (window st) v = true ->
  consoleNative (window st) ->
  isDevToolsOpen (this (final (globalsBody st))) = true.
Proof.
  intros Hv Hc Hn.
  assert (Hw : preserves (fun s => window s = window st) handleDevToolsDetected).
  { apply indep_handle; intros; cbn; congruence. }
  assert (Hgen : forall vs s, In v vs -> window s = window st ->
            isDevToolsOpen (this (final (forEach vs (fun varName =>
              whenM (fun st => callableGlobal (window st) varName)
                    handleDevToolsDetected) s))) = true).
  { induction vs as [|u vs IH]; intros s Hin Hs; [destruct Hin|].
    cbn [forEach]. unfold andThen, whenM, ifM at 1.
    destruct Hin as [->|Hin].
    - rewrite Hs, Hc.
      pose proof (handle_opens s) as Ho.
      destruct (handleDevToolsDetected s) as [s'|s'] eqn:E; cbn in Ho; [|exact Ho].
      apply (preserves_forEach believes); [|exact Ho].
      intros u. apply preserves_whenM. intros x Hx. rewrite (handle_noop x Hx). exact Hx.
    - destruct (callableGlobal (window s) u).
      + pose proof (handle_opens s) as Ho. pose proof (Hw s Hs) as Hw'.
        destruct (handleDevToolsDetected s) as [s'|s'] eqn:E; cbn in Ho, Hw'; [|exact Ho].
        apply IH; assumption.
      + cbn. apply IH; assumption. }
  apply Hgen; [exact Hv | reflexivity].
Qed.

(** In no reachable state is the scan scheduled, nor is a listener of the
    first [setupAdvancedProtection] installed: the second declaration of
    that name is the one [initImmediate] calls. *)
Lemma globals_scan_never_scheduled st x :
  reachable st -> In x (timers (rt st)) -> callback x <> CbGlobals.
Proof. intros Hr. exact (proj1 (reachable_noneDead st Hr) x). Qed.

(** C2, the code at the failing input.  On a page where [$] is a function
    the script schedules its four probes and no global-symbol scan, and
    two rounds of all its timers leave the belief closed, although the scan
    run on that very state would report the detection. *)
Theorem global_probe_not_installed :
  map callback (timers (rt (load helpersEnv emptyDocument))) =
    [CbWindowSize; CbConsole; CbTiming; CbElementInspection] /\
  setupAdvancedProtection = setupAdvancedProtection_2 /\
  isDevToolsOpen
    (this (run (map Fire probeTimers ++ map Fire probeTimers)
               (load helpersEnv emptyDocument))) = false /\
  isDevToolsOpen (this (final (globalsBody (load helpersEnv emptyDocument)))) = true.
Proof. repeat split; vm_compute; reflexivity. Qed.

(** ** C3: from Detected back to Idle *)

Lemma gapLow_tests e :
  gapLow e ->
  (heightDiff e >? 150) || (widthDiff e >? 150) = false /\
  (heightDiff e <? 100) && (widthDiff e <? 100) = true.
Proof.
  intros [Hh Hw]. split.
  - apply orb_false_iff. split; rewrite Z.gtb_ltb; apply Z.ltb_ge; lia.
  - apply andb_true_iff. split; apply Z.ltb_lt; assumption.
Qed.

Lemma not_gapLow_test e :
  ~ gapLow e -> (heightDiff e <? 100) && (widthDiff e <? 100) = false.
Proof.
  intros Hn. destruct ((heightDiff e <? 100) && (widthDiff e <? 100)) eqn:E;
    [|reflexivity].
  apply andb_true_iff in E. destruct E as [Eh Ew].
  apply Z.ltb_lt in Eh, Ew. elim Hn. split; assumption.
Qed.

Lemma gapHigh_tests e :
  gapHigh e ->
  (heightDiff e >? 150) || (widthDiff e >? 150) = true /\
  (heightDiff e <? 100) && (widthDiff e <? 100) = false.
Proof.
  intros H. split.
  - apply orb_true_iff.
    destruct H as [H|H]; [left | right]; rewrite Z.gtb_ltb; apply Z.ltb_lt; lia.
  - apply andb_false_iff.
    destruct H as [H|H]; [left | right]; apply Z.ltb_ge; lia.
Qed.

(** The state in which the callback of a due timer starts. *)
Lemma fire_pending x st :
  pending x st = true ->
  fire x st =
  final (callbackBody (callback x) (if repeating x then st else dropTimer x st)).
Proof. intros H. unfold fire. rewrite H. reflexivity. Qed.

Lemma due_state x st :
  let st0 := if repeating x then st else dropTimer x st in
  this st0 = this st /\ window st0 = window st /\ document st0 = document st /\
  next_timer (rt st0) = next_timer (rt st) /\
  (Inv st -> Inv st0).
Proof.
  destruct (repeating x) eqn:E; cbn;
    (split; [reflexivity|]); (split; [reflexivity|]); (split; [reflexivity|]);
    (split; [reflexivity|]).
  - auto.
  - apply Inv_dropTimer, E.
Qed.

Lemma recheck_clears st x :
  Inv st -> gapLow (window st) -> pending x st = true -> callback x = CbRecheck ->
  isDevToolsOpen (this (fire x st)) = false /\
  protectionActive (this (fire x st)) = false /\
  count_id overlay_id (fire x st) = 0%nat /\
  count_id active_style_id (fire x st) = 0%nat /\
  body_style (document (fire x st)) = mkStyle "" "" "" /\
  ~ In protection_class (classList (document (fire x st))) /\
  consoleSpamInterval (this (fire x st)) = None /\
  spamTimers (fire x st) = [].
Proof.
  intros HI Hg Hp Hc. rewrite (fire_pending x st Hp), Hc. cbn [callbackBody].
  destruct (due_state x st) as (Ht & Hw & Hd & _ & HI0).
  set (st0 := if repeating x then st else dropTimer x st) in *.
  specialize (HI0 HI).
  unfold recheckBody, whenM, ifM. rewrite Hw.
  rewrite (proj2 (gapLow_tests _ Hg)).
  pose proof (Inv_deactivate st0 HI0) as HI'.
  destruct (deactivate_effect st0 (inv_native st0 HI0) (inv_body st0 HI0))
    as (st' & E & Ho & Ha & Hi & Hs & _ & _ & _ & _ & _ & Hcl).
  rewrite E in *. cbn [final] in *.
  destruct (Inv_closed st' HI' Ho) as (_ & _ & Hsp & Hgo & Hga).
  repeat split; auto.
  - apply getElementById_none, Hgo.
  - apply getElementById_none, Hga.
  - rewrite Hcl. intros Hin. apply filter_In in Hin. destruct Hin as [_ Hin].
    rewrite String.eqb_refl in Hin. discriminate.
Qed.

Lemma recheck_waits st x :
  ~ gapLow (window st) -> pending x st = true -> callback x = CbRecheck ->
  isDevToolsOpen (this (fire x st)) = isDevToolsOpen (this st).
Proof.
  intros Hg Hp Hc. rewrite (fire_pending x st Hp), Hc. cbn [callbackBody].
  destruct (due_state x st) as (Ht & Hw & _).
  set (st0 := if repeating x then st else dropTimer x st) in *.
  unfold recheckBody, whenM, ifM. rewrite Hw, (not_gapLow_test _ Hg).
  cbn. rewrite Ht. reflexivity.
Qed.

Lemma probe_low_schedules st y :
  isDevToolsOpen (this st) = true -> gapLow (window st) ->
  pending y st = true -> callback y = CbWindowSize ->
  In (mkTimer (next_timer (rt st)) false 1000 CbRecheck) (recheckTimers (fire y st)) /\
  isDevToolsOpen (this (fire y st)) = true.
Proof.
  intros Ho Hg Hp Hc. rewrite (fire_pending y st Hp), Hc. cbn [callbackBody].
  destruct (due_state y st) as (Ht & Hw & _ & Hn & _).
  set (st0 := if repeating y then st else dropTimer y st) in *.
  unfold detectByWindowSize, whenM, ifM, checkIfReallyClosed, modify.
  destruct (gapLow_tests _ Hg) as [E1 E2].
  rewrite Hw, E1, Ht, Ho. cbn [andb].
  apply andb_true_iff in E2. destruct E2 as [E2 E3]. rewrite E2, E3. cbn [final].
  split; [|cbn; rewrite Ht; exact Ho].
  apply in_recheckTimers. split; [|reflexivity].
  cbn. apply in_or_app. right. left. rewrite Hn. reflexivity.
Qed.

(** C3.  From the Detected state: the belief is closed only by a re-check
    timer coming due while the gap is below 100; such a timer is scheduled
    only by the window-size probe, which found the gap below 100, for 1000 ms
    later; and when it comes due with the gap still below 100 the responder
    clears the belief, removes the overlay and the injected styling and
    cancels the console-spam task, while with a larger gap it leaves the
    belief open.  No other probe, listener or observer does any of this. *)
Theorem detected_to_idle_only_by_recheck st s :
  reachable st -> isDevToolsOpen (this st) = true ->
  (isDevToolsOpen (this (step s st)) = false ->
     exists x, s = Fire x /\ pending x st = true /\ callback x = CbRecheck /\
               gapLow (window st)) /\
  (forall x, In x (recheckTimers (step s st)) -> ~ In x (recheckTimers st) ->
     exists y, s = Fire y /\ pending y st = true /\ callback y = CbWindowSize /\
               gapLow (window st) /\
               x = mkTimer (next_timer (rt st)) false 1000 CbRecheck) /\
  (forall y, pending y st = true -> callback y = CbWindowSize -> gapLow (window st) ->
     In (mkTimer (next_timer (rt st)) false 1000 CbRecheck) (recheckTimers (fire y st)) /\
     isDevToolsOpen (this (fire y st)) = true) /\
  (forall x, pending x st = true -> callback x = CbRecheck ->
     (gapLow (window st) ->
        isDevToolsOpen (this (fire x st)) = false /\
        protectionActive (this (fire x st)) = false /\
        count_id overlay_id (fire x st) = 0%nat /\
        count_id active_style_id (fire x st) = 0%nat /\
        body_style (document (fire x st)) = mkStyle "" "" "" /\
        ~ In protection_class (classList (document (fire x st))) /\
        consoleSpamInterval (this (fire x st)) = None /\
        spamTimers (fire x st) = []) /\
     (~ gapLow (window st) -> isDevToolsOpen (this (fire x st)) = true)).
Proof.
  intros Hr Ho. pose proof (reachable_Inv st Hr) as HI.
  split; [|split; [|split]].
  - intros Hc. destruct (closing_is_recheck s st Ho Hc) as (x & -> & Hp & Hcb).
    exists x. repeat split; try assumption.
    + destruct ((heightDiff (window st) <? 100)) eqn:E; [apply Z.ltb_lt, E|].
      exfalso. cbn [step] in Hc.
      rewrite (recheck_waits st x) in Hc; try assumption; [congruence|].
      intros [Hh _]. apply Z.ltb_lt in Hh. congruence.
    + destruct ((widthDiff (window st) <? 100)) eqn:E; [apply Z.ltb_lt, E|].
      exfalso. cbn [step] in Hc.
      rewrite (recheck_waits st x) in Hc; try assumption; [congruence|].
      intros [_ Hw]. apply Z.ltb_lt in Hw. congruence.
  - intros x Hin Hnew.
    destruct (recheck_is_scheduled_by_window_probe s st x Hin Hnew)
      as (y & Hs & Hp & Hcb & _ & Hg & Hx).
    exists y. repeat split; try assumption; apply Hg.
  - intros y Hp Hcb Hg. apply probe_low_schedules; assumption.
  - intros x Hp Hcb. split.
    + intros Hg. apply recheck_clears; assumption.
    + intros Hg. rewrite (recheck_waits st x Hg Hp Hcb). exact Ho.
Qed.

Lemma detected_to_idle_witness :
  reachable recheckPending /\
  isDevToolsOpen (this recheckPending) = true /\
  isDevToolsOpen (this (fire recheckTimer recheckPending)) = false /\
  count_id overlay_id (fire recheckTimer recheckPending) = 0%nat.
Proof.
  split; [exact recheckPending_reachable|]. split; [reflexivity|].
  destruct (detected_to_idle_only_by_recheck recheckPending (Fire recheckTimer)
              recheckPending_reachable eq_refl) as (_ & _ & _ & H).
  destruct (H recheckTimer eq_refl eq_refl) as [Hlow _].
  assert (Hg : gapLow (window recheckPending)) by (split; reflexivity).
  destruct (Hlow Hg) as (Ho & _ & Hc & _). split; [exact Ho | exact Hc].
Defined.

(** ** C4: one overlay *)

Lemma showProtectionOverlay_idempotent st :
  bodyPresent (window st) = true ->
  showProtectionOverlay (final (showProtectionOverlay st)) =
  Normal (final (showProtectionOverlay st)).
Proof.
  intros Hb. unfold showProtectionOverlay at 2 3.
  destruct (getElementById overlay_id st) as [n|] eqn:Eg; cbn [final].
  - unfold showProtectionOverlay. rewrite Eg. reflexivity.
  - unfold createElement, andThen, withBody, modify. cbv beta iota zeta.
    cbn [window upd_rt]. rewrite Hb. cbn [final].
    unfold showProtectionOverlay.
    match goal with
    | |- context [getElementById overlay_id ?s] =>
        assert (Hs : exists m, getElementById overlay_id s = Some m)
    end.
    { unfold getElementById, all_nodes. cbn -[String.eqb has_id].
      rewrite app_assoc. apply find_last. reflexivity. }
    destruct Hs as [m Hm]. rewrite Hm. reflexivity.
Qed.

Lemma gapHigh_not_low e : gapHigh e -> ~ gapLow e.
Proof. unfold gapHigh, gapLow. lia. Qed.

Lemma probe_high_believes st y :
  gapHigh (window st) -> pending y st = true -> callback y = CbWindowSize ->
  believes (fire y st).
Proof.
  intros Hg Hp Hc. rewrite (fire_pending y st Hp), Hc. cbn [callbackBody].
  destruct (due_state y st) as (Ht & Hw & _).
  set (st0 := if repeating y then st else dropTimer y st) in *.
  unfold detectByWindowSize, whenM, ifM.
  rewrite Hw, (proj1 (gapHigh_tests _ Hg)).
  destruct (isDevToolsOpen (this st0)) eqn:Eo; cbn [negb].
  - exact Eo.
  - apply handle_opens.
Qed.

Lemma steady_step s st :
  steady s ->
  reachable st /\ gapHigh (window st) /\ believes st ->
  reachable (step s st) /\ gapHigh (window (step s st)) /\ believes (step s st).
Proof.
  intros Hs (Hr & Hg & Hb). split; [|split].
  - destruct s as [x|on ty e|r|e]; cbn [step].
    + apply reach_fire, Hr.
    + apply reach_dispatch, Hr.
    + apply reach_mutated, Hr.
    + apply reach_ambient; [exact Hr | apply Hs | apply Hs].
  - destruct s as [x|on ty e|r|e]; try (rewrite window_step; [exact Hg | discriminate]).
    cbn. apply Hs.
  - destruct s as [x|on ty e|r|e];
      try (apply believes_step; [intros; discriminate | exact Hb]).
    destruct (pending x st) eqn:Ep.
    + destruct (callback x) eqn:Ec;
        try (apply believes_step; [intros y [= <-]; congruence | exact Hb]).
      cbn [step]. unfold believes.
      rewrite (recheck_waits st x (gapHigh_not_low _ Hg) Ep Ec). exact Hb.
    + cbn [step]. unfold fire. rewrite Ep. exact Hb.
Qed.

Lemma steady_run ss st :
  Forall steady ss ->
  reachable st /\ gapHigh (window st) /\ believes st ->
  reachable (run ss st) /\ gapHigh (window (run ss st)) /\ believes (run ss st).
Proof.
  intros Hs. revert st. induction Hs as [|s ss Hs _ IH]; intros st H; cbn.
  - exact H.
  - apply IH, steady_step; assumption.
Qed.

(** *** The script in the head of the document *)

(** A detection on a page without a body: the entry point sets both flags,
    prints its two lines and throws at [document.body.classList]. *)
Lemma handle_bodyless st :
  consoleNative (window st) -> bodyPresent (window st) = false ->
  isDevToolsOpen (this st) = false -> protectionActive (this st) = false ->
  exists st', handleDevToolsDetected st = Throw st' /\
    this st' =
      mkInstance true true (warningShown (this st)) (consoleSpamInterval (this st)) /\
    document st' = document st /\
    timers (rt st') = timers (rt st) /\
    listeners (rt st') = listeners (rt st) /\
    observers (rt st') = observers (rt st) /\
    window st' = window st.
Proof.
  intros Hn Hb Hc Ha.
  unfold handleDevToolsDetected, activateProtection, ifM, andThen, modify, withBody,
    console_call, skip.
  rewrite Hc.
  repeat first [ progress cbn [window upd_this upd_rt this protectionActive
                               set_isDevToolsOpen set_protectionActive]
               | rewrite Hn | rewrite Hb | rewrite Ha ].
  eexists. split; [reflexivity|]. repeat split.
Qed.

(** Without a body, the first load-time check that fires ends the
    constructor. *)
Lemma detectExisting_bodyless st :
  consoleNative (window st) -> bodyPresent (window st) = false ->
  loadSignal (window st) = true ->
  isDevToolsOpen (this st) = false -> protectionActive (this st) = false ->
  exists st', detectExistingDevTools st = Throw st' /\
    this st' =
      mkInstance true true (warningShown (this st)) (consoleSpamInterval (this st)) /\
    document st' = document st /\
    timers (rt st') = timers (rt st) /\
    listeners (rt st') = listeners (rt st) /\
    observers (rt st') = observers (rt st) /\
    window st' = window st.
Proof.
  intros Hn Hb Hs Hc Ha.
  unfold detectExistingDevTools, ifM, whenM, ifM.
  unfold loadSignal in Hs. fold (over_100ms (window st)) in Hs.
  destruct ((heightDiff (window st) >? 160) || (widthDiff (window st) >? 160)) eqn:Eg.
  - destruct (handle_bodyless st Hn Hb Hc Ha) as (st' & E & H).
    exists st'. split; [exact E|]. tauto.
  - cbn [orb] in Hs. unfold andThen, console_call. rewrite Hn. cbn [window upd_rt].
    set (s1 := upd_rt _ st).
    destruct (handle_bodyless s1 Hn Hb Hc Ha) as (st' & E & H).
    destruct (logReadsId (window st)) eqn:El.
    + rewrite E. exists st'. split; [reflexivity|]. tauto.
    + unfold skip. change (window s1) with (window st).
      cbn [orb] in Hs. rewrite Hs, E. exists st'. split; [reflexivity|]. tauto.
Qed.

(** The script as the parser runs it before the body exists, with one of
    the load-time checks firing. *)
Lemma load_bodyless e d :
  consoleNative e -> bodyPresent e = false -> loadSignal e = true ->
  escapes (script (page e d)) = true /\
  this (load e d) = mkInstance true true false None /\
  document (load e d) = d /\
  timers (rt (load e d)) = [] /\
  listeners (rt (load e d)) = [] /\
  observers (rt (load e d)) = [].
Proof.
  intros Hn Hb Hs.
  destruct (detectExisting_bodyless (page e d) Hn Hb Hs eq_refl eq_refl)
    as (s1 & E1 & Ht & Hd & Hti & Hl & Ho & _).
  assert (E : script (page e d) = Throw s1).
  { change (script (page e d))
      with ((initImmediate ;; console_call c_log MsgLoaded) (page e d)).
    unfold andThen at 1. unfold initImmediate. unfold andThen at 1.
    rewrite E1. reflexivity. }
  unfold load. rewrite E. cbn [final escapes]. rewrite Ht, Hd, Hti, Hl, Ho.
  repeat split.
Qed.

(** A page on which the script has installed nothing is changed by no
    timer, event or mutation. *)
Lemma inert_step s st :
  timers (rt st) = [] -> listeners (rt st) = [] -> observers (rt st) = [] ->
  this (step s st) = this st /\ document (step s st) = document st /\
  rt (step s st) = rt st.
Proof.
  intros Ht Hl Ho. destruct s as [x|on ty e|r|e]; cbn [step].
  - unfold fire, pending. rewrite Ht. cbn [existsb]. auto.
  - unfold dispatchEvent. rewrite Hl. cbn [filter deliver snd]. auto.
  - unfold deliverMutation. rewrite Ho. cbn [filter notify]. auto.
  - auto.
Qed.

Lemma inert_run ss st :
  timers (rt st) = [] -> listeners (rt st) = [] -> observers (rt st) = [] ->
  this (run ss st) = this st /\ document (run ss st) = document st.
Proof.
  revert st. induction ss as [|s ss IH]; intros st Ht Hl Ho; [auto|].
  change (run (s :: ss) st) with (run ss (step s st)).
  destruct (inert_step s st Ht Hl Ho) as (Et & Ed & Er).
  rewrite <- Et, <- Ed. apply IH; rewrite Er; assumption.
Qed.

(** C4, the code at the failing input.  The parser runs the script in the
    head of the document while a panel is docked (the height gap is 200):
    [document.body] is still null, so the detection the constructor makes
    throws at [document.body.classList] after it has opened the belief and
    before the overlay is created.  The constructor is abandoned with no
    timer, listener or observer installed: whatever happens afterwards, the
    belief stays open and no overlay node is in the document. *)
Theorem overlay_missing_without_body :
  gapHigh headDockedEnv /\
  escapes (script (page headDockedEnv headDocument)) = true /\
  forall ss,
    isDevToolsOpen (this (run ss (load headDockedEnv headDocument))) = true /\
    count_id overlay_id (run ss (load headDockedEnv headDocument)) = 0%nat.
Proof.
  assert (Hn : consoleNative headDockedEnv) by (intros m; reflexivity).
  destruct (load_bodyless headDockedEnv headDocument Hn eq_refl eq_refl)
    as (He & Ht & Hd & Hti & Hl & Ho).
  split; [left; reflexivity|]. split; [exact He|].
  intros ss.
  destruct (inert_run ss (load headDockedEnv headDocument) Hti Hl Ho) as (Et & Ed).
  unfold count_id, all_nodes. rewrite Et, Ed, Ht, Hd. split; reflexivity.
Qed.

(** ** C5: the deactivation path *)

(** C5.  Called in any state the page can reach, the deactivation path
    completes and leaves no overlay node, no active-protection style node,
    empty inline filter, opacity and pointer-events on the body, no
    console-spam timer and a cleared timer handle, with both flags false. *)
Theorem deactivation_removes_everything st :
  reachable st ->
  exists st', deactivateProtection st = Normal st' /\
    getElementById overlay_id st' = None /\
    getElementById active_style_id st' = None /\
    css_filter (body_style (document st')) = "" /\
    css_opacity (body_style (document st')) = "" /\
    css_pointerEvents (body_style (document st')) = "" /\
    spamTimers st' = [] /\
    consoleSpamInterval (this st') = None /\
    isDevToolsOpen (this st') = false /\
    protectionActive (this st') = false.
Proof.
  intros Hr. pose proof (reachable_Inv st Hr) as HI.
  pose proof (Inv_deactivate st HI) as HI'.
  destruct (deactivate_effect st (inv_native st HI) (inv_body st HI))
    as (st' & E & Ho & Ha & Hi & Hs & _).
  rewrite E in HI'. cbn [final] in HI'.
  destruct (Inv_closed st' HI' Ho) as (_ & _ & Hsp & Hgo & Hga).
  exists st'. rewrite Hs. cbn. repeat split; assumption.
Qed.

Lemma deactivation_witness :
  reachable detectedPage /\
  exists st', deactivateProtection detectedPage = Normal st' /\
    getElementById overlay_id st' = None /\
    spamTimers st' = [] /\
    isDevToolsOpen (this st') = false.
Proof.
  split; [exact detectedPage_reachable|].
  destruct (deactivation_removes_everything detectedPage detectedPage_reachable)
    as (st' & E & Hgo & _ & _ & _ & _ & Hsp & _ & Ho & _).
  exists st'. repeat split; assumption.
Defined.

(** ** C6: the console-spam task *)

(** C6.  Starting the task while its handle is set changes nothing, so the
    one timer of a reachable page stays the only one; the stop block run
    while the handle is unset changes nothing; and starting twice from an
    unset handle adds exactly one timer. *)
Theorem console_spam_idempotent running idle t :
  consoleSpamInterval (this running) = Some t ->
  consoleSpamInterval (this idle) = None ->
  startConsoleSpam running = Normal running /\
  stopConsoleSpam idle = idle /\
  (exists started,
     startConsoleSpam idle = Normal started /\
     startConsoleSpam started = Normal started /\
     spamTimers started =
       spamTimers idle ++ [mkTimer (next_timer (rt idle)) true 100 CbSpam]) /\
  (reachable running -> spamTimers running = [mkTimer t true 100 CbSpam]) /\
  (reachable idle -> spamTimers idle = [] /\
     length (spamTimers (final (startConsoleSpam (final (startConsoleSpam idle))))) = 1%nat).
Proof.
  intros Hs Hn.
  assert (Hstart : exists started,
     startConsoleSpam idle = Normal started /\
     startConsoleSpam started = Normal started /\
     spamTimers started =
       spamTimers idle ++ [mkTimer (next_timer (rt idle)) true 100 CbSpam]).
  { unfold startConsoleSpam at 1. rewrite Hn.
    unfold setInterval, addTimer. cbv beta iota zeta.
    eexists. split; [reflexivity|]. split; [reflexivity|].
    unfold spamTimers. cbn. rewrite filter_app. reflexivity. }
  split; [unfold startConsoleSpam; rewrite Hs; reflexivity|].
  split; [unfold stopConsoleSpam; rewrite Hn; reflexivity|].
  split; [exact Hstart|]. split.
  - intros Hr. pose proof (inv_spam running (reachable_Inv running Hr)) as Hsp.
    unfold spamState in Hsp. destruct (isDevToolsOpen (this running)).
    + destruct Hsp as (t' & Ht' & Hl). congruence.
    + destruct Hsp as [Hc _]. congruence.
  - intros Hr. pose proof (inv_spam idle (reachable_Inv idle Hr)) as Hsp.
    unfold spamState in Hsp.
    assert (Hl : spamTimers idle = []).
    { destruct (isDevToolsOpen (this idle)).
      - destruct Hsp as (t' & Ht' & _). congruence.
      - apply Hsp. }
    split; [exact Hl|].
    destruct Hstart as (started & E1 & E2 & E3).
    rewrite E1. cbn [final]. rewrite E2. cbn [final]. rewrite E3, Hl. reflexivity.
Qed.

Lemma console_spam_idempotent_witness :
  consoleSpamInterval (this detectedPage) = Some 5%positive /\
  consoleSpamInterval (this idlePage) = None /\
  startConsoleSpam detectedPage = Normal detectedPage /\
  stopConsoleSpam idlePage = idlePage.
Proof.
  split; [reflexivity|]. split; [reflexivity|].
  destruct (console_spam_idempotent detectedPage idlePage 5%positive eq_refl eq_refl)
    as (H1 & H2 & _).
  split; [exact H1 | exact H2].
Defined.

(** ** C7: the detection entry point *)

(** C7, counterexample.  With a re-check pending on the detected page, the
    re-check timer coming due changes the belief from open to closed.  The
    detection entry point has no part in it: called in that state it
    returns at its guard, and the step prints the deactivation line, not
    the entry point's. *)
Lemma belief_closed_outside_entry_point :
  isDevToolsOpen (this recheckPending) = true /\
  isDevToolsOpen (this (step (Fire recheckTimer) recheckPending)) = false /\
  handleDevToolsDetected recheckPending = Normal recheckPending /\
  console (rt (step (Fire recheckTimer) recheckPending)) =
    console (rt recheckPending) ++ [(c_log, MsgDeactivated)].
Proof.
  split; [reflexivity|]. split; [reflexivity|].
  split; [apply handle_noop; reflexivity | reflexivity].
Qed.

(** C7, amended.  The belief is opened only through the detection entry
    point: when the console works, a step that opens it leaves the entry
    point's own console line behind; and a call of the entry point while
    the belief is open returns the state unchanged.  (The belief is closed
    by the deactivation path, see C3.) *)
Theorem detection_entry_point opened closed s :
  isDevToolsOpen (this opened) = true ->
  consoleNative (window closed) ->
  isDevToolsOpen (this closed) = false ->
  isDevToolsOpen (this (step s closed)) = true ->
  handleDevToolsDetected opened = Normal opened /\
  In (c_log, MsgDetected) (console (rt (step s closed))).
Proof.
  intros Ho Hn Hc Hs. split; [apply handle_noop, Ho|].
  assert (Hm : marked closed) by (split; [exact Hn | congruence]).
  destruct s as [x|on ty e|r|e].
  - destruct (callback x) eqn:Ec;
      try (apply (marked_step (Fire x) closed); try exact Hm; try exact Hs;
           [intros y [= <-]; congruence | discriminate]).
    exfalso. cbn [step] in Hs. unfold fire in Hs.
    destruct (pending x closed); [|congruence].
    rewrite Ec in Hs. cbn [callbackBody] in Hs.
    rewrite spam_keeps_belief in Hs.
    destruct (repeating x); cbn in Hs; congruence.
  - apply (marked_step (Dispatch on ty e) closed); try exact Hm; try exact Hs;
      intros; discriminate.
  - apply (marked_step (Mutated r) closed); try exact Hm; try exact Hs;
      intros; discriminate.
  - cbn in Hs. congruence.
Qed.

Lemma detection_entry_point_witness :
  isDevToolsOpen (this detectedPage) = true /\
  consoleNative (window idlePage) /\
  isDevToolsOpen (this idlePage) = false /\
  handleDevToolsDetected detectedPage = Normal detectedPage /\
  In (c_log, MsgDetected)
     (console (rt (step (Dispatch Doc contextmenu plainEvent) idlePage))).
Proof.
  split; [reflexivity|]. split; [exact calm_native|]. split; [reflexivity|].
  exact (detection_entry_point detectedPage idlePage
           (Dispatch Doc contextmenu plainEvent) eq_refl calm_native eq_refl eq_refl).
Defined.

(** ** C8: a gap of 200 *)

(** C8.  When the window-size probe runs on a page that has its body, with
    the belief closed, a working console and a height gap of 200, it
    completes with the belief open, the overlay in the document and the
    body styled blur(8px), opacity 0.3, pointer-events none. *)
Theorem window_probe_gap_200 st :
  consoleNative (window st) ->
  bodyPresent (window st) = true ->
  isDevToolsOpen (this st) = false ->
  outerHeight (window st) - innerHeight (window st) = 200 ->
  exists st', detectByWindowSize st = Normal st' /\
    isDevToolsOpen (this st') = true /\
    (exists n, getElementById overlay_id st' = Some n /\ id n = overlay_id) /\
    css_filter (body_style (document st')) = "blur(8px)" /\
    css_opacity (body_style (document st')) = "0.3" /\
    css_pointerEvents (body_style (document st')) = "none".
Proof.
  intros Hn Hb Hc Hg.
  destruct (handle_detects st Hn Hb Hc) as (st' & E & Ho & (n & Hf) & Hs & _).
  exists st'. unfold detectByWindowSize, whenM, ifM, heightDiff.
  rewrite Hg, Hc. cbn [Z.gtb Z.compare Pos.compare Pos.compare_cont orb negb].
  split; [exact E|]. split; [exact Ho|]. split.
  - exists n. split; [exact Hf|].
    unfold getElementById in Hf. apply find_some in Hf.
    apply String.eqb_eq, Hf.
  - rewrite Hs. repeat split.
Qed.

Lemma window_probe_gap_200_witness :
  consoleNative (window dockedPage) /\
  bodyPresent (window dockedPage) = true /\
  isDevToolsOpen (this dockedPage) = false /\
  outerHeight (window dockedPage) - innerHeight (window dockedPage) = 200 /\
  exists st', detectByWindowSize dockedPage = Normal st' /\
    isDevToolsOpen (this st') = true /\
    css_filter (body_style (document st')) = "blur(8px)".
Proof.
  assert (Hn : consoleNative (window dockedPage)) by (intros m; reflexivity).
  split; [exact Hn|]. split; [reflexivity|]. split; [reflexivity|].
  split; [reflexivity|].
  destruct (window_probe_gap_200 dockedPage Hn eq_refl eq_refl eq_refl)
    as (st' & E & Ho & _ & Hf & _).
  exists st'. repeat split; assumption.
Defined.

(** ** C9: guarded and unguarded operations *)

Lemma console_only st0 :
  preserves (fun s => exists c, s = upd_rt (set_console c) st0)
    (console_clear ;;
     console_call c_log MsgBanner ;;
     console_call c_log MsgBlocked ;;
     console_call c_log MsgCloseTools ;;
     console_call c_log MsgRule ;;
     times 20 (console_call c_warn MsgAccessDenied ;;
               console_call c_error MsgUnauthorized)).
Proof.
  assert (Hcall : forall m msg,
            preserves (fun s => exists c, s = upd_rt (set_console c) st0)
                      (console_call m msg)).
  { intros m msg s [c ->]. unfold console_call.
    destruct (consoleThrows _ m); cbn; eexists; reflexivity. }
  apply preserves_andThen.
  - intros s [c ->]. unfold console_clear.
    destruct (consoleThrows _ c_clear); cbn; eexists; reflexivity.
  - repeat (apply preserves_andThen; [apply Hcall|]).
    apply preserves_times, preserves_andThen; apply Hcall.
Qed.

Lemma handle_log_throws st :
  consoleThrows (window st) c_log = true -> isDevToolsOpen (this st) = false ->
  handleDevToolsDetected st = Throw (upd_this (set_isDevToolsOpen true) st).
Proof.
  intros Ht Hc. unfold handleDevToolsDetected, ifM. rewrite Hc.
  unfold andThen at 1. unfold modify at 1.
  unfold andThen at 1. unfold console_call at 1.
  cbn [window upd_this]. rewrite Ht. reflexivity.
Qed.

Lemma escapes_andThen {S} (P : S -> Prop) (a b : M S) :
  preserves P a -> (forall s, P s -> escapes (b s) = true) ->
  forall s, P s -> escapes ((a ;; b) s) = true.
Proof.
  intros Ha Hb s Hs. unfold andThen. specialize (Ha s Hs).
  destruct (a s) as [s'|s']; cbn [final] in Ha; [apply Hb, Ha | reflexivity].
Qed.

(** The last statement of [deactivateProtection] is an unguarded
    [console.log]. *)
Lemma deactivate_log_throws st :
  consoleThrows (window st) c_log = true -> escapes (deactivateProtection st) = true.
Proof.
  revert st. unfold deactivateProtection.
  repeat (apply (escapes_andThen (fun s => consoleThrows (window s) c_log = true));
          [ lazymatch goal with
            | |- preserves _ (modify _) => apply preserves_modify
            | |- preserves _ (withBody _) => apply preserves_withBody
            end;
            intros s Hs;
            lazymatch goal with
            | |- context [removeById ?i s] =>
                rewrite (proj1 (proj2 (proj2 (removeById_frame i s)))); exact Hs
            | |- context [stopConsoleSpam s] =>
                rewrite (proj1 (proj2 (stopConsoleSpam_frame s))); exact Hs
            | |- _ => exact Hs
            end
          | ]).
  intros s Hs. cbv beta in Hs. unfold console_call. rewrite Hs. reflexivity.
Qed.

(** C9, counterexample.  Not every fallible operation is guarded.  A copy
    event without clipboard data on the detected page makes the copy
    listener throw.  On a page whose [console.log] throws, the detection
    entry point throws after it has opened the belief: no overlay is shown
    and the body is not styled, and the state is not the one before the
    call. *)
Lemma unguarded_operations_escape :
  escapes (onCopy (plainEvent, detectedPage)) = true /\
  escapes (handleDevToolsDetected (set_window brokenLogEnv idlePage)) = true /\
  isDevToolsOpen (this (set_window brokenLogEnv idlePage)) = false /\
  isDevToolsOpen
    (this (final (handleDevToolsDetected (set_window brokenLogEnv idlePage)))) = true /\
  getElementById overlay_id
    (final (handleDevToolsDetected (set_window brokenLogEnv idlePage))) = None.
Proof. repeat split; vm_compute; reflexivity. Qed.

(** C9, amended.  Two operations are guarded.  Whatever the console
    methods do, a run of the console-spam task never throws; while
    protection is active it changes nothing but the console's content, and
    nothing at all when [console.clear] throws.  The clipboard write of
    the PrintScreen listener adds no exception to those of the detection
    call before it, and when [navigator.clipboard] is missing the listener
    completes in the state the detection call left.  The other fallible
    operations are not guarded.  A copy event without clipboard data makes
    the copy listener throw while protection is active, after the default
    action was cancelled.  When [console.log] throws, the exception leaves
    the console probe, the activation (after the flag is set), the
    deactivation, the detection entry point (after the belief is opened)
    and the load-time checks. *)
Theorem guarded_operations st e :
  escapes (consoleSpamBody st) = false /\
  (protectionActive (this st) = true ->
     (exists c, consoleSpamBody st = Normal (upd_rt (set_console c) st)) /\
     (consoleThrows (window st) c_clear = true -> consoleSpamBody st = Normal st)) /\
  (key e = "PrintScreen" ->
     escapes (onKeyup (e, st)) = escapes (handleDevToolsDetected st) /\
     (navigatorClipboard (window st) = false ->
      forall st1, handleDevToolsDetected st = Normal st1 ->
                  onKeyup (e, st) = Normal (e, st1))) /\
  (protectionActive (this st) = true -> clipboardData e = None ->
     onCopy (e, st) = Throw (preventDefault e, st)) /\
  (consoleThrows (window st) c_log = true ->
     detectByConsole st = Throw st /\
     escapes (deactivateProtection st) = true /\
     (protectionActive (this st) = false ->
        activateProtection st = Throw (upd_this (set_protectionActive true) st)) /\
     (isDevToolsOpen (this st) = false ->
        handleDevToolsDetected st = Throw (upd_this (set_isDevToolsOpen true) st) /\
        escapes (detectExistingDevTools st) = true)).
Proof.
  split; [|split; [|split; [|split]]].
  - unfold consoleSpamBody, ifM, tryIgnore.
    destruct (negb (protectionActive (this st))); [reflexivity|].
    match goal with |- context [match ?m with _ => _ end] => destruct m end;
      reflexivity.
  - intros Ha. split.
    + unfold consoleSpamBody, ifM. rewrite Ha. cbn [negb]. unfold tryIgnore.
      assert (H0 : exists c, st = upd_rt (set_console c) st).
      { exists (console (rt st)). destruct st as [t d [] w]. reflexivity. }
      pose proof (console_only st st H0) as H.
      match goal with
      | H : context [final (?m st)] |- _ => destruct (m st) as [s|s]
      end; cbn [final] in H; destruct H as [c ->]; exists c; reflexivity.
    + intros Hc. unfold consoleSpamBody, ifM. rewrite Ha. cbn [negb].
      unfold tryIgnore, andThen, console_clear. rewrite Hc. reflexivity.
  - intros Hk.
    assert (Hw : forall st1, handleDevToolsDetected st = Normal st1 ->
                             window st1 = window st).
    { intros st1 E.
      pose proof (indep_handle (fun s => window s = window st)) as Hp.
      assert (Hq : preserves (fun s => window s = window st) handleDevToolsDetected)
        by (apply Hp; intros; cbn; congruence).
      specialize (Hq st eq_refl). rewrite E in Hq. exact Hq. }
    unfold onKeyup, whenM, ifM, andThen, tryIgnore, onState,
      navigator_clipboard_writeText. cbn [fst snd].
    rewrite Hk. cbn [String.eqb Ascii.eqb Bool.eqb].
    destruct (handleDevToolsDetected st) as [st1|st1] eqn:E; cbn [fst snd escapes].
    + split.
      * destruct (navigatorClipboard (window st1)); reflexivity.
      * intros Hn st1' [= <-]. rewrite (Hw st1 eq_refl), Hn. reflexivity.
    + split; [reflexivity | intros _ st1' [=]].
  - intros Ha Hc. unfold onCopy, whenM, ifM, andThen, onEvent, modify,
      clipboardData_setData. cbn [fst snd]. rewrite Ha.
    replace (clipboardData (preventDefault e)) with (clipboardData e) by reflexivity.
    rewrite Hc. reflexivity.
  - intros Ht. split; [|split; [|split]].
    + unfold detectByConsole, andThen, console_call. rewrite Ht. reflexivity.
    + apply deactivate_log_throws, Ht.
    + intros Ha. unfold activateProtection, ifM. rewrite Ha.
      unfold andThen at 1. unfold modify at 1.
      unfold andThen at 1. unfold console_call at 1.
      cbn [window upd_this]. rewrite Ht. reflexivity.
    + intros Hc. split; [apply handle_log_throws; assumption|].
      unfold detectExistingDevTools, ifM.
      destruct ((heightDiff (window st) >? 160) || (widthDiff (window st) >? 160)).
      * rewrite (handle_log_throws st Ht Hc). reflexivity.
      * unfold andThen at 1. unfold console_call at 1. rewrite Ht. reflexivity.
Qed.

Lemma guarded_operations_witness :
  escapes (consoleSpamBody detectedPage) = false /\
  (exists c, consoleSpamBody detectedPage = Normal (upd_rt (set_console c) detectedPage)) /\
  onCopy (plainEvent, detectedPage) = Throw (preventDefault plainEvent, detectedPage) /\
  escapes (deactivateProtection (set_window brokenLogEnv detectedPage)) = true.
Proof.
  destruct (guarded_operations detectedPage plainEvent) as (H1 & H2 & _ & H4 & _).
  destruct (guarded_operations (set_window brokenLogEnv detectedPage) plainEvent)
    as (_ & _ & _ & _ & H5).
  split; [exact H1|].
  split; [exact (proj1 (H2 eq_refl))|].
  split; [exact (H4 eq_refl eq_refl)|].
  exact (proj1 (proj2 (H5 eq_refl))).
Defined.

(** ** C10: the idle page leaves copy and drag alone *)

(** C10.  While protection is inactive the copy listener returns the event
    and the state as they were (the default action is not cancelled and
    the clipboard data is not rewritten), and so does the drag-start
    listener for a target that is not an image. *)
Theorem idle_copy_and_drag_untouched e st :
  protectionActive (this st) = false ->
  onCopy (e, st) = Normal (e, st) /\
  (target_tagName e <> "IMG" -> onDragstart (e, st) = Normal (e, st)).
Proof.
  intros Ha. split.
  - unfold onCopy, whenM, ifM. cbn [fst snd]. rewrite Ha. reflexivity.
  - intros Ht. unfold onDragstart, whenM, ifM. cbn [fst snd]. rewrite Ha.
    destruct (String.eqb_spec (target_tagName e) "IMG"); [contradiction|].
    reflexivity.
Qed.

Lemma idle_copy_and_drag_witness :
  protectionActive (this idlePage) = false /\
  onCopy (plainEvent, idlePage) = Normal (plainEvent, idlePage) /\
  defaultPrevented (fst (dispatchEvent Doc copy plainEvent idlePage)) = false.
Proof.
  split; [reflexivity|].
  split; [exact (proj1 (idle_copy_and_drag_untouched plainEvent idlePage eq_refl))|].
  reflexivity.
Defined.

(** * Further properties of the script *)

(** ** Loading *)

Lemma handle_keeps_window st :
  window (final (handleDevToolsDetected st)) = window st.
Proof.
  apply (indep_handle (fun s => window s = window st)); intros; cbn; congruence.
Qed.

Lemma handle_native_normal st :
  consoleNative (window st) -> bodyPresent (window st) = true ->
  exists st', handleDevToolsDetected st = Normal st' /\
              window st' = window st /\ isDevToolsOpen (this st') = true.
Proof.
  intros Hn Hb. destruct (isDevToolsOpen (this st)) eqn:Ho.
  - exists st. rewrite (handle_noop st Ho). auto.
  - destruct (handle_detects st Hn Hb Ho) as (st' & E & Ho' & _ & _ & Hw & _).
    exists st'. auto.
Qed.

(** The rest of [initImmediate] neither throws nor touches the instance. *)
Lemma init_rest st :
  exists st',
    (disableAllDevToolsAccess ;; startContinuousDetection ;;
     ifM (fun st => readyStateLoading (window st))
       (modify (addEventListener Doc DOMContentLoaded LDomReady false))
       setupAdvancedProtection) st = Normal st' /\
    this st' = this st /\ window st' = window st.
Proof.
  unfold disableAllDevToolsAccess, startContinuousDetection, setupAdvancedProtection,
    setupAdvancedProtection_2, setupAdvancedListeners, andThen, modify, ifM,
    setInterval, addTimer, createElement.
  cbn. destruct (readyStateLoading (window st)); eexists; repeat split.
Qed.

Lemma loadSignal_false e :
  loadSignal e = false ->
  (heightDiff e >? 160) || (widthDiff e >? 160) = false /\
  logReadsId e = false /\ over_100ms e = false.
Proof.
  unfold loadSignal, over_100ms. intros H.
  apply orb_false_iff in H. destruct H as [H H3].
  apply orb_false_iff in H. destruct H as [H1 H2]. auto.
Qed.

(** The load-time checks complete when the document has its body, and
    also without one as long as none of them fires. *)
Lemma detectExisting_native st :
  consoleNative (window st) ->
  bodyPresent (window st) = true \/ loadSignal (window st) = false ->
  isDevToolsOpen (this st) = false ->
  exists st', detectExistingDevTools st = Normal st' /\
    window st' = window st /\
    isDevToolsOpen (this st') = loadSignal (window st).
Proof.
  intros Hn [Hb|Hs] Hc.
  - unfold detectExistingDevTools, loadSignal, ifM, whenM, ifM, over_100ms.
    destruct ((heightDiff (window st) >? 160) || (widthDiff (window st) >? 160)) eqn:Eg.
    + destruct (handle_native_normal st Hn Hb) as (st' & E & Hw & Ho).
      exists st'. cbn [orb]. auto.
    + cbn [orb]. unfold andThen, console_call. rewrite Hn. cbn [window upd_rt].
      set (s1 := upd_rt _ st).
      assert (Hn1 : consoleNative (window s1)) by exact Hn.
      assert (Hb1 : bodyPresent (window s1) = true) by exact Hb.
      destruct (logReadsId (window st)) eqn:El.
      * destruct (handle_native_normal s1 Hn1 Hb1) as (s2 & E & Hw & Ho). rewrite E, Hw.
        change (window s1) with (window st).
        destruct (negb (Qle_bool (debuggerElapsed (window st)) 100)).
        -- rewrite (handle_noop s2 Ho). exists s2. auto.
        -- exists s2. auto.
      * unfold skip. change (window s1) with (window st).
        destruct (negb (Qle_bool (debuggerElapsed (window st)) 100)).
        -- destruct (handle_native_normal s1 Hn1 Hb1) as (s2 & E & Hw & Ho).
           exists s2. auto.
        -- exists s1. repeat split. exact Hc.
  - destruct (loadSignal_false _ Hs) as (Hg & Hl & Ht).
    unfold detectExistingDevTools, ifM, whenM, ifM. rewrite Hg.
    unfold andThen, console_call. rewrite Hn. cbn [window upd_rt].
    rewrite Hl. unfold skip. cbn [window upd_rt]. rewrite Ht.
    eexists. split; [reflexivity|]. split; [reflexivity|].
    cbn. rewrite Hs. exact Hc.
Qed.

(** X1.  With a working console the page leaves the constructor believing
    the tools open exactly when one of the three load-time checks fired: a
    gap above 160 in either dimension, the logged image's id being read, or
    more than 100 ms across the [debugger] statement.  The script completes
    unless a check fired while the document had no body yet: then the
    exception of [document.body.classList] escapes the constructor, with
    both flags set, the document untouched and neither a timer nor a
    listener installed. *)
Theorem load_detection e d :
  consoleNative e ->
  isDevToolsOpen (this (load e d)) = loadSignal e /\
  escapes (script (page e d)) = loadSignal e && negb (bodyPresent e) /\
  (escapes (script (page e d)) = true ->
     protectionActive (this (load e d)) = true /\
     document (load e d) = d /\
     timers (rt (load e d)) = [] /\
     listeners (rt (load e d)) = []).
Proof.
  intros Hn. unfold load.
  assert (Hsplit : (bodyPresent e = true \/ loadSignal e = false) \/
                   (bodyPresent e = false /\ loadSignal e = true)).
  { destruct (bodyPresent e), (loadSignal e); auto. }
  destruct Hsplit as [Hok | [Hb Hs]].
  - destruct (detectExisting_native (page e d) Hn Hok eq_refl) as (s1 & E1 & Hw1 & Ho1).
    destruct (init_rest s1) as (s2 & E2 & Ht2 & Hw2).
    assert (E : script (page e d) =
                Normal (upd_rt (fun r => set_console (console r ++ [(c_log, MsgLoaded)]) r)
                          s2)).
    { change (script (page e d))
        with (((detectExistingDevTools ;;
                (disableAllDevToolsAccess ;; startContinuousDetection ;;
                 ifM (fun st => readyStateLoading (window st))
                   (modify (addEventListener Doc DOMContentLoaded LDomReady false))
                   setupAdvancedProtection)) ;;
               console_call c_log MsgLoaded) (page e d)).
      unfold andThen at 1. unfold andThen at 1. rewrite E1, E2.
      unfold console_call. rewrite Hw2, Hw1. cbn [window page]. rewrite Hn.
      reflexivity. }
    rewrite E. cbn [final escapes this upd_rt]. rewrite Ht2.
    split; [exact Ho1|]. split; [|discriminate].
    destruct Hok as [Hb|Hs]; [rewrite Hb; symmetry; apply andb_false_r|].
    rewrite Hs. reflexivity.
  - destruct (detectExisting_bodyless (page e d) Hn Hb Hs eq_refl eq_refl)
      as (s1 & E1 & Ht & Hd & Hti & Hl & _).
    assert (E : script (page e d) = Throw s1).
    { change (script (page e d))
        with ((initImmediate ;; console_call c_log MsgLoaded) (page e d)).
      unfold andThen at 1. unfold initImmediate. unfold andThen at 1.
      rewrite E1. reflexivity. }
    rewrite E. cbn [final escapes]. rewrite Ht, Hd, Hti, Hl, Hs, Hb.
    repeat split.
Qed.

Lemma load_detection_witness :
  consoleNative dockedEnv /\
  isDevToolsOpen (this (load dockedEnv emptyDocument)) = true /\
  escapes (script (page dockedEnv emptyDocument)) = false /\
  consoleNative headDockedEnv /\
  escapes (script (page headDockedEnv headDocument)) = true /\
  listeners (rt (load headDockedEnv headDocument)) = [].
Proof.
  assert (Hn : consoleNative dockedEnv) by (intros m; reflexivity).
  assert (Hh : consoleNative headDockedEnv) by (intros m; reflexivity).
  destruct (load_detection dockedEnv emptyDocument Hn) as (H1 & H2 & _).
  destruct (load_detection headDockedEnv headDocument Hh) as (_ & H3 & H4).
  split; [exact Hn|]. split; [exact H1|]. split; [exact H2|].
  split; [exact Hh|]. split; [exact H3|].
  apply (H4 H3).
Defined.

(** X2.  When [console.log] throws while the script loads, the constructor
    is abandoned in its first step: the script throws, no timer and no
    listener is installed and the document is untouched.  Only the belief
    may have been opened, by a gap above 160. *)
Theorem load_aborts_when_log_throws e d :
  consoleThrows e c_log = true ->
  escapes (script (page e d)) = true /\
  timers (rt (load e d)) = [] /\
  listeners (rt (load e d)) = [] /\
  document (load e d) = d /\
  protectionActive (this (load e d)) = false /\
  isDevToolsOpen (this (load e d)) = (heightDiff e >? 160) || (widthDiff e >? 160).
Proof.
  intros Ht.
  assert (E : exists s, detectExistingDevTools (page e d) = Throw s /\
                timers (rt s) = [] /\ listeners (rt s) = [] /\ document s = d /\
                protectionActive (this s) = false /\
                isDevToolsOpen (this s) = (heightDiff e >? 160) || (widthDiff e >? 160)).
  { unfold detectExistingDevTools, ifM. cbn [window page].
    destruct ((heightDiff e >? 160) || (widthDiff e >? 160)).
    - rewrite (handle_log_throws (page e d) Ht eq_refl).
      eexists. split; [reflexivity|]. repeat split.
    - unfold andThen at 1. unfold console_call at 1. cbn [window page]. rewrite Ht.
      eexists. split; [reflexivity|]. repeat split. }
  destruct E as (s & E & H).
  assert (Es : script (page e d) = Throw s).
  { change (script (page e d))
      with ((initImmediate ;; console_call c_log MsgLoaded) (page e d)).
    unfold andThen at 1. unfold initImmediate. unfold andThen at 1.
    rewrite E. reflexivity. }
  unfold load. rewrite Es. cbn [escapes final]. split; [reflexivity | exact H].
Qed.

Lemma load_aborts_witness :
  consoleThrows brokenLogEnv c_log = true /\
  listeners (rt (load brokenLogEnv emptyDocument)) = [] /\
  timers (rt (load brokenLogEnv emptyDocument)) = [].
Proof.
  split; [reflexivity|].
  destruct (load_aborts_when_log_throws brokenLogEnv emptyDocument eq_refl)
    as (_ & Ht & Hl & _).
  split; [exact Hl | exact Ht].
Defined.

(** ** The keydown listener *)

(** X3.  The keydown listener acts on the listed combinations only: for
    any other key event (a lower-case i with Ctrl+Shift, an upper-case U
    with Ctrl, any unmodified key but F12) it leaves the event and the page
    as they were, and for a listed one it also stops the propagation. *)
Theorem keydown_acts_on_listed_only e st :
  (~ listedShortcut e -> onKeydown (e, st) = Normal (e, st)) /\
  (listedShortcut e ->
     propagationStopped (fst (final (onKeydown (e, st)))) = true /\
     defaultPrevented (fst (final (onKeydown (e, st)))) =
       defaultPrevented e || cancelable e /\
     snd (final (onKeydown (e, st))) = final (handleDevToolsDetected st)).
Proof.
  split.
  - intros Hn. unfold onKeydown, whenM, ifM. cbn [fst].
    destruct (keydownBlocked e) eqn:E; [|reflexivity].
    elim Hn. apply keydownBlocked_spec, E.
  - intros Hl. apply keydownBlocked_spec in Hl.
    unfold onKeydown, whenM, ifM, andThen, onEvent, modify, onState.
    cbn [fst snd]. rewrite Hl.
    destruct (handleDevToolsDetected st); repeat split.
Qed.

Lemma keydown_witness :
  ~ listedShortcut lowerCaseCombo /\
  onKeydown (lowerCaseCombo, idlePage) = Normal (lowerCaseCombo, idlePage).
Proof.
  assert (Hn : ~ listedShortcut lowerCaseCombo).
  { unfold listedShortcut. cbn.
    intros [H|[(_ & _ & [H|[H|[H|[H|[H|H]]]]])|[[_ H]|(H & _)]]]; discriminate. }
  split; [exact Hn|].
  exact (proj1 (keydown_acts_on_listed_only lowerCaseCombo idlePage) Hn).
Defined.

(** ** The dead band of the window-size probe *)

Lemma keepsGap_step s st :
  keepsGap s ->
  reachable st /\ ~ gapLow (window st) /\ believes st ->
  reachable (step s st) /\ ~ gapLow (window (step s st)) /\ believes (step s st).
Proof.
  intros Hs (Hr & Hg & Hb). split; [|split].
  - destruct s as [x|on ty e|r|e]; cbn [step].
    + apply reach_fire, Hr.
    + apply reach_dispatch, Hr.
    + apply reach_mutated, Hr.
    + apply reach_ambient; [exact Hr | apply Hs | apply Hs].
  - destruct s as [x|on ty e|r|e]; try (rewrite window_step; [exact Hg | discriminate]).
    cbn. apply Hs.
  - destruct s as [x|on ty e|r|e];
      try (apply believes_step; [intros; discriminate | exact Hb]).
    destruct (pending x st) eqn:Ep.
    + destruct (callback x) eqn:Ec;
        try (apply believes_step; [intros y [= <-]; congruence | exact Hb]).
      cbn [step]. unfold believes.
      rewrite (recheck_waits st x Hg Ep Ec). exact Hb.
    + cbn [step]. unfold fire. rewrite Ep. exact Hb.
Qed.

(** X4.  Detection is sticky outside the low range.  On a page the script
    has loaded with its body present and a working console, once the
    belief is open, whatever timers come due, events arrive or the
    environment does (the body and the console staying in place), as long
    as the gap never has both dimensions below 100 (so also in the band
    from 100 to 150 where the probe itself would not detect), the belief
    stays open with its one overlay. *)
Theorem detected_persists_unless_gap_low st ss :
  reachable st ->
  isDevToolsOpen (this st) = true ->
  ~ gapLow (window st) ->
  Forall keepsGap ss ->
  isDevToolsOpen (this (run ss st)) = true /\
  protectionActive (this (run ss st)) = true /\
  count_id overlay_id (run ss st) = 1%nat.
Proof.
  intros Hr Ho Hg Hs.
  assert (H : reachable (run ss st) /\ ~ gapLow (window (run ss st)) /\
              believes (run ss st)).
  { revert st Hr Ho Hg. induction Hs as [|s ss Hs _ IH]; intros st Hr Ho Hg; cbn.
    - auto.
    - destruct (keepsGap_step s st Hs (conj Hr (conj Hg Ho))) as (Hr' & Hg' & Hb').
      apply IH; assumption. }
  destruct H as (Hr' & _ & Hb'). pose proof (reachable_Inv _ Hr') as HI.
  split; [exact Hb'|]. split.
  - rewrite (inv_flags _ HI). exact Hb'.
  - rewrite (inv_overlay _ HI), Hb'. reflexivity.
Qed.

Lemma detected_persists_witness :
  reachable bandPage /\
  ~ gapLow (window bandPage) /\
  isDevToolsOpen
    (this (run [Fire windowTimer; Fire recheckTimer; Fire windowTimer] bandPage)) = true.
Proof.
  assert (Hr : reachable bandPage).
  { apply reach_ambient; [exact detectedPage_reachable | intros m; reflexivity | reflexivity]. }
  assert (Hg : ~ gapLow (window bandPage)).
  { intros [H _]. cbv in H. discriminate. }
  split; [exact Hr|]. split; [exact Hg|].
  refine (proj1 (detected_persists_unless_gap_low bandPage _ Hr eq_refl Hg _)).
  repeat constructor.
Defined.

(** ** Re-checks are not deduplicated *)

Lemma probe_low_fire st y :
  isDevToolsOpen (this st) = true -> gapLow (window st) ->
  pending y st = true -> callback y = CbWindowSize -> repeating y = true ->
  fire y st = setTimeout CbRecheck 1000 st.
Proof.
  intros Ho Hg Hp Hc Hr. rewrite (fire_pending y st Hp), Hc, Hr. cbn [callbackBody].
  unfold detectByWindowSize, whenM, ifM, checkIfReallyClosed, modify.
  destruct (gapLow_tests _ Hg) as [E1 E2].
  rewrite E1, Ho. cbn [andb].
  apply andb_true_iff in E2. destruct E2 as [E2 E3]. rewrite E2, E3. reflexivity.
Qed.

(** X5.  Unlike the overlay and the console-spam task, the re-check is not
    guarded against duplicates: while the belief is open and the gap is
    below 100, every run of the window-size probe schedules one more
    re-check timer. *)
Theorem rechecks_accumulate st y n :
  isDevToolsOpen (this st) = true -> gapLow (window st) ->
  pending y st = true -> callback y = CbWindowSize -> repeating y = true ->
  length (recheckTimers (Nat.iter n (fire y) st)) = (length (recheckTimers st) + n)%nat /\
  isDevToolsOpen (this (Nat.iter n (fire y) st)) = true.
Proof.
  intros Ho Hg Hp Hc Hr.
  assert (H : forall k,
            isDevToolsOpen (this (Nat.iter k (fire y) st)) = true /\
            window (Nat.iter k (fire y) st) = window st /\
            pending y (Nat.iter k (fire y) st) = true /\
            length (recheckTimers (Nat.iter k (fire y) st)) =
              (length (recheckTimers st) + k)%nat).
  { induction k as [|k IH].
    - cbn. repeat split; auto.
    - destruct IH as (Ho' & Hw' & Hp' & Hl').
      change (Nat.iter (S k) (fire y) st) with (fire y (Nat.iter k (fire y) st)).
      set (s := Nat.iter k (fire y) st) in *.
      assert (Hg' : gapLow (window s)) by (rewrite Hw'; exact Hg).
      rewrite (probe_low_fire s y Ho' Hg' Hp' Hc Hr).
      split; [exact Ho'|]. split; [exact Hw'|]. split.
      + unfold pending in *. cbn. rewrite existsb_app, Hp'. reflexivity.
      + unfold recheckTimers in *. cbn. rewrite filter_app, length_app, Hl'.
        cbn. lia. }
  destruct (H n) as (H1 & _ & _ & H4). split; assumption.
Qed.

Lemma rechecks_accumulate_witness :
  isDevToolsOpen (this detectedPage) = true /\
  gapLow (window detectedPage) /\
  length (recheckTimers (Nat.iter 3 (fire windowTimer) detectedPage)) = 3%nat.
Proof.
  split; [reflexivity|].
  assert (Hg : gapLow (window detectedPage)) by (split; reflexivity).
  split; [exact Hg|].
  exact (proj1 (rechecks_accumulate detectedPage windowTimer 3
                  eq_refl Hg eq_refl eq_refl eq_refl)).
Defined.

(** ** One run of the console-spam task *)

Lemma andThen_assoc {S} (a b c : M S) s : ((a ;; b) ;; c) s = (a ;; (b ;; c)) s.
Proof. unfold andThen. destruct (a s); reflexivity. Qed.

Lemma call_then m msg (k : M State) s :
  consoleThrows (window s) m = false ->
  (console_call m msg ;; k) s =
  k (upd_rt (fun r => set_console (console r ++ [(m, msg)]) r) s).
Proof. intros H. unfold andThen, console_call. rewrite H. reflexivity. Qed.

(** X6.  With a working console, a run of the console-spam task while
    protection is active replaces whatever the console held by the same 44
    lines (four banner lines, then twenty times a warning and an error) and
    changes nothing else; a run while protection is inactive prints nothing
    and cancels the task's own timer. *)
Theorem spam_tick st :
  consoleNative (window st) ->
  (protectionActive (this st) = true ->
     consoleSpamBody st = Normal (upd_rt (set_console spamOutput) st)) /\
  (protectionActive (this st) = false ->
     exists st', consoleSpamBody st = Normal st' /\
       console (rt st') = console (rt st) /\
       consoleSpamInterval (this st') = None /\
       forall t x, consoleSpamInterval (this st) = Some t ->
                   In x (timers (rt st')) -> tid x <> t).
Proof.
  intros Hn. split; intros Ha; unfold consoleSpamBody, ifM; rewrite Ha; cbn [negb].
  - unfold tryIgnore.
    assert (E : (console_clear ;;
                 console_call c_log MsgBanner ;;
                 console_call c_log MsgBlocked ;;
                 console_call c_log MsgCloseTools ;;
                 console_call c_log MsgRule ;;
                 times 20 (console_call c_warn MsgAccessDenied ;;
                           console_call c_error MsgUnauthorized)) st
                = Normal (upd_rt (set_console spamOutput) st)).
    { unfold andThen at 1. unfold console_clear. rewrite Hn.
      cbn [times].
      repeat first [ rewrite andThen_assoc | rewrite call_then by apply Hn ].
      reflexivity. }
    rewrite E. reflexivity.
  - eexists. split; [reflexivity|]. cbn.
    destruct (consoleSpamInterval (this st)) as [t|] eqn:Ei; cbn;
      (split; [reflexivity|]); (split; [reflexivity|]); intros t' x Ht Hx.
    + injection Ht as <-. apply filter_In in Hx. destruct Hx as [_ Hx].
      intros <-. rewrite Pos.eqb_refl in Hx. discriminate.
    + discriminate.
Qed.

Lemma spam_tick_witness :
  consoleNative (window detectedPage) /\
  length (console (rt (final (consoleSpamBody detectedPage)))) = 44%nat.
Proof.
  split; [exact calm_native|].
  rewrite (proj1 (spam_tick detectedPage calm_native) eq_refl). reflexivity.
Defined.

(** ** The mutation observer *)

Lemma notify_app os1 os2 r st :
  notify (os1 ++ os2) r st = notify os2 r (notify os1 r st).
Proof.
  revert st. induction os1 as [|o os1 IH]; intros st; cbn; [reflexivity|]. apply IH.
Qed.

(** X7.  After the inspection probe has run on a page that has its body,
    an attribute change on the node it attached is reported as a detection.
    On a page without a body the probe throws at [document.body] before it
    creates its observer or its timeout.  A record of another kind,
    whatever its target, reaches no observer of the script and changes
    nothing. *)
Theorem inspection_probe_detects st :
  (bodyPresent (window st) = true ->
   isDevToolsOpen
     (this (deliverMutation (mkMutation attributes (next_handle (rt st)))
              (final (detectElementInspection st)))) = true) /\
  (bodyPresent (window st) = false ->
   detectElementInspection st =
     Throw (upd_rt (fun r => set_next_handle (S (next_handle r)) r) st)) /\
  (forall ty h s, ty <> attributes -> deliverMutation (mkMutation ty h) s = s).
Proof.
  split; [|split].
  - intros Hb.
    unfold detectElementInspection, createElement, setTimeout, deliverMutation,
      andThen, withBody.
    cbv beta iota zeta. cbn [window upd_rt]. rewrite Hb. cbn [final].
    cbn [observers rt upd_rt addTimer snd set_next_timer set_timers set_next_handle
         set_observers body_appendChild upd_document next_handle handle].
    rewrite filter_app, notify_app.
    cbn [filter observes mtype mtarget observed]. rewrite Nat.eqb_refl.
    cbn [notify observerBody forEach mtype mtarget observed].
    rewrite Nat.eqb_refl. unfold andThen.
    match goal with
    | |- context [handleDevToolsDetected ?s] =>
        pose proof (handle_opens s) as Ho;
        destruct (handleDevToolsDetected s); exact Ho
    end.
  - intros Hb. unfold detectElementInspection, createElement, andThen, withBody.
    cbv beta iota zeta. cbn [window upd_rt]. rewrite Hb. reflexivity.
  - intros ty h s Hty. unfold deliverMutation.
    assert (E : filter (observes (mkMutation ty h)) (observers (rt s)) = []).
    { induction (observers (rt s)) as [|o l IH]; cbn; [reflexivity|].
      destruct ty; try contradiction; exact IH. }
    rewrite E. reflexivity.
Qed.

Lemma inspection_probe_detects_witness :
  bodyPresent (window idlePage) = true /\
  isDevToolsOpen
    (this (deliverMutation (mkMutation attributes (next_handle (rt idlePage)))
             (final (detectElementInspection idlePage)))) = true.
Proof.
  split; [reflexivity|].
  exact (proj1 (inspection_probe_detects idlePage) eq_refl).
Defined.

(** ** Clipboard *)

(** X8.  While protection is active, a copy event that carries clipboard
    data leaves the listener with exactly one text/plain entry, "Copying
    disabled", with the entries of every other format kept, and with its
    default action cancelled when the event is cancelable; the page state
    is untouched. *)
Theorem copy_rewrites_payload e st items :
  protectionActive (this st) = true ->
  clipboardData e = Some items ->
  exists e' items',
    onCopy (e, st) = Normal (e', st) /\
    clipboardData e' = Some items' /\
    In ("text/plain", "Copying disabled") items' /\
    (forall d, In ("text/plain", d) items' -> d = "Copying disabled") /\
    (forall f d, f <> "text/plain" -> (In (f, d) items' <-> In (f, d) items)) /\
    defaultPrevented e' = defaultPrevented e || cancelable e.
Proof.
  intros Ha Hi.
  exists (set_clipboardData (Some (setData "text/plain" "Copying disabled" items))
            (preventDefault e)),
         (setData "text/plain" "Copying disabled" items).
  split; [|split; [reflexivity|split; [|split; [|split; [|reflexivity]]]]].
  - unfold onCopy, whenM, ifM, andThen, onEvent, modify, clipboardData_setData.
    cbn [fst snd]. rewrite Ha. cbn [clipboardData preventDefault set_defaultPrevented].
    rewrite Hi. reflexivity.
  - unfold setData. apply in_or_app. right. left. reflexivity.
  - intros d Hd. unfold setData in Hd. apply in_app_or in Hd.
    destruct Hd as [Hd|[Hd|[]]].
    + apply filter_In in Hd. destruct Hd as [_ Hd]. cbn [fst] in Hd.
      rewrite String.eqb_refl in Hd. discriminate.
    + congruence.
  - intros f d Hf. unfold setData. rewrite in_app_iff, filter_In. cbn [fst].
    split.
    + intros [[H _]|[H|[]]]; [exact H | congruence].
    + intros H. left. split; [exact H|].
      destruct (String.eqb_spec f "text/plain"); [contradiction | reflexivity].
Qed.

Lemma copy_rewrites_witness :
  protectionActive (this detectedPage) = true /\
  exists e' items',
    onCopy (set_clipboardData (Some [("text/html", "<b>x</b>"); ("text/plain", "x")])
              plainEvent, detectedPage) = Normal (e', detectedPage) /\
    clipboardData e' = Some items' /\
    In ("text/plain", "Copying disabled") items'.
Proof.
  split; [reflexivity|].
  destruct (copy_rewrites_payload
              (set_clipboardData (Some [("text/html", "<b>x</b>"); ("text/plain", "x")])
                 plainEvent)
              detectedPage _ eq_refl eq_refl) as (e' & items' & E & Hc & Hin & _).
  exists e', items'. split; [exact E|]. split; [exact Hc | exact Hin].
Defined.

(** X9.  The keyup listener acts on PrintScreen only.  For that key it
    calls the detection entry point first; when that call completes it
    asks [navigator.clipboard] for one write of "Screenshot blocked" and
    completes, whether or not the belief was already open.  The write is
    only requested: the promise is not awaited, and whether the clipboard
    changes is not part of what the listener does.  Any other key leaves
    event and page as they were. *)
Theorem print_screen_requests_write e st :
  navigatorClipboard (window st) = true ->
  (key e = "PrintScreen" ->
   forall st1, handleDevToolsDetected st = Normal st1 ->
     onKeyup (e, st) =
       Normal (e, upd_rt (fun r => set_clipboardWrites
                                     (clipboardWrites r ++ ["Screenshot blocked"]) r)
                    st1)) /\
  (key e <> "PrintScreen" -> onKeyup (e, st) = Normal (e, st)).
Proof.
  intros Hn. split.
  - intros Hk st1 E.
    assert (Hw : window st1 = window st).
    { pose proof (handle_keeps_window st) as H. rewrite E in H. exact H. }
    unfold onKeyup, whenM, ifM, andThen, tryIgnore, onState,
      navigator_clipboard_writeText. cbn [fst snd].
    rewrite Hk. cbn [String.eqb Ascii.eqb Bool.eqb]. rewrite E. cbn [fst snd].
    rewrite Hw, Hn. reflexivity.
  - intros Hk. unfold onKeyup, whenM, ifM. cbn [fst].
    destruct (String.eqb_spec (key e) "PrintScreen"); [contradiction | reflexivity].
Qed.

Lemma print_screen_witness :
  navigatorClipboard (window detectedPage) = true /\
  clipboardWrites (rt (snd (final (onKeyup (printScreenKey, detectedPage))))) =
    ["Screenshot blocked"].
Proof.
  split; [reflexivity|].
  rewrite (proj1 (print_screen_requests_write printScreenKey detectedPage eq_refl)
             eq_refl detectedPage (handle_noop detectedPage eq_refl)).
  reflexivity.
Defined.

(** ** What is never undone *)

Lemma step_extends_listeners s st :
  exists added, listeners (rt (step s st)) = listeners (rt st) ++ added.
Proof.
  set (P := fun x : State => exists added, listeners (rt x) = listeners (rt st) ++ added).
  assert (H0 : P st) by (exists []; rewrite app_nil_r; reflexivity).
  assert (Hext : forall a b, listeners (rt b) = listeners (rt a) -> P a -> P b).
  { intros a b E [l Hl]. exists l. congruence. }
  assert (Hadd : forall tg ty l c a, P a -> P (addEventListener tg ty l c a)).
  { intros tg ty l c a [ad Ha]. exists (ad ++ [mkRegistration tg ty c l]).
    cbn. rewrite Ha, app_assoc. reflexivity. }
  destruct s as [x|on ty e|r|e]; cbn [step].
  - apply (indep_fire P); try exact H0;
      try (intros; first [ apply Hadd; assumption
                         | eapply Hext; [|eassumption]; first [assumption | reflexivity] ]).
    + intros _. apply indep_recheckBody;
        intros; first [ apply Hadd; assumption
                      | eapply Hext; [|eassumption]; first [assumption | reflexivity] ].
    + intros _. apply indep_detectByWindowSize;
        intros; first [ apply Hadd; assumption
                      | eapply Hext; [|eassumption]; first [assumption | reflexivity] ].
    + intros _. apply indep_consoleSpamBody;
        intros; first [ apply Hadd; assumption
                      | eapply Hext; [|eassumption]; first [assumption | reflexivity] ].
  - apply (indep_dispatchEvent P); try exact H0;
      intros; first [ apply Hadd; assumption
                    | eapply Hext; [|eassumption]; first [assumption | reflexivity] ].
  - apply (indep_deliverMutation P); try exact H0;
      intros; first [ apply Hadd; assumption
                    | eapply Hext; [|eassumption]; first [assumption | reflexivity] ].
  - exact H0.
Qed.

(** X10.  No run of the page removes an event listener: after any
    sequence of timers, events, mutations and environment changes the
    listener table is the earlier table, possibly extended.  In particular
    the click listener of an overlay outlives the overlay. *)
Theorem listeners_only_grow ss st :
  exists added, listeners (rt (run ss st)) = listeners (rt st) ++ added.
Proof.
  revert st. induction ss as [|s ss IH]; intros st; cbn [run fold_left].
  - exists []. rewrite app_nil_r. reflexivity.
  - destruct (step_extends_listeners s st) as [l1 H1].
    destruct (IH (step s st)) as [l2 H2]. exists (l1 ++ l2).
    unfold run in H2. rewrite H2, H1, app_assoc. reflexivity.
Qed.

(** ** The responder's bookkeeping *)

(** X11.  In every state that a page the script has loaded with its body
    present and a working console can reach, the protection flag equals
    the belief, the active-protection style node is there exactly while the
    belief is open, and so are the timer handle and the one console-spam
    timer it names. *)
Theorem responder_bookkeeping st :
  reachable st ->
  protectionActive (this st) = isDevToolsOpen (this st) /\
  count_id active_style_id st = (if isDevToolsOpen (this st) then 1 else 0)%nat /\
  (consoleSpamInterval (this st) = None <-> isDevToolsOpen (this st) = false) /\
  map tid (spamTimers st) =
    match consoleSpamInterval (this st) with Some t => [t] | None => [] end.
Proof.
  intros Hr. destruct (reachable_Inv st Hr) as [_ I2 _ I4 I5 _].
  split; [exact I2|]. split; [exact I4|].
  unfold spamState in I5. destruct (isDevToolsOpen (this st)).
  - destruct I5 as (t & Hi & Ht). rewrite Hi, Ht. split; [|reflexivity].
    split; discriminate.
  - destruct I5 as [Hi Ht]. rewrite Hi, Ht. split; [|reflexivity].
    split; reflexivity.
Qed.

Lemma responder_bookkeeping_witness :
  reachable detectedPage /\
  protectionActive (this detectedPage) = isDevToolsOpen (this detectedPage) /\
  count_id active_style_id detectedPage = 1%nat.
Proof.
  split; [exact detectedPage_reachable|].
  destruct (responder_bookkeeping detectedPage detectedPage_reachable) as (H1 & H2 & _).
  split; [exact H1 | exact H2].
Defined.

(** ** Gestures on a reachable page *)

Lemma deliver_app l1 l2 c : deliver (l1 ++ l2) c = deliver l2 (deliver l1 c).
Proof.
  revert c. induction l1 as [|r l1 IH]; intros c; cbn; [reflexivity|]. apply IH.
Qed.

Section EventKept.

Variable Q : Event -> Prop.
Hypothesis Q_prevent : forall e, Q e -> Q (preventDefault e).
Hypothesis Q_stop : forall e, Q e -> Q (stopPropagation e).
Hypothesis Q_data : forall d e, Q e -> Q (set_clipboardData d e).

Lemma kept_onState (m : M State) : preserves (fun c : Ctx => Q (fst c)) (onState m).
Proof. intros [e s] H. unfold onState. cbn [snd fst]. destruct (m s); exact H. Qed.

Lemma kept_listenerBody l : preserves (fun c : Ctx => Q (fst c)) (listenerBody l).
Proof.
  destruct l; cbn [listenerBody];
    unfold onKeydown, onContextmenu, onMousedownMiddle, onFetch,
           onMousedownCtrl, onSelectstart, onMessage, onOverlayClick,
           onDragstart, onBeforeprint, onKeyup, onCopy, onEvent.
  all: repeat first [ apply preserves_whenM | apply preserves_andThen
                    | apply preserves_tryIgnore | apply kept_onState
                    | apply preserves_modify; intros [e s] H; cbn [fst];
                      first [ apply Q_prevent, H | apply Q_stop, H ] ].
  intros [e s] H. unfold clipboardData_setData. cbn [fst snd].
  destruct (clipboardData e); cbn [final fst]; [apply Q_data, H | exact H].
Qed.

Lemma kept_deliver ls c : Q (fst c) -> Q (fst (deliver ls c)).
Proof.
  revert c. induction ls as [|r rest IH]; intros c H; cbn [deliver]; [exact H|].
  apply IH. apply (kept_listenerBody (reg_listener r) _ H).
Qed.

End EventKept.

Lemma believes_deliver ls c : believes (snd c) -> believes (snd (deliver ls c)).
Proof.
  apply frame_deliver with (ok := fun _ => True);
    first [ apply indep_handle; believes_side
          | believes_side
          | intros; exact (conj I I) ].
Qed.

Lemma registered_step r s st :
  In r (listeners (rt st)) -> In r (listeners (rt (step s st))).
Proof.
  intros H. destruct (step_extends_listeners s st) as [l E]. rewrite E.
  apply in_or_app. left. exact H.
Qed.

Lemma init_registers st :
  exists st',
    (disableAllDevToolsAccess ;; startContinuousDetection ;;
     ifM (fun st => readyStateLoading (window st))
       (modify (addEventListener Doc DOMContentLoaded LDomReady false))
       setupAdvancedProtection) st = Normal st' /\
    window st' = window st /\
    forall r, In r coreListeners -> In r (listeners (rt st')).
Proof.
  unfold disableAllDevToolsAccess, startContinuousDetection, setupAdvancedProtection,
    setupAdvancedProtection_2, setupAdvancedListeners, andThen, modify, ifM,
    setInterval, addTimer, createElement, coreListeners.
  cbn. destruct (readyStateLoading (window st)); eexists;
    (split; [reflexivity|]); (split; [reflexivity|]);
    intros r Hr; cbn; rewrite !in_app_iff; cbn [In] in *; tauto.
Qed.

Lemma registered_load e d r :
  consoleNative e -> bodyPresent e = true ->
  In r coreListeners -> In r (listeners (rt (load e d))).
Proof.
  intros Hn Hb Hr. unfold load.
  destruct (detectExisting_native (page e d) Hn (or_introl Hb) eq_refl)
    as (s1 & E1 & Hw1 & _).
  destruct (init_registers s1) as (s2 & E2 & Hw2 & Hl).
  assert (E : script (page e d) =
              Normal (upd_rt (fun r => set_console (console r ++ [(c_log, MsgLoaded)]) r) s2)).
  { change (script (page e d))
      with (((detectExistingDevTools ;;
              (disableAllDevToolsAccess ;; startContinuousDetection ;;
               ifM (fun st => readyStateLoading (window st))
                 (modify (addEventListener Doc DOMContentLoaded LDomReady false))
                 setupAdvancedProtection)) ;;
             console_call c_log MsgLoaded) (page e d)).
    unfold andThen at 1. unfold andThen at 1. rewrite E1, E2.
    unfold console_call. rewrite Hw2, Hw1. cbn [window page]. rewrite Hn.
    reflexivity. }
  rewrite E. cbn. apply Hl, Hr.
Qed.

Lemma reachable_registered st r :
  reachable st -> In r coreListeners -> In r (listeners (rt st)).
Proof.
  intros H Hr.
  induction H
    as [e d Hn Hb Hd | st x _ IH | st on ty e _ IH | st m _ IH | st e _ IH Hn Hb].
  - apply registered_load; assumption.
  - apply (registered_step r (Fire x)), IH.
  - apply (registered_step r (Dispatch on ty e)), IH.
  - apply (registered_step r (Mutated m)), IH.
  - exact IH.
Qed.

Lemma dispatch_through r on ty e st :
  In r (listeners (rt st)) -> listens st on ty r = true ->
  exists l1 l2,
    dispatchEvent on ty e st =
    deliver l2 (final (listenerBody (reg_listener r) (deliver l1 (e, st)))).
Proof.
  intros Hi Hl.
  assert (H : In r (filter (listens st on ty) (listeners (rt st))))
    by (apply filter_In; split; assumption).
  apply in_split in H. destruct H as (l1 & l2 & E).
  exists l1, l2. unfold dispatchEvent. rewrite E, deliver_app. reflexivity.
Qed.

Lemma onContextmenu_effect c :
  cancelable (fst c) = true ->
  defaultPrevented (fst (final (onContextmenu c))) = true /\
  propagationStopped (fst (final (onContextmenu c))) = true /\
  believes (snd (final (onContextmenu c))).
Proof.
  destruct c as [e s]. cbn [fst]. intros Hc.
  unfold onContextmenu, andThen, onEvent, modify, onState, believes. cbn [fst snd].
  pose proof (handle_opens s) as Ho.
  destruct (handleDevToolsDetected s); cbn in *; rewrite Hc, orb_true_r; auto.
Qed.

Lemma onKeydown_effect c :
  cancelable (fst c) = true -> keydownBlocked (fst c) = true ->
  defaultPrevented (fst (final (onKeydown c))) = true /\
  propagationStopped (fst (final (onKeydown c))) = true /\
  believes (snd (final (onKeydown c))).
Proof.
  destruct c as [e s]. cbn [fst]. intros Hc Hk.
  unfold onKeydown, whenM, ifM, andThen, onEvent, modify, onState, believes.
  cbn [fst snd]. rewrite Hk.
  pose proof (handle_opens s) as Ho.
  destruct (handleDevToolsDetected s); cbn in *; rewrite Hc, orb_true_r; auto.
Qed.

Lemma answered_through l2 c :
  defaultPrevented (fst c) = true /\ propagationStopped (fst c) = true /\
  believes (snd c) ->
  defaultPrevented (fst (deliver l2 c)) = true /\
  propagationStopped (fst (deliver l2 c)) = true /\
  believes (snd (deliver l2 c)).
Proof.
  intros (A & B & C). split; [|split].
  - apply (kept_deliver (fun e => defaultPrevented e = true)); try assumption.
    + intros e H. cbn. rewrite H. reflexivity.
    + intros e H. exact H.
    + intros d e H. exact H.
  - apply (kept_deliver (fun e => propagationStopped e = true)); try assumption.
    + intros e H. exact H.
    + intros e H. reflexivity.
    + intros d e H. exact H.
  - apply believes_deliver, C.
Qed.

Lemma inPage_reaches_document st on ty c l :
  inPage on st = true ->
  listens st on ty (mkRegistration Doc ty c l) = true.
Proof.
  intros H. unfold listens, reaches. cbn [reg_target reg_type].
  destruct on; cbn [inPage] in H; [discriminate | | rewrite H];
    destruct ty; reflexivity.
Qed.

(** X12.  On every page the script has loaded with its body present and a
    working console, and whatever happened since, a cancelable context
    click or listed keyboard shortcut dispatched on the document or on an
    element that is in the document is answered in full, whichever other
    listeners run before or after: its default action is cancelled, its
    propagation stopped, the belief is open afterwards, protection is
    active and exactly one overlay is in the document. *)
Theorem gestures_answered_everywhere st on ty e :
  reachable st -> inPage on st = true -> cancelable e = true ->
  ty = contextmenu \/ (ty = keydown /\ listedShortcut e) ->
  defaultPrevented (fst (dispatchEvent on ty e st)) = true /\
  propagationStopped (fst (dispatchEvent on ty e st)) = true /\
  isDevToolsOpen (this (snd (dispatchEvent on ty e st))) = true /\
  protectionActive (this (snd (dispatchEvent on ty e st))) = true /\
  count_id overlay_id (snd (dispatchEvent on ty e st)) = 1%nat.
Proof.
  intros Hr Hon Hc Hty.
  assert (Hreach : reachable (snd (dispatchEvent on ty e st)))
    by (apply reach_dispatch, Hr).
  assert (Hcore : defaultPrevented (fst (dispatchEvent on ty e st)) = true /\
                  propagationStopped (fst (dispatchEvent on ty e st)) = true /\
                  believes (snd (dispatchEvent on ty e st))).
  { destruct Hty as [-> | [-> Hl]].
    - destruct (dispatch_through (mkRegistration Doc contextmenu true LContextmenu)
                  on contextmenu e st) as (l1 & l2 & E).
      + apply reachable_registered; [exact Hr | cbn; tauto].
      + apply inPage_reaches_document, Hon.
      + rewrite E. cbn [reg_listener listenerBody].
        apply answered_through, onContextmenu_effect.
        apply (kept_deliver (fun e => cancelable e = true)); auto.
    - destruct (dispatch_through (mkRegistration Doc keydown true LKeydown)
                  on keydown e st) as (l1 & l2 & E).
      + apply reachable_registered; [exact Hr | cbn; tauto].
      + apply inPage_reaches_document, Hon.
      + rewrite E. cbn [reg_listener listenerBody].
        apply answered_through, onKeydown_effect.
        * apply (kept_deliver (fun e => cancelable e = true)); auto.
        * apply (kept_deliver (fun e => keydownBlocked e = true)); auto.
          cbn [fst]. apply keydownBlocked_spec, Hl. }
  destruct Hcore as (A & B & C). unfold believes in C.
  destruct (reachable_Inv _ Hreach) as [_ I2 I3 _ _ _].
  rewrite C in I2, I3. auto.
Qed.

Lemma gestures_answered_witness :
  reachable recheckPending /\
  inPage (Elem 3) recheckPending = true /\
  defaultPrevented (fst (dispatchEvent (Elem 3) keydown f12Key recheckPending)) = true /\
  count_id overlay_id (snd (dispatchEvent (Elem 3) keydown f12Key recheckPending)) = 1%nat.
Proof.
  split; [exact recheckPending_reachable|]. split; [reflexivity|].
  destruct (gestures_answered_everywhere recheckPending (Elem 3) keydown f12Key
              recheckPending_reachable) as (A & _ & _ & _ & B).
  - reflexivity.
  - reflexivity.
  - right. split; [reflexivity | left; reflexivity].
  - split; [exact A | exact B].
Defined.

(** ** Numbering of nodes, observers and timers; the listener table *)

Ltac wn_solve :=
  idtac;
  lazymatch goal with
  | H : wellFormed ?s |- wellFormed _ =>
      let Hh := fresh "Hh" in
      let Hb := fresh "Hb" in
      let Ho := fresh "Ho" in
      let Ht := fresh "Ht" in
      let Hl := fresh "Hl" in
      destruct H as (Hh & Hb & Ho & Ht & Hl);
      unfold wellFormed, without, setTimeout, setInterval, addTimer; cbn;
      (split; [|split; [|split; [|split]]]);
      (let x := fresh "x" in
       let Hin := fresh "Hin" in
       intros x Hin; unfold without in Hin;
       rewrite ?in_app_iff, ?filter_In in Hin; cbn [In] in Hin;
       repeat match goal with
              | Hx : _ \/ _ |- _ => destruct Hx as [Hx|Hx]
              | Hx : _ /\ _ |- _ => destruct Hx as [Hx _]
              | Hx : False |- _ => contradiction
              end;
       solve [ subst; cbn; lia
             | subst; reflexivity
             | match goal with
               | Hq : forall _, In _ ?l -> _, Hi : In ?n ?l |- _ =>
                   specialize (Hq n Hi); first [ exact Hq | cbn; lia ]
               end ])
  end.

Lemma WN_console_call m msg : preserves wellFormed (console_call m msg).
Proof.
  intros st H. unfold console_call.
  destruct (consoleThrows (window st) m); cbn [final]; [exact H | wn_solve].
Qed.

Lemma WN_removeById i st : wellFormed st -> wellFormed (removeById i st).
Proof.
  intros H. unfold removeById.
  destruct (getElementById i st); [wn_solve | exact H].
Qed.

Lemma WN_stopConsoleSpam st : wellFormed st -> wellFormed (stopConsoleSpam st).
Proof.
  intros H. unfold stopConsoleSpam.
  destruct (consoleSpamInterval (this st)); [wn_solve | exact H].
Qed.

Lemma WN_startConsoleSpam : preserves wellFormed startConsoleSpam.
Proof.
  intros st H. unfold startConsoleSpam.
  destruct (consoleSpamInterval (this st)); cbn [final]; [exact H | wn_solve].
Qed.

Lemma WN_applyVisualRestrictions : preserves wellFormed applyVisualRestrictions.
Proof.
  intros st H. unfold applyVisualRestrictions, createElement.
  cbv beta iota zeta. cbn [final]. wn_solve.
Qed.

Lemma WN_showProtectionOverlay : preserves wellFormed showProtectionOverlay.
Proof.
  intros st H. unfold showProtectionOverlay, createElement.
  destruct (getElementById overlay_id st); cbv beta iota zeta; [exact H|].
  unfold andThen, withBody, modify. cbn [window upd_rt].
  destruct (bodyPresent (window st)); cbn [final]; wn_solve.
Qed.

Ltac wn_upd :=
  first [ apply WN_removeById; assumption
        | apply WN_stopConsoleSpam; assumption
        | wn_solve ].

Ltac wn_leaf :=
  first [ apply WN_console_call
        | apply WN_startConsoleSpam | apply WN_applyVisualRestrictions
        | apply WN_showProtectionOverlay ].

Lemma WN_handle : preserves wellFormed handleDevToolsDetected.
Proof.
  unfold handleDevToolsDetected, activateProtection.
  pres_struct wn_leaf wn_upd.
Qed.

Lemma WN_deactivate : preserves wellFormed deactivateProtection.
Proof. unfold deactivateProtection. pres_struct wn_leaf wn_upd. Qed.

Lemma WN_detectElementInspection : preserves wellFormed detectElementInspection.
Proof.
  intros st H. unfold detectElementInspection, createElement.
  cbv beta iota zeta. unfold andThen, withBody. cbn [window upd_rt].
  destruct (bodyPresent (window st)); cbn [final]; wn_solve.
Qed.

Lemma WN_showWarning msg : preserves wellFormed (showWarning msg).
Proof.
  unfold showWarning. apply preserves_ifM; [apply preserves_skip|].
  intros st H. unfold createElement. cbv beta iota zeta.
  unfold andThen, withBody. cbn [window upd_rt upd_this].
  destruct (bodyPresent (window st)); cbn [final]; wn_solve.
Qed.

Lemma WN_setupAdvancedProtection : preserves wellFormed setupAdvancedProtection.
Proof.
  unfold setupAdvancedProtection. cbn [lastDefinition].
  unfold setupAdvancedProtection_2, setupAdvancedListeners.
  apply preserves_andThen; [|pres_struct wn_leaf wn_upd].
  intros st H. unfold createElement. cbv beta iota zeta. cbn [final]. wn_solve.
Qed.

Lemma WN_consoleSpamBody : preserves wellFormed consoleSpamBody.
Proof.
  unfold consoleSpamBody. apply preserves_ifM.
  - intros st H. cbn [final]. unfold clearInterval.
    destruct (consoleSpamInterval (this st)); wn_solve.
  - apply preserves_tryIgnore, preserves_andThen.
    + intros st H. unfold console_clear.
      destruct (consoleThrows (window st) c_clear); cbn [final]; [exact H | wn_solve].
    + pres_struct wn_leaf wn_upd.
Qed.

Lemma WN_writeText text : preserves wellFormed (navigator_clipboard_writeText text).
Proof.
  intros st H. unfold navigator_clipboard_writeText.
  destruct (navigatorClipboard (window st)); cbn [final]; [wn_solve | exact H].
Qed.

Ltac wn_method :=
  first [ apply WN_handle | apply WN_deactivate | apply WN_detectElementInspection
        | apply WN_showWarning | apply WN_setupAdvancedProtection
        | apply WN_consoleSpamBody | apply WN_writeText | wn_leaf ].

Lemma WN_callbackBody cb : preserves wellFormed (callbackBody cb).
Proof.
  destruct cb; cbn [callbackBody];
    unfold detectByWindowSize, detectByConsole, detectByTiming, recheckBody,
           globalsBody, inspectCleanupBody, warningHideBody, checkIfReallyClosed;
    pres_struct wn_method wn_upd.
Qed.

Lemma WN_fire x st : wellFormed st -> wellFormed (fire x st).
Proof.
  intros H. unfold fire. destruct (pending x st); [|exact H].
  apply WN_callbackBody. destruct (repeating x); [exact H|].
  unfold dropTimer. wn_solve.
Qed.

Lemma WN_listenerBody l :
  preserves (fun c : Ctx => wellFormed (snd c)) (listenerBody l).
Proof.
  destruct l; cbn [listenerBody];
    unfold onKeydown, onContextmenu, onMousedownMiddle, onFetch,
           onMousedownCtrl, onSelectstart, onMessage, onOverlayClick,
           onDragstart, onBeforeprint, onKeyup, onCopy.
  all: try (pres_struct wn_method wn_upd).
  apply preserves_whenM, preserves_andThen; [apply preserves_onEvent|].
  intros [e s] H. unfold clipboardData_setData. cbn.
  destruct (clipboardData e); exact H.
Qed.

Lemma WN_step s st : wellFormed st -> wellFormed (step s st).
Proof.
  intros H. destruct s as [x|on ty e|r|e]; cbn [step].
  - apply WN_fire, H.
  - unfold dispatchEvent.
    generalize (filter (listens st on ty) (listeners (rt st))).
    intros ls. change st with (snd (e, st)) in H. revert H.
    generalize (e, st). induction ls as [|r rest IH]; intros c H; cbn [deliver].
    + exact H.
    + apply IH. apply (WN_listenerBody (reg_listener r) _ H).
  - unfold deliverMutation.
    generalize (filter (observes r) (observers (rt st))).
    intros os. revert st H. induction os as [|o rest IH]; intros st H; cbn [notify].
    + exact H.
    + apply IH. revert H. apply preserves_forEach. intros m.
      destruct (mtype m); try apply preserves_skip.
      destruct (Nat.eqb (mtarget m) (observed o)); [apply WN_handle | apply preserves_skip].
  - wn_solve.
Qed.

Lemma freshHandle_above l n : In n l -> (handle n < freshHandle l)%nat.
Proof.
  unfold freshHandle. induction l as [|x l IH]; cbn; [contradiction|].
  intros [->|H]; [lia|]. specialize (IH H). lia.
Qed.

Lemma WN_load e d : wellFormed (load e d).
Proof.
  unfold load.
  change (script (page e d)) with ((initImmediate ;; console_call c_log MsgLoaded) (page e d)).
  apply preserves_andThen; [| apply WN_console_call |].
  - unfold initImmediate, detectExistingDevTools, disableAllDevToolsAccess,
      startContinuousDetection.
    pres_struct wn_method wn_upd.
  - unfold wellFormed. cbn. split; [|split; [|split; [|split]]]; try (intros ? []).
    + intros n H. apply freshHandle_above, in_or_app. left. exact H.
    + intros n H. apply freshHandle_above, in_or_app. right. exact H.
Qed.

Lemma reachable_wellFormed st : reachable st -> wellFormed st.
Proof.
  induction 1
    as [e d Hn Hb Hd | st x _ IH | st on ty e _ IH | st r _ IH | st e _ IH Hn Hb].
  - apply WN_load.
  - apply (WN_step (Fire x)), IH.
  - apply (WN_step (Dispatch on ty e)), IH.
  - apply (WN_step (Mutated r)), IH.
  - apply (WN_step (Ambient e)), IH.
Qed.

(** ** Lists of nodes and timers *)

Lemma Node_eqb_handles a b : handle a <> handle b -> Node_eqb a b = false.
Proof.
  intros H. destruct (Node_eqb a b) eqn:E; [|reflexivity].
  apply Node_eqb_eq in E. subst. elim H. reflexivity.
Qed.

Lemma filter_id {A} (f : A -> bool) l :
  (forall x, In x l -> f x = true) -> filter f l = l.
Proof.
  intros H. induction l as [|x l IH]; cbn; [reflexivity|].
  rewrite (H x (or_introl eq_refl)), IH; [reflexivity|].
  intros y Hy. apply H. right. exact Hy.
Qed.

Lemma without_unused n l :
  (forall x, In x l -> (handle x < handle n)%nat) -> without n l = l.
Proof.
  intros H. apply filter_id. intros x Hx. rewrite Node_eqb_handles; [reflexivity|].
  specialize (H x Hx). lia.
Qed.

Lemma Callback_eqb_refl cb : Callback_eqb cb cb = true.
Proof.
  destruct cb; cbn; rewrite ?Nat.eqb_refl, ?Node_eqb_refl; reflexivity.
Qed.

Lemma Timer_eqb_refl x : Timer_eqb x x = true.
Proof.
  unfold Timer_eqb.
  rewrite Pos.eqb_refl, Bool.eqb_reflx, Z.eqb_refl, Callback_eqb_refl. reflexivity.
Qed.

Lemma existsb_last {A} (f : A -> bool) l x : f x = true -> existsb f (l ++ [x]) = true.
Proof. intros H. rewrite existsb_app. cbn. rewrite H. apply orb_true_r. Qed.

(** A timeout that has just been set leaves the table as it found it. *)
Lemma drop_new_timer x T :
  (forall y, In y T -> (tid y < tid x)%positive) ->
  filter (fun y => negb (Timer_eqb x y)) (T ++ [x]) = T.
Proof.
  intros H. rewrite filter_app. cbn. rewrite Timer_eqb_refl. cbn.
  rewrite app_nil_r. apply filter_id. intros y Hy.
  destruct (Timer_eqb x y) eqn:E; [|reflexivity].
  apply Timer_eqb_eq in E. subst y. specialize (H x Hy). lia.
Qed.

Lemma count_zero_filters i st :
  count_id i st = 0%nat ->
  filter (has_id i) (doc_head (document st)) = [] /\
  filter (has_id i) (doc_body (document st)) = [].
Proof.
  rewrite count_id_split. intros H.
  destruct (filter (has_id i) (doc_head (document st)));
    destruct (filter (has_id i) (doc_body (document st)));
    cbn in H; try discriminate; split; reflexivity.
Qed.

Lemma find_first_fresh {A} (f : A -> bool) a n b :
  filter f a = [] -> f n = true -> find f (a ++ n :: b) = Some n.
Proof.
  intros Ha Hn. induction a as [|x a IH]; cbn in *.
  - rewrite Hn. reflexivity.
  - destruct (f x); [discriminate | auto].
Qed.

Lemma without_fresh i n l :
  has_id i n = true -> filter (has_id i) l = [] -> without n l = l.
Proof.
  intros Hn Hl. unfold without. induction l as [|x l IH]; cbn in *; [reflexivity|].
  destruct (has_id i x) eqn:Ex; [discriminate|].
  destruct (Node_eqb n x) eqn:En.
  - apply Node_eqb_id in En. unfold has_id in *. rewrite En in Hn. congruence.
  - cbn. rewrite IH; [reflexivity | exact Hl].
Qed.

Lemma without_last n m l :
  without n (l ++ [m]) = without n l ++ (if Node_eqb n m then [] else [m]).
Proof.
  unfold without. rewrite filter_app. cbn. destruct (Node_eqb n m); reflexivity.
Qed.

Lemma Node_eqb_ids a b : id a <> id b -> Node_eqb a b = false.
Proof.
  intros H. destruct (Node_eqb a b) eqn:E; [|reflexivity].
  elim H. apply Node_eqb_id, E.
Qed.

(** ** Detection followed by deactivation *)

Lemma handle_effect_listeners st :
  consoleNative (window st) ->
  bodyPresent (window st) = true ->
  isDevToolsOpen (this st) = false ->
  protectionActive (this st) = false ->
  consoleSpamInterval (this st) = None ->
  getElementById overlay_id st = None ->
  listeners (rt (final (handleDevToolsDetected st))) =
    listeners (rt st)
    ++ [mkRegistration (Elem (S (next_handle (rt st)))) click false LOverlayClick].
Proof.
  intros Hn Hb Hc Hf Hi Hg.
  unfold handleDevToolsDetected, activateProtection, startConsoleSpam,
    applyVisualRestrictions, showProtectionOverlay, ifM, andThen, modify, withBody,
    console_call, skip, setInterval, setTimeout, addTimer, createElement.
  rewrite Hc.
  repeat first [ progress cbn -[String.eqb has_id]
               | rewrite Hn | rewrite Hb | rewrite Hf | rewrite Hi ].
  unfold getElementById, all_nodes in *. cbn -[String.eqb has_id].
  rewrite find_none_mid; [| exact Hg | reflexivity].
  repeat first [ progress cbn -[String.eqb has_id] | rewrite Hb ].
  reflexivity.
Qed.

Lemma removeById_nodes i st :
  doc_head (document (removeById i st)) =
    match find (has_id i) (all_nodes st) with
    | Some n => without n (doc_head (document st))
    | None => doc_head (document st)
    end /\
  doc_body (document (removeById i st)) =
    match find (has_id i) (all_nodes st) with
    | Some n => without n (doc_body (document st))
    | None => doc_body (document st)
    end.
Proof.
  unfold removeById, getElementById.
  destruct (find (has_id i) (all_nodes st)); split; reflexivity.
Qed.

Lemma removeById_same i s s' :
  doc_head (document s') = doc_head (document s) ->
  doc_body (document s') = doc_body (document s) ->
  doc_head (document (removeById i s')) = doc_head (document (removeById i s)) /\
  doc_body (document (removeById i s')) = doc_body (document (removeById i s)).
Proof.
  intros Hh Hb.
  destruct (removeById_nodes i s) as [-> ->].
  destruct (removeById_nodes i s') as [-> ->].
  unfold all_nodes. rewrite Hh, Hb. split; reflexivity.
Qed.

(** What [deactivateProtection] leaves of the nodes, timers and listeners. *)
Lemma deactivate_nodes st :
  consoleNative (window st) ->
  bodyPresent (window st) = true ->
  exists st', deactivateProtection st = Normal st' /\
    doc_head (document st') =
      doc_head (document (removeById overlay_id (removeById active_style_id st))) /\
    doc_body (document st') =
      doc_body (document (removeById overlay_id (removeById active_style_id st))) /\
    listeners (rt st') = listeners (rt st) /\
    warningShown (this st') = warningShown (this st) /\
    console (rt st') = console (rt st) ++ [(c_log, MsgDeactivated)] /\
    timers (rt st') =
      match consoleSpamInterval (this st) with
      | Some t => filter (fun x => negb (Pos.eqb (tid x) t)) (timers (rt st))
      | None => timers (rt st)
      end.
Proof.
  intros Hn Hb.
  unfold deactivateProtection, andThen, modify, console_call, withBody.
  cbn [window upd_this]. rewrite Hb.
  match goal with
  | |- context [stopConsoleSpam (removeById overlay_id (removeById active_style_id ?s))] =>
      set (s0 := s)
  end.
  set (s2 := removeById active_style_id s0).
  set (s3 := removeById overlay_id s2).
  set (s4 := stopConsoleSpam s3).
  destruct (removeById_frame active_style_id s0) as (T2 & R2 & W2 & _).
  destruct (removeById_frame overlay_id s2) as (T3 & R3 & W3 & _).
  destruct (stopConsoleSpam_frame s3) as (D4 & W4 & _).
  fold s2 in T2, R2, W2. fold s3 in T3, R3, W3. fold s4 in D4, W4.
  assert (W0 : window s0 = window st) by reflexivity.
  do 3 (rewrite W4, W3, W2, W0, Hb; cbn [window set_style upd_document]).
  rewrite W4, W3, W2, W0, Hn.
  eexists. split; [reflexivity|].
  destruct (removeById_same active_style_id st s0 eq_refl eq_refl) as [Hh2 Hb2].
  fold s2 in Hh2, Hb2.
  destruct (removeById_same overlay_id (removeById active_style_id st) s2 Hh2 Hb2)
    as [Hh3 Hb3].
  fold s3 in Hh3, Hb3.
  assert (H3 : this s3 = this s0) by congruence.
  assert (Hr3 : rt s3 = rt st) by (rewrite R3, R2; reflexivity).
  cbn [document upd_rt set_style upd_document doc_head doc_body set_body_style rt
       listeners console timers this set_console].
  split; [rewrite D4; exact Hh3|].
  split; [rewrite D4; exact Hb3|].
  unfold s4, stopConsoleSpam. rewrite H3.
  cbn [s0 this classList_remove upd_document upd_this consoleSpamInterval
       set_isDevToolsOpen set_protectionActive].
  destruct (consoleSpamInterval (this st));
    cbn [rt upd_this clearTimer upd_rt listeners timers console warningShown this
         set_timers set_consoleSpamInterval];
    rewrite ?Hr3, ?H3; repeat split.
Qed.

(** X13.  Detection followed by deactivation, from an idle page the script
    has reached: the instance and the head and body node lists are what
    they were.  Three things stay behind: the inline filter, opacity and
    pointer-events of the body are empty whatever the page had set, the
    click listener registered on the removed overlay stays in the listener
    table, and the timer table is the one before with the 5000 ms timeout
    of the detection added (the console-spam timer is gone). *)
Theorem detect_then_close st :
  reachable st -> isDevToolsOpen (this st) = false ->
  exists st1 st2,
    handleDevToolsDetected st = Normal st1 /\
    deactivateProtection st1 = Normal st2 /\
    this st2 = this st /\
    doc_head (document st2) = doc_head (document st) /\
    doc_body (document st2) = doc_body (document st) /\
    body_style (document st2) = mkStyle "" "" "" /\
    listeners (rt st2) =
      listeners (rt st)
      ++ [mkRegistration (Elem (S (next_handle (rt st)))) click false LOverlayClick] /\
    timers (rt st2) =
      timers (rt st) ++ [mkTimer (Pos.succ (next_timer (rt st))) false 5000 CbRedirect].
Proof.
  intros Hr Hc.
  destruct (reachable_wellFormed st Hr) as (_ & _ & _ & Wt & _).
  destruct (reachable_Inv st Hr) as [I1 I2 I3 I4 I5 _ I7].
  unfold spamState in I5. rewrite Hc in I2, I3, I4, I5. destruct I5 as [Hi Hs].
  assert (Hg : getElementById overlay_id st = None) by (apply getElementById_none, I3).
  pose proof (handle_effect_listeners st I1 I7 Hc I2 Hi Hg) as Hl1.
  destruct (handle_effect st I1 I7 Hc I2 Hi Hg)
    as (st1 & E1 & Ht1 & Htm1 & Hh1 & Hb1 & _ & Hw1 & _).
  rewrite E1 in Hl1. cbn [final] in Hl1.
  assert (Hn1 : consoleNative (window st1)) by (rewrite Hw1; exact I1).
  assert (Hp1 : bodyPresent (window st1) = true) by (rewrite Hw1; exact I7).
  destruct (deactivate_effect st1 Hn1 Hp1)
    as (st2 & E2 & Ho2 & Ha2 & Hi2 & Hst2 & _ & _ & _ & _ & Hsp2 & _).
  destruct (deactivate_nodes st1 Hn1 Hp1)
    as (st2' & E2' & Hh2 & Hb2 & Hl2 & Hws2 & _ & Htm2).
  rewrite E2 in E2'. injection E2' as <-.
  exists st1, st2. split; [exact E1|]. split; [exact E2|].
  destruct (count_zero_filters _ _ I3) as [Foh Fob].
  destruct (count_zero_filters _ _ I4) as [Fah Fab].
  set (sn := mkNode (next_handle (rt st)) "STYLE" active_style_id) in *.
  set (ov := mkNode (S (next_handle (rt st))) "DIV" overlay_id) in *.
  (* the style node goes first *)
  destruct (removeById_nodes active_style_id st1) as [Rh Rb].
  unfold all_nodes in Rh, Rb. rewrite Hh1, Hb1, <- app_assoc in Rh, Rb.
  cbn [app] in Rh, Rb.
  rewrite (find_first_fresh (has_id active_style_id) _ sn _ Fah eq_refl) in Rh, Rb.
  rewrite without_last, Node_eqb_refl, app_nil_r,
    (without_fresh active_style_id sn _ eq_refl Fah) in Rh.
  rewrite without_last, (Node_eqb_ids sn ov),
    (without_fresh active_style_id sn _ eq_refl Fab) in Rb by discriminate.
  (* then the overlay *)
  destruct (removeById_nodes overlay_id (removeById active_style_id st1)) as [Qh Qb].
  unfold all_nodes in Qh, Qb. rewrite Rh, Rb, app_assoc in Qh, Qb.
  assert (Fo : filter (has_id overlay_id)
                 (doc_head (document st) ++ doc_body (document st)) = [])
    by (rewrite filter_app, Foh, Fob; reflexivity).
  rewrite (find_first_fresh (has_id overlay_id) _ ov [] Fo eq_refl) in Qh, Qb.
  rewrite (without_fresh overlay_id ov _ eq_refl Foh) in Qh.
  rewrite without_last, Node_eqb_refl, app_nil_r,
    (without_fresh overlay_id ov _ eq_refl Fob) in Qb.
  split.
  { destruct (this st2) as [o a w i] eqn:Et2, (this st) as [o' a' w' i'] eqn:Et.
    rewrite Ht1 in Hws2. cbn in *. congruence. }
  split; [congruence|]. split; [congruence|].
  split; [exact Hst2|].
  split; [congruence|].
  rewrite Htm2, Ht1. cbn [consoleSpamInterval]. rewrite Htm1, !filter_app.
  cbn [filter tid]. rewrite Pos.eqb_refl.
  replace (Pos.succ (next_timer (rt st)) =? next_timer (rt st))%positive with false
    by (symmetry; apply Pos.eqb_neq; lia).
  cbn [negb app]. rewrite app_nil_r. f_equal.
  apply filter_id. intros y Hy. specialize (Wt y Hy).
  apply negb_true_iff, Pos.eqb_neq. lia.
Qed.

Lemma detect_then_close_witness :
  reachable idlePage /\
  exists st2, deactivateProtection (final (handleDevToolsDetected idlePage)) = Normal st2 /\
              doc_body (document st2) = doc_body (document idlePage) /\
              length (listeners (rt st2)) = S (length (listeners (rt idlePage))).
Proof.
  split; [exact idlePage_reachable|].
  destruct (detect_then_close idlePage idlePage_reachable eq_refl)
    as (st1 & st2 & E1 & E2 & _ & _ & Hb & _ & Hl & _).
  exists st2. rewrite E1. cbn [final]. split; [exact E2|]. split; [exact Hb|].
  rewrite Hl, length_app. cbn [length]. lia.
Defined.

(** ** Nodes the script attaches for a while *)

(** X14.  The element-inspection probe cleans up after itself: on a page
    the script has reached, the probe attaches one hidden node and one
    observer and arms one 10000 ms timeout, and when that timeout comes due
    the node, the observer and the timeout are gone again, with the
    instance, the document lists, the observers and the timer table exactly
    as before the probe. *)
Theorem inspection_probe_cleanup st :
  reachable st ->
  exists st1 x,
    detectElementInspection st = Normal st1 /\
    doc_body (document st1) =
      doc_body (document st) ++ [mkNode (next_handle (rt st)) "DIV" ""] /\
    length (observers (rt st1)) = S (length (observers (rt st))) /\
    timers (rt st1) = timers (rt st) ++ [x] /\
    delay x = 10000 /\ repeating x = false /\
    this (fire x st1) = this st /\
    doc_head (document (fire x st1)) = doc_head (document st) /\
    doc_body (document (fire x st1)) = doc_body (document st) /\
    observers (rt (fire x st1)) = observers (rt st) /\
    timers (rt (fire x st1)) = timers (rt st).
Proof.
  intros Hr. destruct (reachable_wellFormed st Hr) as (Wh & Wb & Wo & Wt & _).
  pose proof (inv_body _ (reachable_Inv st Hr)) as Hp.
  set (te := mkNode (next_handle (rt st)) "DIV" "").
  set (x := mkTimer (next_timer (rt st)) false 10000
              (CbInspectCleanup (S (next_handle (rt st))) te)).
  eexists _, x.
  unfold detectElementInspection, createElement, andThen, withBody.
  cbn [window upd_rt]. rewrite Hp.
  split; [reflexivity|]. split; [reflexivity|].
  split; [cbn; rewrite length_app; cbn; lia|].
  split; [reflexivity|]. split; [reflexivity|]. split; [reflexivity|].
  match goal with |- context [fire x ?s] => set (st1 := s) end.
  assert (Hp1 : pending x st1 = true).
  { unfold pending. cbn. apply existsb_last, Timer_eqb_refl. }
  unfold fire. rewrite Hp1. cbn [repeating x callback callbackBody].
  unfold inspectCleanupBody, andThen, modify, whenM, ifM.
  assert (Ha : forall f, attached te (upd_rt f (dropTimer x st1)) = true).
  { intros f. unfold attached, all_nodes. cbn. rewrite app_assoc.
    apply existsb_last, Node_eqb_refl. }
  rewrite Ha. cbn -[without filter Timer_eqb te].
  split; [reflexivity|].
  split; [apply without_unused; exact Wh|].
  split.
  { rewrite without_last, Node_eqb_refl, app_nil_r. apply without_unused; exact Wb. }
  split.
  { rewrite filter_app. cbn. rewrite Nat.eqb_refl. cbn. rewrite app_nil_r.
    apply filter_id. intros o Hi. specialize (Wo o Hi).
    apply negb_true_iff, Nat.eqb_neq. lia. }
  apply (drop_new_timer x). exact Wt.
Qed.

Lemma inspection_probe_cleanup_witness :
  reachable idlePage /\
  exists st1 x, detectElementInspection idlePage = Normal st1 /\
                doc_body (document (fire x st1)) = doc_body (document idlePage).
Proof.
  split; [exact idlePage_reachable|].
  destruct (inspection_probe_cleanup idlePage idlePage_reachable)
    as (st1 & x & E & _ & _ & _ & _ & _ & _ & _ & Hb & _).
  exists st1, x. split; [exact E | exact Hb].
Defined.

(** X15.  The life of a warning toast, on a page the script has reached
    with no toast showing: [showWarning] attaches one node to the body and
    one style to the head and arms a 4000 ms timeout; while the toast is
    shown a further [showWarning] does nothing; the timeout removes the
    style, clears the flag and arms a 400 ms timeout while the toast is
    still attached; and that timeout removes the toast, after which the
    instance, the document lists and the timer table are exactly what they
    were before the first call. *)
Theorem warning_lifecycle msg st :
  reachable st -> warningShown (this st) = false ->
  exists st1 hide remove,
    showWarning msg st = Normal st1 /\
    (forall msg', showWarning msg' st1 = Normal st1) /\
    doc_head (document st1) =
      doc_head (document st) ++ [mkNode (S (next_handle (rt st))) "STYLE" ""] /\
    doc_body (document st1) =
      doc_body (document st) ++ [mkNode (next_handle (rt st)) "DIV" ""] /\
    timers (rt st1) = timers (rt st) ++ [hide] /\ delay hide = 4000 /\
    warningShown (this (fire hide st1)) = false /\
    doc_head (document (fire hide st1)) = doc_head (document st) /\
    doc_body (document (fire hide st1)) = doc_body (document st1) /\
    timers (rt (fire hide st1)) = timers (rt st) ++ [remove] /\ delay remove = 400 /\
    this (fire remove (fire hide st1)) = this st /\
    doc_head (document (fire remove (fire hide st1))) = doc_head (document st) /\
    doc_body (document (fire remove (fire hide st1))) = doc_body (document st) /\
    timers (rt (fire remove (fire hide st1))) = timers (rt st).
Proof.
  intros Hr Hw. destruct (reachable_wellFormed st Hr) as (Wh & Wb & _ & Wt & _).
  pose proof (inv_body _ (reachable_Inv st Hr)) as Hp.
  set (w := mkNode (next_handle (rt st)) "DIV" "").
  set (a := mkNode (S (next_handle (rt st))) "STYLE" "").
  set (hide := mkTimer (next_timer (rt st)) false 4000 (CbWarningHide w a)).
  set (remove := mkTimer (Pos.succ (next_timer (rt st))) false 400 (CbWarningRemove w)).
  assert (E1 : exists st1, showWarning msg st = Normal st1 /\
             this st1 = set_warningShown true (this st) /\
             doc_head (document st1) = doc_head (document st) ++ [a] /\
             doc_body (document st1) = doc_body (document st) ++ [w] /\
             timers (rt st1) = timers (rt st) ++ [hide] /\
             next_timer (rt st1) = Pos.succ (next_timer (rt st))).
  { unfold showWarning, ifM. rewrite Hw.
    unfold createElement, andThen, withBody. cbn [window upd_this upd_rt].
    rewrite Hp. eexists. split; [reflexivity|]. repeat split. }
  destruct E1 as (st1 & E1 & T1 & H1 & B1 & M1 & N1).
  exists st1, hide, remove.
  split; [exact E1|].
  split; [intros msg'; unfold showWarning, ifM; rewrite T1; reflexivity|].
  split; [exact H1|]. split; [exact B1|]. split; [exact M1|]. split; [reflexivity|].
  (* the 4000 ms timeout *)
  assert (Hp1 : pending hide st1 = true).
  { unfold pending. rewrite M1. apply existsb_last, Timer_eqb_refl. }
  assert (Hwa : forall s, all_nodes s = all_nodes st1 ->
                          attached w s = true /\ attached a s = true).
  { intros s Hs. unfold attached. rewrite Hs. unfold all_nodes. rewrite H1, B1.
    split.
    - rewrite app_assoc. apply existsb_last, Node_eqb_refl.
    - rewrite existsb_app, (existsb_last _ _ a (Node_eqb_refl a)). reflexivity. }
  assert (E2 : exists st2, fire hide st1 = st2 /\
             this st2 = set_warningShown false (this st1) /\
             doc_head (document st2) = doc_head (document st) /\
             doc_body (document st2) = doc_body (document st1) /\
             timers (rt st2) = timers (rt st) ++ [remove]).
  { unfold fire. rewrite Hp1. cbn [repeating hide callback callbackBody].
    unfold warningHideBody, andThen, modify, whenM, ifM.
    rewrite (proj1 (Hwa (dropTimer hide st1) eq_refl)).
    match goal with
    | |- context [attached a ?s] => rewrite (proj2 (Hwa s eq_refl))
    end.
    eexists. split; [reflexivity|].
    cbn -[without filter Timer_eqb]. rewrite H1, B1, M1, N1.
    split; [reflexivity|]. split; [|split].
    - rewrite without_last, Node_eqb_refl, app_nil_r.
      apply without_unused. intros y Hy. specialize (Wh y Hy). cbn. lia.
    - rewrite without_last, (Node_eqb_handles a w) by (cbn; lia).
      f_equal. apply without_unused. intros y Hy. specialize (Wb y Hy). cbn. lia.
    - f_equal. apply (drop_new_timer hide). exact Wt. }
  destruct E2 as (st2 & -> & T2 & H2 & B2 & M2).
  split; [rewrite T2; reflexivity|].
  split; [exact H2|]. split; [exact B2|]. split; [exact M2|]. split; [reflexivity|].
  (* the 400 ms timeout *)
  assert (Hp2 : pending remove st2 = true).
  { unfold pending. rewrite M2. apply existsb_last, Timer_eqb_refl. }
  unfold fire. rewrite Hp2. cbn [repeating remove callback callbackBody].
  cbn -[without filter Timer_eqb]. rewrite T2, T1, H2, B2, B1, M2.
  split; [|split; [|split]].
  - destruct (this st) as [o p ws i]. cbn in *. rewrite Hw. reflexivity.
  - apply without_unused. intros y Hy. specialize (Wh y Hy). cbn. lia.
  - rewrite without_last, Node_eqb_refl, app_nil_r.
    apply without_unused. intros y Hy. specialize (Wb y Hy). cbn. lia.
  - apply (drop_new_timer remove). intros y Hy. specialize (Wt y Hy). cbn. lia.
Qed.

Lemma warning_lifecycle_witness :
  reachable idlePage /\
  exists st1 hide remove,
    showWarning "Printing is disabled" idlePage = Normal st1 /\
    length (doc_body (document st1)) = S (length (doc_body (document idlePage))) /\
    doc_body (document (fire remove (fire hide st1))) = doc_body (document idlePage).
Proof.
  split; [exact idlePage_reachable|].
  destruct (warning_lifecycle "Printing is disabled" idlePage idlePage_reachable eq_refl)
    as (st1 & hide & remove & E & _ & _ & Hb & _ & _ & _ & _ & _ & _ & _ & _ & _ & Hb3 & _).
  exists st1, hide, remove. split; [exact E|]. split; [|exact Hb3].
  rewrite Hb, length_app. cbn [length]. lia.
Defined.

(** X16.  Each run of the element-inspection interval on a page with a
    body attaches a new hidden node, a new observer and a new timeout and
    removes nothing: [n] runs in a row leave [n] more of each.  On a page
    without a body every run stops at the append and leaves none. *)
Theorem inspection_probes_accumulate st y n :
  pending y st = true -> callback y = CbElementInspection -> repeating y = true ->
  let k := if bodyPresent (window st) then n else 0%nat in
  length (doc_body (document (Nat.iter n (fire y) st))) =
    (length (doc_body (document st)) + k)%nat /\
  length (observers (rt (Nat.iter n (fire y) st))) =
    (length (observers (rt st)) + k)%nat /\
  length (timers (rt (Nat.iter n (fire y) st))) =
    (length (timers (rt st)) + k)%nat.
Proof.
  intros Hp Hc Hrep k.
  assert (H : pending y (Nat.iter n (fire y) st) = true /\
              window (Nat.iter n (fire y) st) = window st /\
              length (doc_body (document (Nat.iter n (fire y) st))) =
                (length (doc_body (document st)) + k)%nat /\
              length (observers (rt (Nat.iter n (fire y) st))) =
                (length (observers (rt st)) + k)%nat /\
              length (timers (rt (Nat.iter n (fire y) st))) =
                (length (timers (rt st)) + k)%nat); [|apply H].
  subst k. induction n as [|m IH].
  - cbn [Nat.iter]. destruct (bodyPresent (window st)); rewrite !Nat.add_0_r; auto.
  - change (Nat.iter (S m) (fire y) st) with (fire y (Nat.iter m (fire y) st)).
    destruct IH as (Hpk & Hwk & Hb & Ho & Ht).
    set (s := Nat.iter m (fire y) st) in *.
    unfold fire. rewrite Hpk, Hrep, Hc. cbn [callbackBody].
    unfold detectElementInspection, createElement, andThen, withBody.
    cbn [window upd_rt]. rewrite Hwk.
    unfold pending in *.
    destruct (bodyPresent (window st)); cbn.
    + rewrite existsb_app, Hpk, !length_app, Hb, Ho, Ht.
      cbn [length orb]. repeat split; try lia. exact Hwk.
    + rewrite Hpk, Hb, Ho, Ht. repeat split. exact Hwk.
Qed.

Lemma inspection_probes_accumulate_witness :
  pending (mkTimer 4 true 1500 CbElementInspection) idlePage = true /\
  length (doc_body (document
            (Nat.iter 7 (fire (mkTimer 4 true 1500 CbElementInspection)) idlePage))) =
    (length (doc_body (document idlePage)) + 7)%nat.
Proof.
  split; [reflexivity|].
  exact (proj1 (inspection_probes_accumulate idlePage
                  (mkTimer 4 true 1500 CbElementInspection) 7
                  eq_refl eq_refl eq_refl)).
Defined.

(** ** What the shadowed method would have installed *)

Lemma EventType_eqb_eq a b : EventType_eqb a b = true -> a = b.
Proof. destruct a, b; cbn; intros H; try discriminate; reflexivity. Qed.

Lemma listening_typed st on ty r :
  wellFormed st -> In r (filter (listens st on ty) (listeners (rt st))) ->
  typedRegistration r /\ reg_type r = ty.
Proof.
  intros (_ & _ & _ & _ & Hl) Hin. apply filter_In in Hin. destruct Hin as [Hin Hls].
  split; [apply Hl, Hin|].
  unfold listens in Hls. apply andb_true_iff in Hls. apply EventType_eqb_eq, Hls.
Qed.

Lemma deliver_identity ls c :
  (forall r, In r ls -> listenerBody (reg_listener r) c = Normal c) ->
  deliver ls c = c.
Proof.
  induction ls as [|r ls IH]; intros H; cbn [deliver]; [reflexivity|].
  rewrite (H r (or_introl eq_refl)). cbn [final]. apply IH.
  intros r' Hr'. apply H. right. exact Hr'.
Qed.

Lemma deliver_middle ls c :
  (forall r, In r ls -> reg_listener r = LMousedownMiddle) ->
  snd (deliver ls c) = snd c.
Proof.
  revert c. induction ls as [|r ls IH]; intros c H; cbn [deliver]; [reflexivity|].
  rewrite IH by (intros r' Hr'; apply H; right; exact Hr').
  rewrite (H r (or_introl eq_refl)). cbn [listenerBody].
  unfold onMousedownMiddle, whenM, ifM, onEvent, modify, skip.
  destruct (button (fst c) =? 1); reflexivity.
Qed.

(** X17.  On every page the script has reached, the listeners of the first
    [setupAdvancedProtection] are absent and nothing else takes their
    place: a mouse press never changes the page (no detection, also with
    Ctrl held), a press of any button but the middle one leaves the event
    untouched as well, and selectstart, message and fetch events pass with
    event and page as they were. *)
Theorem shadowed_listeners_absent st on e :
  reachable st ->
  snd (dispatchEvent on mousedown e st) = st /\
  (button e <> 1 -> dispatchEvent on mousedown e st = (e, st)) /\
  dispatchEvent on selectstart e st = (e, st) /\
  dispatchEvent on message e st = (e, st) /\
  dispatchEvent on fetchCall e st = (e, st).
Proof.
  intros Hr. pose proof (reachable_wellFormed st Hr) as Hwf.
  assert (Hmid : forall r, In r (filter (listens st on mousedown) (listeners (rt st))) ->
                           reg_listener r = LMousedownMiddle).
  { intros r Hin. destruct (listening_typed st on mousedown r Hwf Hin) as [Ht Hty].
    unfold typedRegistration in Ht.
    destruct (reg_listener r); try reflexivity; try contradiction; congruence. }
  assert (Hnone : forall ty,
            ty = selectstart \/ ty = message \/ ty = fetchCall ->
            dispatchEvent on ty e st = (e, st)).
  { intros ty Hty. unfold dispatchEvent. apply deliver_identity. intros r Hin.
    destruct (listening_typed st on ty r Hwf Hin) as [Ht E].
    unfold typedRegistration in Ht.
    destruct (reg_listener r); try contradiction;
      destruct Hty as [E'|[E'|E']]; congruence. }
  split; [|split; [|split; [|split]]].
  - unfold dispatchEvent. rewrite (deliver_middle _ _ Hmid). reflexivity.
  - intros Hb. unfold dispatchEvent. apply deliver_identity. intros r Hin.
    rewrite (Hmid r Hin). cbn [listenerBody].
    unfold onMousedownMiddle, whenM, ifM. cbn [fst].
    destruct (Z.eqb_spec (button e) 1); [contradiction | reflexivity].
  - apply Hnone. auto.
  - apply Hnone. auto.
  - apply Hnone. auto.
Qed.

Lemma shadowed_listeners_absent_witness :
  reachable detectedPage /\
  dispatchEvent Doc mousedown ctrlClick detectedPage = (ctrlClick, detectedPage).
Proof.
  split; [exact detectedPage_reachable|].
  destruct (shadowed_listeners_absent detectedPage Doc ctrlClick detectedPage_reachable)
    as (_ & H & _).
  apply H. discriminate.
Defined.

(** ** Setup deferred to DOMContentLoaded *)

Ltac gb_same :=
  idtac;
  lazymatch goal with
  | H : grewByOverlays ?L ?s |- grewByOverlays ?L _ =>
      let l := fresh "l" in
      let E := fresh "E" in
      let Ho := fresh "Ho" in
      destruct H as (l & E & Ho); exists l; split; [cbn; exact E | exact Ho]
  end.

Lemma grew_console_call L m msg : preserves (grewByOverlays L) (console_call m msg).
Proof.
  intros st H. unfold console_call.
  destruct (consoleThrows (window st) m); cbn [final]; [exact H | gb_same].
Qed.

Lemma grew_startConsoleSpam L : preserves (grewByOverlays L) startConsoleSpam.
Proof.
  intros st H. unfold startConsoleSpam.
  destruct (consoleSpamInterval (this st)); cbn [final]; [exact H | gb_same].
Qed.

Lemma grew_applyVisualRestrictions L :
  preserves (grewByOverlays L) applyVisualRestrictions.
Proof.
  intros st H. unfold applyVisualRestrictions, createElement.
  cbv beta iota zeta. cbn [final]. gb_same.
Qed.

Lemma grew_showProtectionOverlay L :
  preserves (grewByOverlays L) showProtectionOverlay.
Proof.
  intros st H. unfold showProtectionOverlay, createElement.
  destruct (getElementById overlay_id st); cbv beta iota zeta; [exact H|].
  unfold andThen, withBody, modify. cbn [window upd_rt].
  destruct (bodyPresent (window st)); cbn [final]; [|gb_same].
  destruct H as (l & E & Ho).
  exists (l ++ [mkRegistration (Elem (next_handle (rt st))) click false LOverlayClick]).
  split.
  - cbn. rewrite E, app_assoc. reflexivity.
  - intros r Hr. apply in_app_or in Hr. destruct Hr as [Hr|[<-|[]]]; [auto | reflexivity].
Qed.

Lemma grew_detectExisting L : preserves (grewByOverlays L) detectExistingDevTools.
Proof.
  unfold detectExistingDevTools, handleDevToolsDetected, activateProtection.
  pres_struct ltac:(first [ apply grew_console_call | apply grew_startConsoleSpam
                          | apply grew_applyVisualRestrictions
                          | apply grew_showProtectionOverlay ])
              gb_same.
Qed.

Lemma init_rest_loading st :
  readyStateLoading (window st) = true ->
  exists st',
    (disableAllDevToolsAccess ;; startContinuousDetection ;;
     ifM (fun st => readyStateLoading (window st))
       (modify (addEventListener Doc DOMContentLoaded LDomReady false))
       setupAdvancedProtection) st = Normal st' /\
    window st' = window st /\
    listeners (rt st') =
      listeners (rt st) ++ coreListeners
      ++ [mkRegistration Doc DOMContentLoaded false LDomReady].
Proof.
  intros Hl.
  unfold disableAllDevToolsAccess, startContinuousDetection, andThen, modify, ifM,
    setInterval, addTimer, coreListeners.
  cbn. rewrite Hl. eexists. split; [reflexivity|]. split; [reflexivity|].
  cbn. rewrite <- !app_assoc. reflexivity.
Qed.

Lemma filter_none {A} (f : A -> bool) l :
  (forall x, In x l -> f x = false) -> filter f l = [].
Proof.
  intros H. induction l as [|x l IH]; cbn; [reflexivity|].
  rewrite (H x (or_introl eq_refl)). apply IH. intros y Hy. apply H. right. exact Hy.
Qed.

(** The listener table of a page that loaded while the document was still
    being parsed, the load-time checks having completed. *)
Lemma loading_table e d :
  consoleNative e -> readyStateLoading e = true ->
  bodyPresent e = true \/ loadSignal e = false ->
  window (load e d) = e /\
  exists l0, (forall r, In r l0 -> reg_type r = click) /\
    listeners (rt (load e d)) =
      l0 ++ coreListeners ++ [mkRegistration Doc DOMContentLoaded false LDomReady].
Proof.
  intros Hn Hl Hok. unfold load.
  destruct (detectExisting_native (page e d) Hn Hok eq_refl) as (s1 & E1 & Hw1 & _).
  assert (Hg : grewByOverlays [] s1).
  { pose proof (grew_detectExisting [] (page e d)) as H. rewrite E1 in H.
    apply H. exists []. split; [reflexivity | intros r []]. }
  destruct Hg as (l0 & El0 & Hc).
  assert (Hl1 : readyStateLoading (window s1) = true) by (rewrite Hw1; exact Hl).
  destruct (init_rest_loading s1 Hl1) as (s2 & E2 & Hw2 & Hls).
  assert (E : script (page e d) =
              Normal (upd_rt (fun r => set_console (console r ++ [(c_log, MsgLoaded)]) r) s2)).
  { change (script (page e d))
      with (((detectExistingDevTools ;;
              (disableAllDevToolsAccess ;; startContinuousDetection ;;
               ifM (fun st => readyStateLoading (window st))
                 (modify (addEventListener Doc DOMContentLoaded LDomReady false))
                 setupAdvancedProtection)) ;;
             console_call c_log MsgLoaded) (page e d)).
    unfold andThen at 1. unfold andThen at 1. rewrite E1, E2.
    unfold console_call. rewrite Hw2, Hw1. cbn [window page]. rewrite Hn.
    reflexivity. }
  rewrite E. cbn [final window upd_rt rt listeners set_console].
  split; [rewrite Hw2, Hw1; reflexivity|].
  exists l0. split; [exact Hc|]. rewrite Hls, El0. reflexivity.
Qed.

(** X18.  When the script runs while the document is still being parsed
    (and the console works), and the load-time checks complete (the
    document has its body, or none of them fires), the second half of the
    setup waits: on the page as the script leaves it no drag-start, copy,
    print or key-up event is touched, whether or not the checks detected
    anything; DOMContentLoaded then appends the comprehensive style sheet
    to the head and registers exactly the four advanced listeners, leaving
    the instance, the body and the timers as they were.  When a check
    fires before the body exists, the constructor is abandoned before it
    registers anything: no event of any type is touched afterwards, and
    DOMContentLoaded installs nothing. *)
Theorem deferred_setup e d :
  consoleNative e -> readyStateLoading e = true ->
  (bodyPresent e = true \/ loadSignal e = false ->
   (forall on ty x,
      ty = dragstart \/ ty = copy \/ ty = beforeprint \/ ty = keyup ->
      dispatchEvent on ty x (load e d) = (x, load e d)) /\
   (forall x,
      fst (dispatchEvent Doc DOMContentLoaded x (load e d)) = x /\
      listeners (rt (snd (dispatchEvent Doc DOMContentLoaded x (load e d)))) =
        listeners (rt (load e d)) ++ advancedListeners /\
      doc_head (document (snd (dispatchEvent Doc DOMContentLoaded x (load e d)))) =
        doc_head (document (load e d))
        ++ [mkNode (next_handle (rt (load e d))) "STYLE" comprehensive_id] /\
      doc_body (document (snd (dispatchEvent Doc DOMContentLoaded x (load e d)))) =
        doc_body (document (load e d)) /\
      this (snd (dispatchEvent Doc DOMContentLoaded x (load e d))) = this (load e d) /\
      timers (rt (snd (dispatchEvent Doc DOMContentLoaded x (load e d)))) =
        timers (rt (load e d)))) /\
  (bodyPresent e = false -> loadSignal e = true ->
   forall on ty x, dispatchEvent on ty x (load e d) = (x, load e d)).
Proof.
  intros Hn Hl. split.
  - intros Hok. destruct (loading_table e d Hn Hl Hok) as (Hw & l0 & Hc & Hls).
    split.
    + intros on ty x Hty. unfold dispatchEvent. rewrite Hls.
      rewrite (filter_none (listens (load e d) on ty)); [reflexivity|].
      intros r Hr. unfold listens. apply andb_false_iff. right.
      apply in_app_or in Hr. destruct Hr as [Hr|Hr].
      * rewrite (Hc r Hr). destruct Hty as [E|[E|[E|E]]]; rewrite E; reflexivity.
      * cbn in Hr.
        destruct Hr as [<-|[<-|[<-|[<-|[]]]]];
          destruct Hty as [E|[E|[E|E]]]; rewrite E; reflexivity.
    + intros x.
      assert (F : filter (listens (load e d) Doc DOMContentLoaded)
                    (listeners (rt (load e d))) =
                  [mkRegistration Doc DOMContentLoaded false LDomReady]).
      { rewrite Hls, !filter_app.
        rewrite (filter_none (listens (load e d) Doc DOMContentLoaded) l0);
          [reflexivity|].
        intros r Hr. unfold listens. apply andb_false_iff. right.
        rewrite (Hc r Hr). reflexivity. }
      unfold dispatchEvent. rewrite F.
      cbn -[load]. unfold onState, setupAdvancedProtection. cbn [lastDefinition].
      unfold setupAdvancedProtection_2, setupAdvancedListeners, andThen, modify,
        createElement, advancedListeners.
      cbn -[load]. rewrite <- !app_assoc. repeat split.
  - intros Hb Hs on ty x.
    destruct (load_bodyless e d Hn Hb Hs) as (_ & _ & _ & _ & Hls & _).
    unfold dispatchEvent. rewrite Hls. reflexivity.
Qed.

Lemma deferred_setup_witness :
  consoleNative headEnv /\ readyStateLoading headEnv = true /\
  dispatchEvent Doc copy plainEvent (load headEnv headDocument) =
    (plainEvent, load headEnv headDocument) /\
  dispatchEvent Doc DOMContentLoaded plainEvent (load headDockedEnv headDocument) =
    (plainEvent, load headDockedEnv headDocument).
Proof.
  assert (Hn : consoleNative headEnv) by (intros m; reflexivity).
  assert (Hd : consoleNative headDockedEnv) by (intros m; reflexivity).
  split; [exact Hn|]. split; [reflexivity|]. split.
  - apply (proj1 (proj1 (deferred_setup headEnv headDocument Hn eq_refl)
                    (or_intror eq_refl))).
    right. left. reflexivity.
  - apply (proj2 (deferred_setup headDockedEnv headDocument Hd eq_refl));
      reflexivity.
Defined.

(** ** One overlay on a page with a body *)

(** X19.  On a page the script has loaded with its body present and a
    working console, in every state the page can reach there is at most
    one overlay node, and exactly one while the belief is open; creating
    the overlay a second time changes nothing; and once the window-size
    probe has run with a gap above its threshold, exactly one overlay node
    is present after any further probe runs, gestures, observer reports
    and timers, as long as the gap stays above the threshold. *)
Theorem overlay_singleton st :
  reachable st ->
  (count_id overlay_id st <= 1)%nat /\
  (isDevToolsOpen (this st) = true -> count_id overlay_id st = 1%nat) /\
  showProtectionOverlay (final (showProtectionOverlay st)) =
    Normal (final (showProtectionOverlay st)) /\
  (forall y ss,
     gapHigh (window st) -> pending y st = true -> callback y = CbWindowSize ->
     Forall steady ss ->
     count_id overlay_id (run ss (fire y st)) = 1%nat).
Proof.
  intros Hr. pose proof (reachable_Inv st Hr) as HI.
  split; [|split; [|split]].
  - rewrite (inv_overlay st HI). destruct (isDevToolsOpen (this st)); lia.
  - intros Ho. rewrite (inv_overlay st HI), Ho. reflexivity.
  - apply showProtectionOverlay_idempotent, (inv_body st HI).
  - intros y ss Hg Hp Hc Hs.
    assert (H1 : reachable (fire y st) /\ gapHigh (window (fire y st)) /\
                 believes (fire y st)).
    { split; [apply reach_fire, Hr|]. split.
      - change (fire y st) with (step (Fire y) st).
        rewrite (window_step (Fire y) st); [exact Hg | discriminate].
      - apply probe_high_believes; assumption. }
    destruct (steady_run ss (fire y st) Hs H1) as (Hr' & _ & Hb').
    rewrite (inv_overlay _ (reachable_Inv _ Hr')), Hb'. reflexivity.
Qed.

Lemma overlay_singleton_witness :
  reachable dockedPage /\
  count_id overlay_id
    (run [Fire windowTimer; Dispatch Doc contextmenu plainEvent; Fire windowTimer]
         (fire windowTimer dockedPage)) = 1%nat.
Proof.
  assert (Hr : reachable dockedPage).
  { apply reach_ambient; [exact idlePage_reachable | intros m; reflexivity | reflexivity]. }
  split; [exact Hr|].
  destruct (overlay_singleton dockedPage Hr) as (_ & _ & _ & H).
  apply H.
  - left. cbv. reflexivity.
  - reflexivity.
  - reflexivity.
  - repeat constructor.
Defined.
